(** * TCGA meta-dataset: task discovery and task materialization

    A shallow embedding of [src/meta_dataloader/TCGA.py]: the function
    [get_TCGA_task_ids] (which scans the clinical tables of a data directory
    and keeps the (clinical variable, cancer type) pairs with enough samples
    per class), the constructor [TCGATask.__init__] (which builds the
    feature matrix and the label sequence of one such pair), the indexing of
    a task, the gene symbol map and the collection [TCGAMeta].

    Python exceptions are values of [exn] threaded through a small error
    monad; the loops of the source are folds over an explicit accumulator;
    a pandas [DataFrame] is a header with rows of cells, each a boolean, a
    number or a string as [pd.read_csv] infers them, or NaN.  What lies
    outside the repository is an input: the listing of the clinical
    directory, the outcome of [pd.read_csv] on each file, and the row-subset
    read of h5py, a parameter whose contract is stated where it is used. *)

From Stdlib Require Import List String Ascii ZArith Lia Bool Arith.
From Stdlib Require Import QArith Qcanon DecimalString.
From Stdlib Require Import Permutation Sorted Mergesort Orders OrdersEx.
Import ListNotations.

Close Scope Qc_scope.
Close Scope Q_scope.

Set Implicit Arguments.

(** ** Exceptions and the error monad *)

Inductive exn : Type :=
| KeyError      (* a DataFrame has no column of that name *)
| ValueError    (* list.index on an absent element, unpacking too few values *)
| IndexError    (* an index out of bounds *)
| OverflowError (* a numpy index that does not fit a C long *)
| TypeError     (* h5py: positions that are not strictly increasing *)
| OSError       (* a file cannot be opened *)
| ParserError   (* pandas.read_csv cannot parse a file *)
| SystemExit.   (* sys.exit() *)

Definition result (A : Type) : Type := (exn + A)%type.

Definition ret {A : Type} (a : A) : result A := inr a.
Definition raise {A : Type} (e : exn) : result A := inl e.

Definition bind {A B : Type} (c : result A) (k : A -> result B) : result B :=
  match c with
  | inl e => inl e
  | inr a => k a
  end.

Notation "x <- c ;; k" := (bind c (fun x => k))
  (at level 61, c at next level, right associativity).

(** [for x in l: acc = body acc x], stopping at the first exception. *)
Fixpoint foldM {A S : Type} (body : S -> A -> result S) (l : list A) (acc : S)
  : result S :=
  match l with
  | [] => ret acc
  | x :: l' => acc' <- body acc x ;; foldM body l' acc'
  end.

(** [[f x for x in l]], stopping at the first exception. *)
Fixpoint mapM {A B : Type} (f : A -> result B) (l : list A) : result (list B) :=
  match l with
  | [] => ret []
  | x :: l' => y <- f x ;; ys <- mapM f l' ;; ret (y :: ys)
  end.

(** ** Python lists of strings *)

(** [x in l] *)
Definition str_in (x : string) (l : list string) : bool :=
  existsb (String.eqb x) l.

(** Position of the first occurrence of [x] in [l], if any. *)
Fixpoint find_index (x : string) (l : list string) : option nat :=
  match l with
  | [] => None
  | y :: l' => if String.eqb x y then Some 0
               else option_map S (find_index x l')
  end.

(** ** pandas: values, cells, series, data frames *)

(** The numbers of a column of dtype int64 or float64: a rational or an
    infinity.  An int and a float of the same value are one dict key to
    Python and one category to pandas.  NaN is not among them. *)
Inductive number : Type :=
| NegInf
| Finite (q : Qc)
| PosInf.

(** What [pd.read_csv] makes of a field that is not missing. *)
Inductive scalar : Type :=
| Bool (b : bool)
| Num (x : number)
| Str (s : string).

Coercion Str : string >-> scalar.

(** The number of a field that holds an integer. *)
Definition int (z : Z) : scalar := Num (Finite (Q2Qc (inject_Z z))).

(** A cell of a clinical table: a value, or NaN. *)
Definition cell : Type := option scalar.

(** A string where a cell is expected is the cell that holds that string. *)
Arguments Some {A} & a.

Definition number_eq_dec (a b : number) : {a = b} + {a <> b}.
Proof. decide equality. apply Qc_eq_dec. Defined.

Definition scalar_eq_dec (a b : scalar) : {a = b} + {a <> b}.
Proof.
  decide equality; [apply bool_dec | apply number_eq_dec | apply string_dec].
Defined.

Definition cell_eq_dec (a b : cell) : {a = b} + {a <> b}.
Proof. decide equality. apply scalar_eq_dec. Defined.

Arguments scalar_eq_dec : simpl never.
Arguments cell_eq_dec : simpl never.

Definition cell_eqb (a b : cell) : bool :=
  if cell_eq_dec a b then true else false.

Record DataFrame : Type := {
  columns : list string;        (* the header *)
  rows : list (list cell)       (* one list of cells per line *)
}.

(** [matrix[name]]: the column as a series; a line shorter than the header
    is padded with NaN, as [read_csv] does. *)
Definition getitem (matrix : DataFrame) (name : string) : result (list cell) :=
  match find_index name (columns matrix) with
  | None => raise KeyError
  | Some j => ret (map (fun r => nth j r None) (rows matrix))
  end.

(** The dtype of a column: [read_csv] gives int64 or float64 to a column
    whose fields are all numbers or missing, and the dtype object to a
    column that holds a string, or a boolean beside a missing field.  A
    selection of the lines of a column keeps its dtype. *)
Definition is_numeric (column : list cell) : bool :=
  forallb (fun c => match c with
                    | Some (Num _) | None => true
                    | Some _ => false
                    end) column.

(** [series.notnull()] *)
Definition notnull (s : list cell) : list bool :=
  map (fun c => match c with Some _ => true | None => false end) s.

(** [series.isin(values)] for a collection of strings: a string is in it
    when it equals one of them; a boolean, a number and NaN equal none. *)
Definition isin (s : list cell) (values : list string) : list bool :=
  map (fun c => match c with
                | Some (Str x) => str_in x values
                | _ => false
                end) s.

(** [m1 & m2] on two boolean series over the same lines. *)
Fixpoint mask_and (m1 m2 : list bool) : list bool :=
  match m1, m2 with
  | b1 :: m1', b2 :: m2' => (b1 && b2) :: mask_and m1' m2'
  | _, _ => []
  end.

(** [series[mask]]: the entries on the lines where the mask holds. *)
Fixpoint select {A : Type} (s : list A) (mask : list bool) : list A :=
  match s, mask with
  | x :: s', b :: mask' => if b then x :: select s' mask' else select s' mask'
  | _, _ => []
  end.

(** [series.dropna().tolist()] *)
Fixpoint dropna (s : list cell) : list scalar :=
  match s with
  | [] => []
  | Some x :: s' => x :: dropna s'
  | None :: s' => dropna s'
  end.

(** The strings among the entries of a series. *)
Fixpoint strings (s : list cell) : list string :=
  match s with
  | [] => []
  | Some (Str x) :: s' => x :: strings s'
  | _ :: s' => strings s'
  end.

(** ** Orders used by [sorted] and by the categorical encoding *)

Definition bool_compare (a b : bool) : comparison :=
  match a, b with
  | false, true => Lt
  | true, false => Gt
  | _, _ => Eq
  end.

Definition number_compare (a b : number) : comparison :=
  match a, b with
  | NegInf, NegInf => Eq
  | NegInf, _ => Lt
  | Finite _, NegInf => Gt
  | Finite p, Finite q => Qccompare p q
  | Finite _, PosInf => Lt
  | PosInf, PosInf => Eq
  | PosInf, _ => Gt
  end.

(** The order in which pandas sorts the distinct values of a column: False
    before True, numbers by value, strings as Python compares them, by code
    point; and, where a column of dtype object holds values of several
    kinds, what is not a string before the strings. *)
Definition scalar_compare (a b : scalar) : comparison :=
  match a, b with
  | Bool x, Bool y => bool_compare x y
  | Bool _, _ => Lt
  | Num _, Bool _ => Gt
  | Num x, Num y => number_compare x y
  | Num _, Str _ => Lt
  | Str x, Str y => String_as_OT.compare x y
  | Str _, _ => Gt
  end.

Definition scalar_lt (a b : scalar) : Prop := scalar_compare a b = Lt.

Definition scalar_leb (a b : scalar) : bool :=
  match scalar_compare a b with
  | Gt => false
  | _ => true
  end.

Lemma bool_compare_antisym (a b : bool) :
  bool_compare b a = CompOpp (bool_compare a b).
Proof. destruct a, b; reflexivity. Qed.

Lemma number_compare_antisym (a b : number) :
  number_compare b a = CompOpp (number_compare a b).
Proof.
  destruct a as [| p |], b as [| q |]; try reflexivity.
  simpl. unfold Qccompare. symmetry. apply Qcompare_antisym.
Qed.

Lemma string_lt_irrefl (a : string) : ~ String_as_OT.lt a a.
Proof. exact (@StrictOrder_Irreflexive _ _ String_as_OT.lt_strorder a). Qed.

Lemma string_lt_trans (a b c : string) :
  String_as_OT.lt a b -> String_as_OT.lt b c -> String_as_OT.lt a c.
Proof. exact (@StrictOrder_Transitive _ _ String_as_OT.lt_strorder a b c). Qed.

Lemma string_compare_eq (a b : string) :
  String_as_OT.compare a b = Eq <-> a = b.
Proof.
  destruct (String_as_OT.compare_spec a b) as [E | L | L].
  - tauto.
  - split; [discriminate |]. intros ->. now apply string_lt_irrefl in L.
  - split; [discriminate |]. intros ->. now apply string_lt_irrefl in L.
Qed.

Lemma string_compare_antisym (a b : string) :
  String_as_OT.compare b a = CompOpp (String_as_OT.compare a b).
Proof.
  destruct (String_as_OT.compare_spec a b) as [E | L | L];
    destruct (String_as_OT.compare_spec b a) as [E' | L' | L'];
    try reflexivity; exfalso.
  all: unfold String_as_OT.eq in *.
  all: try (subst; eapply string_lt_irrefl; eassumption).
  all: eapply string_lt_irrefl, string_lt_trans; eassumption.
Qed.

Lemma scalar_compare_antisym (a b : scalar) :
  scalar_compare b a = CompOpp (scalar_compare a b).
Proof.
  destruct a, b; try reflexivity; simpl.
  - apply bool_compare_antisym.
  - apply number_compare_antisym.
  - apply string_compare_antisym.
Qed.

Lemma scalar_leb_total (a b : scalar) :
  scalar_leb a b = true \/ scalar_leb b a = true.
Proof.
  unfold scalar_leb. rewrite (scalar_compare_antisym a b).
  destruct (scalar_compare a b); simpl; auto.
Qed.

Module ScalarOrder <: TotalLeBool.
Definition t : Type := scalar.
Definition leb : t -> t -> bool := scalar_leb.
Definition leb_total : forall a b, leb a b = true \/ leb b a = true :=
  scalar_leb_total.
End ScalarOrder.

Module ScalarSort := Sort ScalarOrder.

(** Python compares tuples lexicographically: first components first. *)
Definition pair_leb (p q : nat * Z) : bool :=
  if Nat.eqb (fst p) (fst q) then Z.leb (snd p) (snd q)
  else Nat.ltb (fst p) (fst q).

Lemma pair_leb_total (p q : nat * Z) : pair_leb p q = true \/ pair_leb q p = true.
Proof.
  unfold pair_leb. rewrite (Nat.eqb_sym (fst q)).
  destruct (Nat.eqb_spec (fst p) (fst q)) as [E | N].
  - rewrite !Z.leb_le. lia.
  - rewrite !Nat.ltb_lt. lia.
Qed.

Module PairOrder <: TotalLeBool.
Definition t : Type := (nat * Z)%type.
Definition leb : t -> t -> bool := pair_leb.
Definition leb_total : forall p q, leb p q = true \/ leb q p = true := pair_leb_total.
End PairOrder.

Module PairSort := Sort PairOrder.

(** [sorted(zip(indices, labels))] *)
Definition sorted (l : list (nat * Z)) : list (nat * Z) := PairSort.sort l.

(** ** pandas: categorical encoding *)

(** [series.astype('category').cat.categories]: the distinct values that are
    present, in increasing order. *)
Definition cat_categories (s : list cell) : list scalar :=
  ScalarSort.sort (nodup scalar_eq_dec (dropna s)).

(** Position of a value among the categories, if it is one. *)
Fixpoint position (x : scalar) (categories : list scalar) : option nat :=
  match categories with
  | [] => None
  | y :: rest => if scalar_eq_dec x y then Some 0
                 else option_map S (position x rest)
  end.

(** The code of one cell: the position of its value among the categories,
    and -1 for NaN. *)
Definition cat_code (categories : list scalar) (c : cell) : Z :=
  match c with
  | None => (-1)%Z
  | Some x => match position x categories with
              | Some i => Z.of_nat i
              | None => (-1)%Z
              end
  end.

(** [series.astype('category').cat.codes] *)
Definition cat_codes (s : list cell) : list Z :=
  map (cat_code (cat_categories s)) s.

(** ** collections.Counter *)

(** The keys of a Counter filled from a series.  A value is found again by
    Python's equality.  A NaN equals nothing, itself included, and a dict
    finds it again only as the same object: [object] tells the NaN objects
    apart, 0 being the one [np.nan] that [read_csv] stores at every missing
    field of a column of dtype object. *)
Inductive key : Type :=
| Value (v : scalar)
| NaN (object : nat).

Definition key_eq_dec (a b : key) : {a = b} + {a <> b}.
Proof. decide equality; [apply scalar_eq_dec | apply Nat.eq_dec]. Defined.

Arguments key_eq_dec : simpl never.

Definition key_eqb (a b : key) : bool :=
  if key_eq_dec a b then true else false.

(** Iterating over a series, from its line [line] on.  A column of dtype
    object yields the objects it holds.  A numeric column holds raw numbers,
    and the iteration makes a new Python float of each: the NaN of one line
    is another object than the NaN of any other line. *)
Fixpoint iter (numeric : bool) (line : nat) (s : list cell) : list key :=
  match s with
  | [] => []
  | Some v :: s' => Value v :: iter numeric (S line) s'
  | None :: s' =>
      NaN (if numeric then S line else 0) :: iter numeric (S line) s'
  end.

(** A Counter is a dict: keys in order of first insertion, with their
    counts. *)
Fixpoint counter_add (k : key) (c : list (key * nat)) : list (key * nat) :=
  match c with
  | [] => [(k, 1)]
  | (k', n) :: c' => if key_eqb k k' then (k', S n) :: c'
                     else (k', n) :: counter_add k c'
  end.

(** [Counter(iterable)] *)
Definition Counter (iterable : list key) : list (key * nat) :=
  fold_left (fun c k => counter_add k c) iterable [].

(** ** The data directory *)

Definition TaskId : Type := (string * string)%type.

Section Store.

(** Entries of the expression matrix (floating-point numbers in the HDF5
    file); the code only moves whole rows around. *)
Variable V : Type.

Definition ExpressionMatrix : Type := list (list V).

(** What the code reads below [data_dir].  A string-list file is given by
    its stripped lines, [None] when it cannot be opened; the directory
    [clinicalMatrices] by the exception of [os.listdir] when it cannot be
    listed, and else by its files in [os.listdir] order, each with its name
    and what [pd.read_csv] makes of it; the HDF5 file by its ["dataset"],
    [None] when the file cannot be opened. *)
Record DataDir : Type := {
  gene_ids_file : option (list string);
  all_sample_ids_file : option (list string);
  clinicalMatrices_dir : result (list (string * result DataFrame));
  hdf5_file : option ExpressionMatrix
}.

(** The files of [clinicalMatrices]: a directory that cannot be listed holds
    no file that can be read. *)
Definition clinicalMatrices (data_dir : DataDir)
  : list (string * result DataFrame) :=
  match clinicalMatrices_dir data_dir with
  | inr files => files
  | inl _ => []
  end.

(** [os.listdir(os.path.join(data_dir, 'clinicalMatrices'))] *)
Definition listdir (data_dir : DataDir) : result (list string) :=
  files <- clinicalMatrices_dir data_dir ;;
  ret (map fst files).

(** [_read_string_list(path)] *)
Definition _read_string_list (file : option (list string)) : result (list string) :=
  match file with
  | Some lines => ret lines
  | None => raise OSError
  end.

(** [pd.read_csv(os.path.join(data_dir, 'clinicalMatrices', filename))] *)
Fixpoint read_csv (dir : list (string * result DataFrame)) (filename : string)
  : result DataFrame :=
  match dir with
  | [] => raise OSError
  | (name, content) :: dir' =>
      if String.eqb filename name then content else read_csv dir' filename
  end.

(** ** Task discovery: [get_TCGA_task_ids] *)

(** [filename.split('_')[0]] *)
Fixpoint split_head (s : string) : string :=
  match s with
  | EmptyString => EmptyString
  | String c s' => if Ascii.eqb c "_"%char then EmptyString
                   else String c (split_head s')
  end.

(** [set(potential_sample_ids).intersection(all_sample_ids)]: the elements
    of the set that equal an element of the list, which holds strings; only
    membership in the result is ever asked. *)
Definition set_intersection (potential : list cell) (all : list string)
  : list string :=
  nodup string_dec (filter (fun x => str_in x all) (strings potential)).

(** The [try] block of the inner loop. *)
Definition find_task_sample_ids (matrix : DataFrame) (task_variable : string)
  (all_sample_ids : list string) : result (list string) :=
  attribute <- getitem matrix task_variable ;;
  let filter_clinical_variable_present := notnull attribute in
  ids <- getitem matrix "sampleID" ;;
  let potential_sample_ids := select ids filter_clinical_variable_present in
  ret (set_intersection potential_sample_ids all_sample_ids).

(** [num_samples_per_label], once the [try] block has passed: the Counter
    iterates over the selected lines of the column, which has the dtype of
    the whole column. *)
Definition count_samples_per_label (matrix : DataFrame) (task_variable : string)
  (task_sample_ids : list string) : result (list (key * nat)) :=
  attribute <- getitem matrix task_variable ;;
  ids <- getitem matrix "sampleID" ;;
  ret (Counter (iter (is_numeric attribute) 0
                     (select attribute (isin ids task_sample_ids)))).

(** One turn of the inner loop, [for task_variable in task_variables]. *)
Definition scan_variable (filename : string) (matrix : DataFrame)
  (all_sample_ids : list string) (min_samples_per_class : Z)
  (task_ids : list TaskId) (task_variable : string) : result (list TaskId) :=
  match find_task_sample_ids matrix task_variable all_sample_ids with
  | inl KeyError => ret task_ids                       (* continue *)
  | inl e => raise e
  | inr task_sample_ids =>
      let task_id := (task_variable, split_head filename) in
      num_samples_per_label <-
        count_samples_per_label matrix task_variable task_sample_ids ;;
      let num_samples_per_class_is_in_range :=
        forallb (fun num_samples => Z.ltb min_samples_per_class (Z.of_nat num_samples))
                (map snd num_samples_per_label) in
      let is_not_one_class := Nat.ltb 1 (List.length num_samples_per_label) in
      if num_samples_per_class_is_in_range && is_not_one_class
      then ret (task_ids ++ [task_id])
      else ret task_ids
  end.

(** One turn of the outer loop, [for filename in os.listdir(...)]. *)
Definition scan_file (dir : list (string * result DataFrame))
  (task_variables : list string) (all_sample_ids : list string)
  (min_samples_per_class : Z) (task_ids : list TaskId) (filename : string)
  : result (list TaskId) :=
  matrix <- read_csv dir filename ;;
  foldM (scan_variable filename matrix all_sample_ids min_samples_per_class)
        task_variables task_ids.

(** [task_variables_file] is given by the stripped lines of the file, [None]
    when it cannot be opened. *)
Definition get_TCGA_task_ids (data_dir : DataDir) (min_samples_per_class : Z)
  (task_variables_file : option (list string)) : result (list TaskId) :=
  all_sample_ids <-
    match _read_string_list (all_sample_ids_file data_dir) with
    | inl _ => raise SystemExit
    | inr l => ret l
    end ;;
  task_variables <- _read_string_list task_variables_file ;;
  filenames <- listdir data_dir ;;
  foldM (scan_file (clinicalMatrices data_dir) task_variables all_sample_ids
                   min_samples_per_class)
        filenames [].

(** ** Task materialization: [TCGATask.__init__] *)

Record TCGATask : Type := {
  id : TaskId;
  gene_ids : list string;
  _all_sample_ids : list string;
  _labels : list Z;
  categories : list scalar;
  num_classes : nat;
  _samples : ExpressionMatrix;
  input_size : nat
}.

(** [TCGATask.__len__]: [self._samples.shape[0]] *)
Definition len (task : TCGATask) : nat := List.length (_samples task).

(** [all_sample_ids.index(sample_id)]: the list holds strings, and what is
    not a string is not in it. *)
Definition index (all_sample_ids : list string) (sample_id : cell) : result nat :=
  match sample_id with
  | Some (Str x) => match find_index x all_sample_ids with
                    | Some i => ret i
                    | None => raise ValueError
                    end
  | _ => raise ValueError
  end.

(** Unzipping the sorted pairs into the two names of line 155: with no pair
    at all, [zip] yields nothing and the unpacking fails. *)
Definition unzip (pairs : list (nat * Z)) : result (list nat * list Z) :=
  match pairs with
  | [] => raise ValueError
  | _ :: _ => ret (map fst pairs, map snd pairs)
  end.

(** [data[np.array(indices, dtype=int), :]] on the matrix held in memory. *)
Definition take_rows (data : ExpressionMatrix) (indices : list nat)
  : result ExpressionMatrix :=
  mapM (fun i => match nth_error data i with
                 | Some r => ret r
                 | None => raise IndexError
                 end) indices.

(** [f['dataset'][indices, :]] on the open HDF5 file: the row-subset read of
    h5py, a library outside this repository, taken as a parameter. *)
Variable h5_rows : ExpressionMatrix -> list nat -> result ExpressionMatrix.

Definition Preloaded : Type :=
  (list string * list string * ExpressionMatrix)%type.

(** The [preload] branch of [TCGAMeta.__init__]: the tuple handed to every
    task, or [sys.exit()]. *)
Definition preload (data_dir : DataDir) : result Preloaded :=
  match hdf5_file data_dir, gene_ids_file data_dir, all_sample_ids_file data_dir with
  | Some gene_expression_data, Some gene_ids, Some all_sample_ids =>
      ret (all_sample_ids, gene_ids, gene_expression_data)
  | _, _, _ => raise SystemExit
  end.

(** The identifier lists of a task (lines 124-134). *)
Definition load_ids (data_dir : DataDir) (preloaded : option Preloaded)
  : result (list string * list string) :=
  match preloaded with
  | None =>
      match gene_ids_file data_dir, all_sample_ids_file data_dir with
      | Some gene_ids, Some all_sample_ids => ret (all_sample_ids, gene_ids)
      | _, _ => raise ValueError
      end
  | Some (all_sample_ids, gene_ids, _) => ret (all_sample_ids, gene_ids)
  end.

(** The lines of the clinical table kept for a task (lines 142-151): their
    sample ids, their label codes, and the categories. *)
Definition filter_elements (matrix : DataFrame) (task_variable : string)
  (all_sample_ids : list string) : result (list cell * list Z * list scalar) :=
  ids <- getitem matrix "sampleID" ;;
  attribute <- getitem matrix task_variable ;;
  let available_elements :=
    mask_and (notnull attribute) (isin ids all_sample_ids) in
  let sample_ids := select ids available_elements in
  let filtered_attribute := select attribute available_elements in
  ret (sample_ids, cat_codes filtered_attribute, cat_categories filtered_attribute).

(** Row positions and labels, sorted together (lines 154-155). *)
Definition sort_indices (all_sample_ids : list string) (sample_ids : list cell)
  (labels : list Z) : result (list nat * list Z) :=
  indices_to_load <- mapM (index all_sample_ids) sample_ids ;;
  unzip (sorted (combine indices_to_load labels)).

(** Lazy loading, or loading from the preloaded data (lines 158-163). *)
Definition load_samples (data_dir : DataDir) (preloaded : option Preloaded)
  (indices_to_load : list nat) : result ExpressionMatrix :=
  match preloaded with
  | None =>
      match hdf5_file data_dir with
      | None => raise OSError
      | Some dataset => h5_rows dataset indices_to_load
      end
  | Some (_, _, data) => take_rows data indices_to_load
  end.

(** [TCGATask(task_id, data_dir, preloaded=preloaded)], without download,
    transforms or gene symbol map.  [input_size] is [self._samples.shape[1]],
    the width of the gathered rows, of which there is at least one when this
    line is reached. *)
Definition TCGATask_init (task_id : TaskId) (data_dir : DataDir)
  (preloaded : option Preloaded) : result TCGATask :=
  let task_variable := fst task_id in
  let cancer := snd task_id in
  lists <- load_ids data_dir preloaded ;;
  let all_sample_ids := fst lists in
  matrix <- read_csv (clinicalMatrices data_dir)
                     (cancer ++ "_clinicalMatrix")%string ;;
  kept <- filter_elements matrix task_variable all_sample_ids ;;
  let sample_ids := fst (fst kept) in
  sorted_pairs <- sort_indices all_sample_ids sample_ids (snd (fst kept)) ;;
  samples <- load_samples data_dir preloaded (fst sorted_pairs) ;;
  ret {| id := task_id;
         gene_ids := snd lists;
         _all_sample_ids := all_sample_ids;
         _labels := snd sorted_pairs;
         categories := snd kept;
         num_classes := List.length (snd kept);
         _samples := samples;
         input_size := List.length (hd [] samples) |}.

End Store.

Arguments TCGATask_init {V} h5_rows task_id data_dir preloaded.
Arguments load_samples {V} h5_rows data_dir preloaded indices_to_load.

(** * The rest of the module

    Indexing a task, the gene symbol map, and the collection of tasks
    [TCGAMeta]. *)

(** ** Python indexing *)

(** [seq[index]] for a Python int on a list or a tuple: a negative index
    counts from the end, and an index outside [-len, len) raises
    IndexError. *)
Definition py_getitem {A : Type} (seq : list A) (index : Z) : result A :=
  let n := Z.of_nat (List.length seq) in
  let i := if (index <? 0)%Z then (index + n)%Z else index in
  if (0 <=? i)%Z && (i <? n)%Z then
    match nth_error seq (Z.to_nat i) with
    | Some a => ret a
    | None => raise IndexError
    end
  else raise IndexError.

(** [array[index, :]] for a Python int on the rows of a numpy array: within
    [-len, len) as on a list; outside, numpy first converts the index to a
    C long of 64 bits, which raises OverflowError when it does not fit, and
    then raises IndexError.  An array has fewer than 2^63 rows, so that an
    index that does not fit is never within bounds. *)
Definition np_getitem {A : Type} (array : list A) (index : Z) : result A :=
  match py_getitem array index with
  | inr row => ret row
  | inl _ =>
      if (- 2 ^ 63 <=? index)%Z && (index <? 2 ^ 63)%Z then raise IndexError
      else raise OverflowError
  end.

(** ** [TCGATask.__getitem__] *)

(** [self._samples] is a numpy array and [self._labels] a tuple.  The two
    hooks are functions of one argument; [None] in the source is the
    identity. *)
Definition TCGATask_getitem {V S T : Type} (transform : list V -> S)
  (target_transform : Z -> T) (task : TCGATask V) (index : Z) : result (S * T) :=
  sample <- np_getitem (_samples task) index ;;
  label <- py_getitem (_labels task) index ;;
  ret (transform sample, target_transform label).

(** ** [symbol_map] *)

(** A Python dict from strings to strings: keys in order of first
    insertion, [d[k] = v] overwriting the value of a key already there. *)
Fixpoint dict_set (k v : string) (d : list (string * string))
  : list (string * string) :=
  match d with
  | [] => [(k, v)]
  | (k', v') :: d' => if String.eqb k k' then (k', v) :: d'
                      else (k', v') :: dict_set k v d'
  end.

Fixpoint dict_get (k : string) (d : list (string * string)) : option string :=
  match d with
  | [] => None
  | (k', v') :: d' => if String.eqb k k' then Some v' else dict_get k d'
  end.

(** [val.split(", ")], with the piece read so far in [piece]. *)
Fixpoint split_pieces (piece : string) (s : string) : list string :=
  match s with
  | EmptyString => [piece]
  | String c s' =>
      match s' with
      | String c' s'' =>
          if Ascii.eqb c ","%char && Ascii.eqb c' " "%char
          then piece :: split_pieces EmptyString s''
          else split_pieces (piece ++ String c EmptyString)%string s'
      | EmptyString => split_pieces (piece ++ String c EmptyString)%string s'
      end
  end.

Definition split (val : string) : list string := split_pieces EmptyString val.

(** [x = {row[0]: row[1] for row in csv_reader}], on the rows that
    [csv.reader] yields: a row with fewer than two fields has no [row[1]]. *)
Definition read_symbol_rows (rows : list (list string))
  : result (list (string * string)) :=
  foldM (fun x row => match row with
                      | key :: val :: _ => ret (dict_set key val x)
                      | _ => raise IndexError
                      end)
        rows [].

(** The inner loop, [for v in val.split(", ")]. *)
Definition add_previous_symbols (gene_symbols : list string)
  (gene_symbol_map : list (string * string)) (item : string * string)
  : list (string * string) :=
  fold_left (fun m v => if str_in (fst item) gene_symbols then m
                        else dict_set v (fst item) m)
            (split (snd item)) gene_symbol_map.

(** The outer loop, [for key, val in x.items()]. *)
Definition build_gene_symbol_map (gene_symbols : list string)
  (x : list (string * string)) : list (string * string) :=
  fold_left (add_previous_symbols gene_symbols) x [].

(** One entry under [Series.replace(gene_symbol_map)]: a value that is a key
    of the dict becomes the value of that key; every mask is taken on the
    original series, so nothing is replaced twice. *)
Definition replace (gene_symbol_map : list (string * string)) (g : string)
  : string :=
  match dict_get g gene_symbol_map with
  | Some key => key
  | None => g
  end.

(** [symbol_map(gene_symbols, gene_symbol_map_file)]; the file is given by
    the rows of its tab-separated lines, [None] when it cannot be opened. *)
Definition symbol_map (gene_symbols : list string)
  (gene_symbol_map_file : option (list (list string))) : result (list string) :=
  match gene_symbol_map_file with
  | None => raise OSError
  | Some rows =>
      x <- read_symbol_rows rows ;;
      ret (map (replace (build_gene_symbol_map gene_symbols x)) gene_symbols)
  end.

Section Collection.

Variable V : Type.
Variable h5_rows : ExpressionMatrix V -> list nat -> result (ExpressionMatrix V).

(** [TCGATask(task_id, data_dir, preloaded=..., gene_symbol_map_file=...)]:
    the constructor with its gene symbol map (lines 110-165), without
    download or transforms.  [gene_symbol_map_file] is [None] when no path
    is given, and else what is found at the path, as for [symbol_map]. *)
Definition TCGATask_init_symbols
  (gene_symbol_map_file : option (option (list (list string))))
  (task_id : TaskId) (data_dir : DataDir V) (preloaded : option (Preloaded V))
  : result (TCGATask V) :=
  let task_variable := fst task_id in
  let cancer := snd task_id in
  lists <- load_ids data_dir preloaded ;;
  let all_sample_ids := fst lists in
  gene_ids <-
    match gene_symbol_map_file with
    | Some file => symbol_map (snd lists) file
    | None => ret (snd lists)
    end ;;
  matrix <- read_csv (clinicalMatrices data_dir)
                     (cancer ++ "_clinicalMatrix")%string ;;
  ids <- getitem matrix "sampleID" ;;
  attribute <- getitem matrix task_variable ;;
  let available_elements :=
    mask_and (notnull attribute) (isin ids all_sample_ids) in
  let sample_ids := select ids available_elements in
  let filtered_attribute := select attribute available_elements in
  let labels := cat_codes filtered_attribute in
  let categories := cat_categories filtered_attribute in
  indices_to_load <- mapM (index all_sample_ids) sample_ids ;;
  sorted_pairs <- unzip (sorted (combine indices_to_load labels)) ;;
  samples <-
    match preloaded with
    | None =>
        match hdf5_file data_dir with
        | None => raise OSError
        | Some dataset => h5_rows dataset (fst sorted_pairs)
        end
    | Some (_, _, data) => take_rows data (fst sorted_pairs)
    end ;;
  ret {| id := task_id;
         gene_ids := gene_ids;
         _all_sample_ids := all_sample_ids;
         _labels := snd sorted_pairs;
         categories := categories;
         num_classes := List.length categories;
         _samples := samples;
         input_size := List.length (hd [] samples) |}.

(** ** [TCGAMeta] *)

Record TCGAMeta : Type := {
  gene_symbol_map_file : option (option (list (list string)));
  task_ids : list TaskId;
  preloaded : option (Preloaded V)
}.

(** [TCGAMeta(data_dir, preload=..., min_samples_per_class=...,
    task_variables_file=..., gene_symbol_map_file=...)], without download. *)
Definition TCGAMeta_init (data_dir : DataDir V) (preload_data : bool)
  (min_samples_per_class : Z) (task_variables_file : option (list string))
  (symbols : option (option (list (list string)))) : result TCGAMeta :=
  ids <- get_TCGA_task_ids data_dir min_samples_per_class task_variables_file ;;
  if preload_data then
    p <- preload data_dir ;;
    ret {| gene_symbol_map_file := symbols; task_ids := ids; preloaded := Some p |}
  else
    ret {| gene_symbol_map_file := symbols; task_ids := ids; preloaded := None |}.

(** [TCGAMeta.__len__] *)
Definition TCGAMeta_len (meta : TCGAMeta) : nat := List.length (task_ids meta).

(** [TCGAMeta.__getitem__]: the task is built without a [data_dir], that is
    from the data directory of the package, whatever directory the
    collection was built from; [dataset_transform] is a function of one
    argument, [None] being the identity. *)
Definition TCGAMeta_getitem {D : Type} (package_data_dir : DataDir V)
  (dataset_transform : TCGATask V -> D) (meta : TCGAMeta) (index : Z)
  : result D :=
  task_id <- py_getitem (task_ids meta) index ;;
  dataset <- TCGATask_init_symbols (gene_symbol_map_file meta) task_id
                                   package_data_dir (preloaded meta) ;;
  ret (dataset_transform dataset).

End Collection.

Arguments TCGATask_init_symbols {V} h5_rows gene_symbol_map_file task_id
  data_dir preloaded.
Arguments TCGAMeta_getitem {V} h5_rows {D} package_data_dir dataset_transform
  meta index.
Arguments TCGAMeta_init {V} data_dir preload_data min_samples_per_class
  task_variables_file symbols.
Arguments TCGAMeta_len {V} meta.

(** * Specification-level definitions

    The notions the properties are stated with: the cell of a line under a
    column name, the lines counted by discovery, the lines retained by
    materialization, and the tables of the literal scenarios. *)

Definition present (c : cell) : bool :=
  match c with Some _ => true | None => false end.

Definition cell_in (values : list string) (c : cell) : bool :=
  match c with Some (Str x) => str_in x values | _ => false end.

(** The cell of a line under a column name; NaN when there is no such
    column. *)
Definition at_column (matrix : DataFrame) (name : string) (r : list cell) : cell :=
  match find_index name (columns matrix) with
  | Some j => nth j r None
  | None => None
  end.

Definition has_column (matrix : DataFrame) (name : string) : bool :=
  str_in name (columns matrix).

(** Whether the column of that name is one of numbers. *)
Definition numeric_column (matrix : DataFrame) (name : string) : bool :=
  is_numeric (map (at_column matrix name) (rows matrix)).

(** [c.get(k, 0)] *)
Fixpoint counter_get (k : key) (c : list (key * nat)) : nat :=
  match c with
  | [] => 0
  | (k', n) :: c' => if key_eqb k k' then n else counter_get k c'
  end.

(** What a Counter holds while it is being filled: distinct keys, each with
    a positive count. *)
Definition counter_wf (c : list (key * nat)) : Prop :=
  NoDup (map fst c) /\ Forall (fun kn => 0 < snd kn) c.

(** The sample ids that have a present value of the variable on some line of
    the table and belong to the global list of sample ids. *)
Definition in_task_samples (matrix : DataFrame) (task_variable : string)
  (all_sample_ids : list string) (x : string) : bool :=
  str_in x all_sample_ids &&
  existsb (fun r => cell_eqb (at_column matrix "sampleID" r) (Some x) &&
                    present (at_column matrix task_variable r))
          (rows matrix).

(** The lines that are counted: those whose sample id is one of the above. *)
Definition counted_line (matrix : DataFrame) (task_variable : string)
  (all_sample_ids : list string) (r : list cell) : bool :=
  match at_column matrix "sampleID" r with
  | Some (Str x) => in_task_samples matrix task_variable all_sample_ids x
  | _ => false
  end.

(** The values of the variable on the counted lines. *)
Definition counted_values (matrix : DataFrame) (task_variable : string)
  (all_sample_ids : list string) : list cell :=
  map (at_column matrix task_variable)
      (filter (counted_line matrix task_variable all_sample_ids) (rows matrix)).

(** The keys that the Counter of discovery is filled from. *)
Definition counted_keys (matrix : DataFrame) (task_variable : string)
  (all_sample_ids : list string) : list key :=
  iter (numeric_column matrix task_variable) 0
       (counted_values matrix task_variable all_sample_ids).

(** The number of counted lines in the category of a counted cell: the
    lines with the same value; and for a missing cell, the counted lines
    with a missing cell when the column holds strings, but that line alone
    when the column holds numbers. *)
Definition category_count (matrix : DataFrame) (task_variable : string)
  (all_sample_ids : list string) (c : cell) : nat :=
  match c with
  | Some _ =>
      count_occ cell_eq_dec (counted_values matrix task_variable all_sample_ids) c
  | None =>
      if numeric_column matrix task_variable then 1
      else count_occ cell_eq_dec
                     (counted_values matrix task_variable all_sample_ids) None
  end.

(** The categories made of missing cells: one for each of them in a column
    of numbers, and one for them all in a column of strings. *)
Definition missing_categories (matrix : DataFrame) (task_variable : string)
  (all_sample_ids : list string) : nat :=
  let missing :=
    count_occ cell_eq_dec
              (counted_values matrix task_variable all_sample_ids) None in
  if numeric_column matrix task_variable then missing else Nat.min 1 missing.

(** The number of categories: the distinct values that are present, and the
    categories made of missing cells. *)
Definition num_categories (matrix : DataFrame) (task_variable : string)
  (all_sample_ids : list string) : nat :=
  List.length
    (nodup scalar_eq_dec
           (dropna (counted_values matrix task_variable all_sample_ids))) +
  missing_categories matrix task_variable all_sample_ids.

(** The acceptance rule: every category count exceeds the threshold and
    there are at least two categories.  A table without the variable column
    or without the [sampleID] column has no counted line, hence no
    category. *)
Definition acceptable (matrix : DataFrame) (task_variable : string)
  (all_sample_ids : list string) (min_samples_per_class : Z) : Prop :=
  (forall c, In c (counted_values matrix task_variable all_sample_ids) ->
             (min_samples_per_class <
              Z.of_nat (category_count matrix task_variable all_sample_ids c))%Z) /\
  2 <= num_categories matrix task_variable all_sample_ids.

(** The acceptance rule when a category is a distinct value of the counted
    lines, the missing value being one value like another. *)
Definition acceptable_by_value (matrix : DataFrame) (task_variable : string)
  (all_sample_ids : list string) (min_samples_per_class : Z) : Prop :=
  (forall c, In c (counted_values matrix task_variable all_sample_ids) ->
             (min_samples_per_class <
              Z.of_nat (count_occ cell_eq_dec
                          (counted_values matrix task_variable all_sample_ids)
                          c))%Z) /\
  2 <= List.length
         (nodup cell_eq_dec
                (counted_values matrix task_variable all_sample_ids)).

(** The two tests of the code on [num_samples_per_label]. *)
Definition passes (min_samples_per_class : Z) (num_samples_per_label : list (key * nat))
  : bool :=
  forallb (fun num_samples => Z.ltb min_samples_per_class (Z.of_nat num_samples))
          (map snd num_samples_per_label) &&
  Nat.ltb 1 (List.length num_samples_per_label).

(** The pairs that one table adds to the catalog. *)
Definition table_tasks (filename : string) (matrix : DataFrame)
  (all_sample_ids : list string) (min_samples_per_class : Z)
  (task_variables : list string) : list TaskId :=
  map (fun task_variable => (task_variable, split_head filename))
      (filter (fun task_variable =>
                 passes min_samples_per_class
                   (Counter (counted_keys matrix task_variable all_sample_ids)))
              task_variables).

(** Reading every listed table, stopping at the first one that fails. *)
Definition read_tables (dir : list (string * result DataFrame))
  (filenames : list string) : result (list (string * DataFrame)) :=
  mapM (fun filename => matrix <- read_csv dir filename ;; ret (filename, matrix))
       filenames.

Definition catalog_of (tables : list (string * DataFrame))
  (all_sample_ids : list string) (min_samples_per_class : Z)
  (task_variables : list string) : list TaskId :=
  flat_map (fun t => table_tasks (fst t) (snd t) all_sample_ids
                                 min_samples_per_class task_variables)
           tables.

(** A table with the columns [sampleID] and [sex], one line per pair. *)
Definition sex_table (lines : list (string * cell)) : DataFrame :=
  {| columns := ["sampleID"; "sex"]%string;
     rows := map (fun l => [Some (Str (fst l)); snd l]) lines |}.

(** A table with the columns [sampleID] and [grade], one line per pair. *)
Definition grade_table (lines : list (string * cell)) : DataFrame :=
  {| columns := ["sampleID"; "grade"]%string;
     rows := map (fun l => [Some (Str (fst l)); snd l]) lines |}.

Definition M : cell := Some "M"%string.
Definition F : cell := Some "F"%string.

Definition four_samples : list string := ["s1"; "s2"; "s3"; "s4"]%string.

(** The data directory of the literal scenarios: four samples, two genes,
    one clinical table for the cancer type CANCER. *)
Definition scenario (table : result DataFrame) : DataDir Z :=
  {| gene_ids_file := Some ["g1"; "g2"]%string;
     all_sample_ids_file := Some four_samples;
     clinicalMatrices_dir := inr [("CANCER_clinicalMatrix"%string, table)];
     hdf5_file := Some [[10; 11]; [20; 21]; [30; 31]; [40; 41]]%Z |}.

Definition balanced : DataFrame :=
  sex_table [("s1", M); ("s2", M); ("s3", F); ("s4", F)]%string.

Definition unbalanced : DataFrame :=
  sex_table [("s1", M); ("s2", M); ("s3", M); ("s4", F)]%string.

(** A clinical directory with a valid table and a file that [pd.read_csv]
    cannot parse (an empty file, say). *)
Definition mixed_directory : DataDir Z :=
  {| gene_ids_file := Some ["g1"; "g2"]%string;
     all_sample_ids_file := Some four_samples;
     clinicalMatrices_dir :=
       inr [("CANCER_clinicalMatrix"%string, inr balanced);
            ("EMPTY_clinicalMatrix"%string, inl ParserError)];
     hdf5_file := None |}.

(** A data directory without the directory [clinicalMatrices]. *)
Definition no_clinical_directory : DataDir Z :=
  {| gene_ids_file := Some ["g1"; "g2"]%string;
     all_sample_ids_file := Some four_samples;
     clinicalMatrices_dir := inl OSError;
     hdf5_file := None |}.

(** A table of the same samples that has no [sex] column at all. *)
Definition no_sex_column : DataFrame :=
  {| columns := ["sampleID"; "age"]%string;
     rows := [[Some (Str "s1"); Some (int 61)];
              [Some (Str "s2"); Some (int 47)]] |}.

(** Sample s1 on two lines, once with a value and once without. *)
Definition repeated_sample : DataFrame :=
  sex_table [("s1", M); ("s1", None)]%string.

Definition balanced_and_repeated : DataFrame :=
  sex_table [("s1", M); ("s2", M); ("s3", F); ("s4", F); ("s1", None)]%string.

(** Two samples of grade 1, and sample s1 on two more lines without a
    grade: a column of numbers with two missing cells among the counted
    lines. *)
Definition grade_missing_twice : DataFrame :=
  grade_table [("s1", Some (int 1)); ("s2", Some (int 1));
               ("s1", None); ("s1", None)]%string.

(** The same lines with a column of strings. *)
Definition sex_missing_twice : DataFrame :=
  sex_table [("s1", M); ("s2", M); ("s1", None); ("s1", None)]%string.

(** The grades 9, 10, 10, 9. *)
Definition grades : DataFrame :=
  grade_table [("s1", Some (int 9)); ("s2", Some (int 10));
               ("s3", Some (int 10)); ("s4", Some (int 9))]%string.

(** The text of a field that holds an integer. *)
Definition text_of_int (z : Z) : string :=
  NilZero.string_of_int (Z.to_int z).

(** Sample s1 on two lines, with a value on each. *)
Definition sampled_twice : DataFrame :=
  sex_table [("s1", M); ("s2", F); ("s1", F)]%string.

(** The lines retained for a task: the value of the variable is present and
    the sample id is one of the global sample ids. *)
Definition is_retained (matrix : DataFrame) (task_variable : string)
  (all_sample_ids : list string) (r : list cell) : bool :=
  present (at_column matrix task_variable r) &&
  cell_in all_sample_ids (at_column matrix "sampleID" r).

Definition retained_rows (matrix : DataFrame) (task_variable : string)
  (all_sample_ids : list string) : list (list cell) :=
  filter (is_retained matrix task_variable all_sample_ids) (rows matrix).

(** The values of the variable on the retained lines. *)
Definition retained_values (matrix : DataFrame) (task_variable : string)
  (all_sample_ids : list string) : list cell :=
  map (at_column matrix task_variable)
      (retained_rows matrix task_variable all_sample_ids).

(** The row of the expression store that holds the sample of a line: the
    first position of its sample id in the global list. *)
Definition row_position (matrix : DataFrame) (all_sample_ids : list string)
  (r : list cell) : nat :=
  match at_column matrix "sampleID" r with
  | Some (Str x) => match find_index x all_sample_ids with
                    | Some i => i
                    | None => 0
                    end
  | _ => 0
  end.

(** The label code of a retained line. *)
Definition row_label (matrix : DataFrame) (task_variable : string)
  (all_sample_ids : list string) (r : list cell) : Z :=
  cat_code (cat_categories (retained_values matrix task_variable all_sample_ids))
           (at_column matrix task_variable r).

(** The (row position, label code) pairs of the retained lines, in the
    order of the table. *)
Definition retained_pairs (matrix : DataFrame) (task_variable : string)
  (all_sample_ids : list string) : list (nat * Z) :=
  map (fun r => (row_position matrix all_sample_ids r,
                 row_label matrix task_variable all_sample_ids r))
      (retained_rows matrix task_variable all_sample_ids).

(** The expression matrix that a task reads its rows from. *)
Definition store_of {V : Type} (data_dir : DataDir V)
  (preloaded : option (Preloaded V)) : option (ExpressionMatrix V) :=
  match preloaded with
  | Some (_, _, data) => Some data
  | None => hdf5_file data_dir
  end.

(** The task of the literal scenario: four lines, sex = M, M, F, F. *)
Definition balanced_task : TCGATask Z :=
  {| id := ("sex", "CANCER")%string;
     gene_ids := ["g1"; "g2"]%string;
     _all_sample_ids := four_samples;
     _labels := [1; 1; 0; 0]%Z;
     categories := [Str "F"; Str "M"];
     num_classes := 2;
     _samples := [[10; 11]; [20; 21]; [30; 31]; [40; 41]]%Z;
     input_size := 2 |}.

(** The task of the grades 9, 10, 10, 9. *)
Definition grades_task : TCGATask Z :=
  {| id := ("grade", "CANCER")%string;
     gene_ids := ["g1"; "g2"]%string;
     _all_sample_ids := four_samples;
     _labels := [0; 1; 1; 0]%Z;
     categories := [int 9; int 10];
     num_classes := 2;
     _samples := [[10; 11]; [20; 21]; [30; 31]; [40; 41]]%Z;
     input_size := 2 |}.

(** The task of sample s1 on two lines: its row of the store twice. *)
Definition sampled_twice_task : TCGATask Z :=
  {| id := ("sex", "CANCER")%string;
     gene_ids := ["g1"; "g2"]%string;
     _all_sample_ids := four_samples;
     _labels := [0; 1; 0]%Z;
     categories := [Str "F"; Str "M"];
     num_classes := 2;
     _samples := [[10; 11]; [10; 11]; [20; 21]]%Z;
     input_size := 2 |}.

Fixpoint increasing (indices : list nat) : bool :=
  match indices with
  | i :: ((j :: _) as rest) => Nat.ltb i j && increasing rest
  | _ => true
  end.

(** A row-subset read with the restriction h5py puts on a list of
    positions: they must be strictly increasing, or it raises TypeError
    before it reads; a position beyond the dataset makes the read fail. *)
Definition increasing_rows {V : Type} (dataset : ExpressionMatrix V)
  (indices : list nat) : result (ExpressionMatrix V) :=
  if increasing indices then
    match take_rows dataset indices with
    | inr m => ret m
    | inl _ => raise OSError
    end
  else raise TypeError.

(** No line of this table has a value for [sex]. *)
Definition all_missing : DataFrame :=
  sex_table [("s1", None); ("s2", None)]%string.

Definition scenario_preloaded : Preloaded Z :=
  (four_samples, ["g1"; "g2"]%string,
   [[10; 11]; [20; 21]; [30; 31]; [40; 41]]%Z).

(** The same tables, the sample ids listed backwards and one of them twice,
    another HDF5 file. *)
Definition scenario_reordered : DataDir Z :=
  {| gene_ids_file := None;
     all_sample_ids_file := Some ["s4"; "s3"; "s2"; "s1"; "s4"]%string;
     clinicalMatrices_dir := inr [("CANCER_clinicalMatrix"%string, inr balanced)];
     hdf5_file := None |}.

Fixpoint has_underscore (s : string) : bool :=
  match s with
  | EmptyString => false
  | String c s' => Ascii.eqb c "_"%char || has_underscore s'
  end.

(** The global list names sample s1 twice; the second row of the store is
    never the row of s1. *)
Definition scenario_repeated_ids : DataDir Z :=
  {| gene_ids_file := Some ["g1"; "g2"]%string;
     all_sample_ids_file := Some ["s1"; "s1"; "s3"; "s4"]%string;
     clinicalMatrices_dir := inr [("CANCER_clinicalMatrix"%string, inr balanced)];
     hdf5_file := Some [[10; 11]; [20; 21]; [30; 31]; [40; 41]]%Z |}.

Definition balanced_backwards : DataFrame :=
  {| columns := columns balanced; rows := rev (rows balanced) |}.

Definition approved_symbols : list (list string) :=
  [["NEW1"; "OLD1, OLDX"]; ["NEW2"; "OLD3"]; ["NEW3"; "KEEP, OLD3"]]%string.

Definition renamed_task : TCGATask Z :=
  {| id := ("sex", "CANCER")%string;
     gene_ids := ["G1"; "g2"]%string;
     _all_sample_ids := four_samples;
     _labels := [1; 1; 0; 0]%Z;
     categories := [Str "F"; Str "M"];
     num_classes := 2;
     _samples := [[10; 11]; [20; 21]; [30; 31]; [40; 41]]%Z;
     input_size := 2 |}.

(** The collection of the scenario with a gene symbol map. *)
Definition scenario_meta_symbols : TCGAMeta Z :=
  {| gene_symbol_map_file := Some (Some [["G1"; "g1"]%string]);
     task_ids := [("sex", "CANCER")%string];
     preloaded := Some scenario_preloaded |}.

(** The collection of the scenario without preloading. *)
Definition scenario_meta_lazy : TCGAMeta Z :=
  {| gene_symbol_map_file := None;
     task_ids := [("sex", "CANCER")%string];
     preloaded := None |}.

(** A package data directory without any clinical table. *)
Definition bare_package : DataDir Z :=
  {| gene_ids_file := Some ["g1"; "g2"]%string;
     all_sample_ids_file := Some four_samples;
     clinicalMatrices_dir := inr [];
     hdf5_file := None |}.

(** A package data directory without anything. *)
Definition empty_package : DataDir Z :=
  {| gene_ids_file := None;
     all_sample_ids_file := None;
     clinicalMatrices_dir := inl OSError;
     hdf5_file := None |}.

(** * Properties *)

(** ** Lists of strings *)

Lemma str_in_iff (x : string) (l : list string) : str_in x l = true <-> In x l.
Proof.
  unfold str_in. rewrite existsb_exists. split.
  - intros [y [Hy E]]. apply String.eqb_eq in E. now subst.
  - intros H. exists x. split; [assumption | apply String.eqb_refl].
Qed.

Lemma find_index_nth (x : string) (l : list string) (i : nat) :
  find_index x l = Some i -> nth_error l i = Some x.
Proof.
  revert i. induction l as [| y l IH]; intros i; simpl; [discriminate |].
  destruct (String.eqb_spec x y) as [-> | N].
  - intros [= <-]. reflexivity.
  - destruct (find_index x l) as [j |]; simpl; [| discriminate].
    intros [= <-]. simpl. now apply IH.
Qed.

Lemma find_index_lt (x : string) (l : list string) (i : nat) :
  find_index x l = Some i -> i < List.length l.
Proof.
  intros H. apply find_index_nth in H.
  apply nth_error_Some. congruence.
Qed.

Lemma find_index_In (x : string) (l : list string) :
  In x l -> exists i, find_index x l = Some i.
Proof.
  induction l as [| y l IH]; simpl; [contradiction |].
  intros H. destruct (String.eqb_spec x y) as [-> | N]; [now exists 0 |].
  destruct H as [-> | H]; [contradiction |].
  destruct (IH H) as [i ->]. now exists (S i).
Qed.

(** ** Series taken from the lines of one table *)

Lemma cell_eqb_eq (a b : cell) : cell_eqb a b = true <-> a = b.
Proof.
  unfold cell_eqb. destruct (cell_eq_dec a b); split; congruence.
Qed.

Lemma key_eqb_eq (a b : key) : key_eqb a b = true <-> a = b.
Proof.
  unfold key_eqb. destruct (key_eq_dec a b); split; congruence.
Qed.

Lemma select_map {A B : Type} (f : A -> B) (g : A -> bool) (l : list A) :
  select (map f l) (map g l) = map f (filter g l).
Proof.
  induction l as [| a l IH]; simpl; [reflexivity |].
  destruct (g a); simpl; now rewrite IH.
Qed.

Lemma mask_and_map {A : Type} (g1 g2 : A -> bool) (l : list A) :
  mask_and (map g1 l) (map g2 l) = map (fun a => g1 a && g2 a) l.
Proof. induction l as [| a l IH]; simpl; [reflexivity | now rewrite IH]. Qed.

Lemma notnull_map {A : Type} (f : A -> cell) (l : list A) :
  notnull (map f l) = map (fun a => present (f a)) l.
Proof. unfold notnull. now rewrite map_map. Qed.

Lemma isin_map {A : Type} (f : A -> cell) (values : list string) (l : list A) :
  isin (map f l) values = map (fun a => cell_in values (f a)) l.
Proof. unfold isin. now rewrite map_map. Qed.

Lemma dropna_In (x : scalar) (s : list cell) : In x (dropna s) <-> In (Some x) s.
Proof.
  induction s as [| [y |] s IH]; simpl; [tauto | |].
  - rewrite IH. split; intros [H | H]; auto; left; congruence.
  - rewrite IH. split; [auto | intros [H | H]; [discriminate | assumption]].
Qed.

Lemma strings_In (x : string) (s : list cell) :
  In x (strings s) <-> In (Some (Str x)) s.
Proof.
  induction s as [| [[b | n | y] |] s IH]; simpl; [tauto | | | |];
    rewrite IH; split; intros H; try tauto.
  - destruct H as [H | H]; [discriminate | assumption].
  - destruct H as [H | H]; [discriminate | assumption].
  - destruct H as [<- | H]; [left; reflexivity | now right].
  - destruct H as [[= <-] | H]; [now left | now right].
  - destruct H as [H | H]; [discriminate | assumption].
Qed.

Lemma getitem_has_column (matrix : DataFrame) (name : string) :
  has_column matrix name = true ->
  getitem matrix name = inr (map (at_column matrix name) (rows matrix)).
Proof.
  unfold has_column, getitem, at_column. intros H.
  apply str_in_iff, find_index_In in H. destruct H as [j ->]. reflexivity.
Qed.

Lemma getitem_no_column (matrix : DataFrame) (name : string) :
  has_column matrix name = false -> getitem matrix name = inl KeyError.
Proof.
  unfold has_column, getitem. intros H.
  destruct (find_index name (columns matrix)) as [j |] eqn:E; [| reflexivity].
  apply find_index_nth, nth_error_In, str_in_iff in E. congruence.
Qed.

(** ** Iterating over a series *)

Lemma iter_length (numeric : bool) (line : nat) (s : list cell) :
  List.length (iter numeric line s) = List.length s.
Proof.
  revert line. induction s as [| [v |] s IH]; intros line; simpl;
    [reflexivity | |]; now rewrite IH.
Qed.

Lemma iter_Value (numeric : bool) (line : nat) (s : list cell) (v : scalar) :
  In (Value v) (iter numeric line s) <-> In (Some v) s.
Proof.
  revert line. induction s as [| [x |] s IH]; intros line; simpl; [tauto | |].
  - rewrite IH. split; intros [H | H]; auto; left; congruence.
  - rewrite IH. split; intros [H | H]; auto; discriminate.
Qed.

Lemma iter_Value_count (numeric : bool) (line : nat) (s : list cell)
  (v : scalar) :
  count_occ key_eq_dec (iter numeric line s) (Value v) =
  count_occ cell_eq_dec s (Some v).
Proof.
  revert line. induction s as [| [x |] s IH]; intros line; simpl;
    [reflexivity | |].
  - rewrite IH.
    destruct (key_eq_dec (Value x) (Value v)), (cell_eq_dec (Some x) (Some v));
      congruence.
  - rewrite IH.
    destruct (key_eq_dec (NaN (if numeric then S line else 0)) (Value v));
      [discriminate |].
    destruct (cell_eq_dec None (Some v)); [discriminate | reflexivity].
Qed.

Lemma iter_NaN_missing (numeric : bool) (line : nat) (s : list cell)
  (object : nat) :
  In (NaN object) (iter numeric line s) -> In None s.
Proof.
  revert line. induction s as [| [x |] s IH]; intros line; simpl; [tauto | |].
  - intros [H | H]; [discriminate | right; exact (IH _ H)].
  - intros _. now left.
Qed.

Lemma iter_missing_NaN (numeric : bool) (line : nat) (s : list cell) :
  In None s -> exists object, In (NaN object) (iter numeric line s).
Proof.
  revert line. induction s as [| [x |] s IH]; intros line; simpl; [tauto | |].
  - intros [H | H]; [discriminate |].
    destruct (IH (S line) H) as [object Ho]. exists object. now right.
  - intros _. eexists. left. reflexivity.
Qed.

(** In a column of dtype object every NaN is the same object. *)
Lemma iter_object_NaN (line : nat) (s : list cell) (object : nat) :
  In (NaN object) (iter false line s) -> object = 0.
Proof.
  revert line. induction s as [| [x |] s IH]; intros line; simpl; [tauto | |].
  - intros [H | H]; [discriminate | exact (IH _ H)].
  - intros [[= <-] | H]; [reflexivity | exact (IH _ H)].
Qed.

Lemma iter_object_count (line : nat) (s : list cell) :
  count_occ key_eq_dec (iter false line s) (NaN 0) =
  count_occ cell_eq_dec s None.
Proof.
  revert line. induction s as [| [x |] s IH]; intros line; simpl;
    [reflexivity | |]; rewrite IH.
  - destruct (key_eq_dec (Value x) (NaN 0)); [discriminate |].
    destruct (cell_eq_dec (Some x) None); [discriminate | reflexivity].
  - destruct (key_eq_dec (NaN 0) (NaN 0)); [| contradiction].
    destruct (cell_eq_dec None None); [reflexivity | contradiction].
Qed.

(** In a column of numbers the NaN of each line is an object of its own. *)
Lemma iter_numeric_NaN (line : nat) (s : list cell) (object : nat) :
  In (NaN object) (iter true line s) -> line < object.
Proof.
  revert line. induction s as [| [x |] s IH]; intros line; simpl; [tauto | |].
  - intros [H | H]; [discriminate |]. apply IH in H. lia.
  - intros [[= <-] | H]; [lia |]. apply IH in H. lia.
Qed.

Lemma iter_numeric_count (line : nat) (s : list cell) (object : nat) :
  In (NaN object) (iter true line s) ->
  count_occ key_eq_dec (iter true line s) (NaN object) = 1.
Proof.
  revert line. induction s as [| [x |] s IH]; intros line; simpl; [tauto | |].
  - intros [H | H]; [discriminate |].
    destruct (key_eq_dec (Value x) (NaN object)); [discriminate |].
    now apply IH.
  - intros [E | H].
    + injection E as <-.
      destruct (key_eq_dec (NaN (S line)) (NaN (S line))); [| contradiction].
      f_equal. apply count_occ_not_In. intros H.
      apply iter_numeric_NaN in H. lia.
    + destruct (key_eq_dec (NaN (S line)) (NaN object)) as [E | N].
      * injection E as <-. apply iter_numeric_NaN in H. lia.
      * now apply IH.
Qed.

(** The distinct keys: the distinct values, and the NaN objects. *)
Lemma iter_distinct (numeric : bool) (line : nat) (s : list cell) :
  List.length (nodup key_eq_dec (iter numeric line s)) =
  List.length (nodup scalar_eq_dec (dropna s)) +
  (if numeric then count_occ cell_eq_dec s None
   else Nat.min 1 (count_occ cell_eq_dec s None)).
Proof.
  revert line. induction s as [| [x |] s IH]; intros line; simpl;
    [destruct numeric; reflexivity | |].
  - destruct (cell_eq_dec (Some x) None); [discriminate |].
    destruct (in_dec key_eq_dec (Value x) (iter numeric (S line) s)) as [Hk | Hk];
      destruct (in_dec scalar_eq_dec x (dropna s)) as [Hx | Hx]; simpl;
      rewrite ?IH; try reflexivity; exfalso.
    + apply Hx, dropna_In. now apply iter_Value in Hk.
    + apply Hk, iter_Value. now apply dropna_In.
  - destruct (cell_eq_dec None None); [| contradiction].
    destruct numeric.
    + destruct (in_dec key_eq_dec (NaN (S line)) (iter true (S line) s))
        as [Hk | Hk].
      * apply iter_numeric_NaN in Hk. lia.
      * simpl. rewrite IH. lia.
    + destruct (in_dec key_eq_dec (NaN 0) (iter false (S line) s)) as [Hk | Hk].
      * rewrite IH. apply iter_NaN_missing in Hk.
        apply (count_occ_In cell_eq_dec) in Hk. lia.
      * simpl. rewrite IH.
        assert (Hnone : ~ In None s).
        { intros H. destruct (iter_missing_NaN false (S line) s H) as [o Ho].
          pose proof (iter_object_NaN _ _ _ Ho). subst o. contradiction. }
        apply (count_occ_not_In cell_eq_dec) in Hnone. rewrite Hnone.
        simpl. lia.
Qed.

(** ** collections.Counter *)

Lemma counter_get_add (k k' : key) (c : list (key * nat)) :
  counter_get k (counter_add k' c) =
  if key_eqb k k' then S (counter_get k c) else counter_get k c.
Proof.
  induction c as [| [k0 n] c IH]; simpl.
  - destruct (key_eqb k k'); reflexivity.
  - destruct (key_eqb k' k0) eqn:E0; simpl.
    + apply key_eqb_eq in E0. subst k0.
      destruct (key_eqb k k'); reflexivity.
    + destruct (key_eqb k k0) eqn:E1; [| exact IH].
      apply key_eqb_eq in E1. subst k0.
      destruct (key_eqb k k') eqn:E2; [| reflexivity].
      apply key_eqb_eq in E2. subst k'.
      rewrite (proj2 (key_eqb_eq k k) eq_refl) in E0. discriminate.
Qed.

Lemma counter_keys_add (k : key) (c : list (key * nat)) :
  map fst (counter_add k c) =
  if existsb (key_eqb k) (map fst c) then map fst c else (map fst c ++ [k])%list.
Proof.
  induction c as [| [k0 n] c IH]; simpl; [reflexivity |].
  destruct (key_eqb k k0); simpl; [reflexivity |].
  rewrite IH. destruct (existsb (key_eqb k) (map fst c)); reflexivity.
Qed.

Lemma existsb_key_eqb (k : key) (l : list key) :
  existsb (key_eqb k) l = true <-> In k l.
Proof.
  rewrite existsb_exists. split.
  - intros [y [Hy E]]. apply key_eqb_eq in E. now subst.
  - intros H. exists k. split; [assumption | now apply key_eqb_eq].
Qed.

Lemma counter_add_positive (k : key) (c : list (key * nat)) :
  Forall (fun kn => 0 < snd kn) c ->
  Forall (fun kn => 0 < snd kn) (counter_add k c).
Proof.
  induction 1 as [| [k0 n] c Hn Hc IH]; simpl.
  - repeat constructor.
  - destruct (key_eqb k k0); constructor; simpl in *; auto with arith.
Qed.

Lemma counter_add_wf (k : key) (c : list (key * nat)) :
  counter_wf c -> counter_wf (counter_add k c).
Proof.
  intros [Hnd Hpos]. split; [| now apply counter_add_positive].
  rewrite counter_keys_add.
  destruct (existsb (key_eqb k) (map fst c)) eqn:E; [assumption |].
  apply NoDup_app; [assumption | repeat constructor; intros [] | ].
  intros x Hx [<- | []].
  apply existsb_key_eqb in Hx. congruence.
Qed.

Lemma counter_fold_wf (s : list key) (c : list (key * nat)) :
  counter_wf c -> counter_wf (fold_left (fun c k => counter_add k c) s c).
Proof.
  revert c. induction s as [| k s IH]; intros c H; simpl; [assumption |].
  apply IH, counter_add_wf, H.
Qed.

Lemma counter_fold_get (k : key) (s : list key) (c : list (key * nat)) :
  counter_get k (fold_left (fun c k => counter_add k c) s c) =
  count_occ key_eq_dec s k + counter_get k c.
Proof.
  revert c. induction s as [| k' s IH]; intros c; simpl; [reflexivity |].
  rewrite IH, counter_get_add.
  destruct (key_eq_dec k' k) as [-> | N].
  - rewrite (proj2 (key_eqb_eq k k) eq_refl). lia.
  - destruct (key_eqb k k') eqn:E; [| reflexivity].
    apply key_eqb_eq in E. congruence.
Qed.

Lemma counter_fold_keys (k : key) (s : list key) (c : list (key * nat)) :
  In k (map fst (fold_left (fun c k => counter_add k c) s c)) <->
  In k s \/ In k (map fst c).
Proof.
  revert c. induction s as [| k' s IH]; intros c; simpl; [tauto |].
  rewrite IH, counter_keys_add.
  destruct (existsb (key_eqb k') (map fst c)) eqn:E.
  - apply existsb_key_eqb in E. split; [tauto |].
    intros [[-> | H] | H]; auto.
  - rewrite in_app_iff. simpl. tauto.
Qed.

Lemma counter_get_In (k : key) (n : nat) (c : list (key * nat)) :
  NoDup (map fst c) -> In (k, n) c -> counter_get k c = n.
Proof.
  induction c as [| [k0 n0] c IH]; simpl; [contradiction |].
  intros Hnd [E | H].
  - injection E as -> ->. now rewrite (proj2 (key_eqb_eq k k) eq_refl).
  - inversion Hnd as [| ? ? Hnotin Hnd']; subst.
    destruct (key_eqb k k0) eqn:E.
    + apply key_eqb_eq in E. subst k0.
      exfalso. apply Hnotin. change k with (fst (k, n)). now apply in_map.
    + now apply IH.
Qed.

Lemma counter_In_get (k : key) (c : list (key * nat)) :
  In k (map fst c) -> In (k, counter_get k c) c.
Proof.
  induction c as [| [k0 n0] c IH]; simpl; [contradiction |].
  intros H. destruct (key_eqb k k0) eqn:E.
  - apply key_eqb_eq in E. subst k0. now left.
  - right. apply IH. destruct H as [-> | H]; [| assumption].
    rewrite (proj2 (key_eqb_eq k k) eq_refl) in E. discriminate.
Qed.

(** The Counter of an iterable holds exactly the keys that occur, each with
    its number of occurrences. *)
Lemma Counter_In (k : key) (n : nat) (s : list key) :
  In (k, n) (Counter s) <-> In k s /\ n = count_occ key_eq_dec s k.
Proof.
  unfold Counter.
  assert (Hwf : counter_wf (fold_left (fun c k => counter_add k c) s [])).
  { apply counter_fold_wf. split; constructor. }
  destruct Hwf as [Hnd _]. split.
  - intros H. split.
    + assert (Hk : In k (map fst (fold_left (fun c k => counter_add k c) s []))).
      { change k with (fst (k, n)). now apply in_map. }
      apply counter_fold_keys in Hk. destruct Hk as [Hk | []]. exact Hk.
    + apply counter_get_In in H; [| assumption].
      rewrite counter_fold_get in H. simpl in H. lia.
  - intros [Hk ->].
    assert (Hk' : In k (map fst (fold_left (fun c k => counter_add k c) s []))).
    { apply counter_fold_keys. now left. }
    apply counter_In_get in Hk'.
    rewrite counter_fold_get in Hk'. simpl in Hk'.
    now rewrite Nat.add_0_r in Hk'.
Qed.

Lemma Counter_keys_NoDup (s : list key) : NoDup (map fst (Counter s)).
Proof.
  unfold Counter.
  apply (counter_fold_wf s (c:=[])). split; constructor.
Qed.

(** The number of keys is the number of distinct keys of the iterable. *)
Lemma Counter_length (s : list key) :
  List.length (Counter s) = List.length (nodup key_eq_dec s).
Proof.
  rewrite <- (length_map fst (Counter s)).
  apply Nat.le_antisymm; apply NoDup_incl_length.
  - apply Counter_keys_NoDup.
  - intros k Hk. apply nodup_In.
    unfold Counter in Hk. apply counter_fold_keys in Hk. destruct Hk as [Hk | []]. exact Hk.
  - apply NoDup_nodup.
  - intros k Hk. apply nodup_In in Hk.
    unfold Counter. apply counter_fold_keys. now left.
Qed.

Lemma counter_add_total (k : key) (c : list (key * nat)) :
  list_sum (map snd (counter_add k c)) = S (list_sum (map snd c)).
Proof.
  induction c as [| [k0 n] c IH]; simpl; [reflexivity |].
  destruct (key_eqb k k0); simpl; [reflexivity |]. rewrite IH. lia.
Qed.

(** The counts add up to the length of the iterable. *)
Lemma Counter_total (s : list key) :
  list_sum (map snd (Counter s)) = List.length s.
Proof.
  unfold Counter.
  assert (H : forall c,
    list_sum (map snd (fold_left (fun c k => counter_add k c) s c)) =
    List.length s + list_sum (map snd c)).
  { induction s as [| k s IH]; intros c; simpl; [reflexivity |].
    rewrite IH, counter_add_total. lia. }
  rewrite H. simpl. lia.
Qed.

(** ** Task discovery *)

Lemma set_intersection_In (x : string) (potential : list cell) (all : list string) :
  str_in x (set_intersection potential all) = true <->
  In x all /\ In (Some (Str x)) potential.
Proof.
  unfold set_intersection.
  rewrite str_in_iff, nodup_In, filter_In, strings_In, str_in_iff. tauto.
Qed.

Section Discovery.

Variables (matrix : DataFrame) (task_variable : string).
Variable all_sample_ids : list string.
Hypothesis has_variable : has_column matrix task_variable = true.
Hypothesis has_sampleID : has_column matrix "sampleID" = true.

Lemma find_task_sample_ids_ok :
  find_task_sample_ids matrix task_variable all_sample_ids =
  inr (set_intersection
         (map (at_column matrix "sampleID")
              (filter (fun r => present (at_column matrix task_variable r))
                      (rows matrix)))
         all_sample_ids).
Proof.
  unfold find_task_sample_ids.
  rewrite (getitem_has_column _ _ has_variable),
          (getitem_has_column _ _ has_sampleID).
  simpl. now rewrite notnull_map, select_map.
Qed.

Lemma task_sample_ids_in (x : string) :
  str_in x (set_intersection
              (map (at_column matrix "sampleID")
                   (filter (fun r => present (at_column matrix task_variable r))
                           (rows matrix)))
              all_sample_ids) =
  in_task_samples matrix task_variable all_sample_ids x.
Proof.
  apply eq_true_iff_eq.
  rewrite set_intersection_In. unfold in_task_samples.
  rewrite andb_true_iff, str_in_iff, existsb_exists, in_map_iff.
  split; intros [Hall [r Hr]]; (split; [exact Hall |]); exists r.
  - destruct Hr as [E Hr]. apply filter_In in Hr. destruct Hr as [Hr Hp].
    split; [exact Hr |]. apply andb_true_iff. split; [now apply cell_eqb_eq | exact Hp].
  - destruct Hr as [Hr Hb]. apply andb_true_iff in Hb. destruct Hb as [E Hp].
    apply cell_eqb_eq in E. split; [exact E |]. apply filter_In. now split.
Qed.

(** The lines selected by [isin(task_sample_ids)] are the counted lines. *)
Lemma isin_task_sample_ids (r : list cell) :
  cell_in (set_intersection
             (map (at_column matrix "sampleID")
                  (filter (fun r => present (at_column matrix task_variable r))
                          (rows matrix)))
             all_sample_ids)
          (at_column matrix "sampleID" r) =
  counted_line matrix task_variable all_sample_ids r.
Proof.
  unfold cell_in, counted_line.
  destruct (at_column matrix "sampleID" r) as [[b | n | x] |]; try reflexivity.
  apply task_sample_ids_in.
Qed.

Lemma count_samples_per_label_ok :
  count_samples_per_label matrix task_variable
    (set_intersection
       (map (at_column matrix "sampleID")
            (filter (fun r => present (at_column matrix task_variable r))
                    (rows matrix)))
       all_sample_ids) =
  inr (Counter (counted_keys matrix task_variable all_sample_ids)).
Proof.
  unfold count_samples_per_label.
  rewrite (getitem_has_column _ _ has_variable),
          (getitem_has_column _ _ has_sampleID).
  simpl. rewrite isin_map.
  rewrite (map_ext _ (counted_line matrix task_variable all_sample_ids))
    by exact isin_task_sample_ids.
  now rewrite select_map.
Qed.

(** One turn of the inner loop on a table that has both columns. *)
Lemma scan_variable_ok (filename : string) (min_samples_per_class : Z)
  (task_ids : list TaskId) :
  scan_variable filename matrix all_sample_ids min_samples_per_class
                task_ids task_variable =
  inr (if passes min_samples_per_class
            (Counter (counted_keys matrix task_variable all_sample_ids))
       then (task_ids ++ [(task_variable, split_head filename)])%list
       else task_ids).
Proof.
  unfold scan_variable.
  rewrite find_task_sample_ids_ok, count_samples_per_label_ok. simpl.
  unfold passes.
  destruct (_ && _); reflexivity.
Qed.

End Discovery.

(** The two tests of the code say what the acceptance rule says. *)
Lemma passes_iff (matrix : DataFrame) (task_variable : string)
  (all_sample_ids : list string) (min_samples_per_class : Z) :
  passes min_samples_per_class
         (Counter (counted_keys matrix task_variable all_sample_ids)) = true <->
  acceptable matrix task_variable all_sample_ids min_samples_per_class.
Proof.
  unfold passes, acceptable, num_categories, missing_categories, counted_keys.
  rewrite andb_true_iff, forallb_forall, Nat.ltb_lt, Counter_length, iter_distinct.
  cbv zeta.
  split; intros [Hall Hlen]; (split; [| lia]).
  - intros c Hc. apply Z.ltb_lt. apply Hall. apply in_map_iff.
    destruct c as [x |].
    + exists (Value x, category_count matrix task_variable all_sample_ids (Some x)).
      split; [reflexivity |]. apply Counter_In.
      split; [now apply iter_Value | symmetry; apply iter_Value_count].
    + destruct (iter_missing_NaN (numeric_column matrix task_variable) 0 _ Hc)
        as [object Ho].
      exists (NaN object, category_count matrix task_variable all_sample_ids None).
      split; [reflexivity |]. apply Counter_In. split; [exact Ho |].
      unfold category_count.
      destruct (numeric_column matrix task_variable).
      * symmetry. now apply iter_numeric_count.
      * pose proof (iter_object_NaN _ _ _ Ho). subst object.
        symmetry. apply iter_object_count.
  - intros n Hn. apply in_map_iff in Hn. destruct Hn as [[k n'] [E Hkn]].
    simpl in E. subst n'. apply Counter_In in Hkn. destruct Hkn as [Hk ->].
    apply Z.ltb_lt. destruct k as [x | object].
    + rewrite iter_Value_count. apply (Hall (Some x)). now apply iter_Value in Hk.
    + pose proof (iter_NaN_missing _ _ _ _ Hk) as Hnone.
      specialize (Hall None Hnone). unfold category_count in Hall.
      destruct (numeric_column matrix task_variable).
      * now rewrite iter_numeric_count.
      * pose proof (iter_object_NaN _ _ _ Hk). subst object.
        now rewrite iter_object_count.
Qed.

Lemma nodup_with_missing (s : list cell) :
  In None s ->
  List.length (nodup cell_eq_dec s) =
  S (List.length (nodup scalar_eq_dec (dropna s))).
Proof.
  intros Hnone.
  assert (Hnd : NoDup (None :: map Some (nodup scalar_eq_dec (dropna s)))).
  { constructor.
    - intros H. apply in_map_iff in H. destruct H as [x [E _]]. discriminate.
    - apply Finite.Injective_map_NoDup; [| apply NoDup_nodup].
      intros x y E. now injection E. }
  rewrite <- (length_map (@Some scalar) (nodup scalar_eq_dec (dropna s))).
  change (S (List.length (map Some (nodup scalar_eq_dec (dropna s)))))
    with (List.length (None :: map Some (nodup scalar_eq_dec (dropna s)))).
  apply Nat.le_antisymm; apply NoDup_incl_length;
    try apply NoDup_nodup; try exact Hnd.
  - intros c Hc. apply nodup_In in Hc. destruct c as [x |]; [right | now left].
    apply in_map, nodup_In, dropna_In, Hc.
  - intros c [<- | Hc]; apply nodup_In; [exact Hnone |].
    apply in_map_iff in Hc. destruct Hc as [x [<- Hx]].
    apply nodup_In in Hx. now apply dropna_In.
Qed.

Lemma nodup_present (s : list cell) :
  ~ In None s ->
  List.length (nodup cell_eq_dec s) =
  List.length (nodup scalar_eq_dec (dropna s)).
Proof.
  intros Hnone.
  rewrite <- (length_map (@Some scalar) (nodup scalar_eq_dec (dropna s))).
  assert (Hnd : NoDup (map Some (nodup scalar_eq_dec (dropna s)))).
  { apply Finite.Injective_map_NoDup; [| apply NoDup_nodup].
    intros x y E. now injection E. }
  apply Nat.le_antisymm; apply NoDup_incl_length;
    try apply NoDup_nodup; try exact Hnd.
  - intros c Hc. apply nodup_In in Hc. destruct c as [x |]; [| contradiction].
    apply in_map, nodup_In, dropna_In, Hc.
  - intros c Hc. apply nodup_In.
    apply in_map_iff in Hc. destruct Hc as [x [<- Hx]].
    apply nodup_In in Hx. now apply dropna_In.
Qed.

(** The distinct cells of a series: its distinct values, and NaN when it
    occurs. *)
Lemma nodup_cells (s : list cell) :
  List.length (nodup cell_eq_dec s) =
  List.length (nodup scalar_eq_dec (dropna s)) +
  Nat.min 1 (count_occ cell_eq_dec s None).
Proof.
  destruct (in_dec cell_eq_dec None s) as [Hin | Hout].
  - rewrite (nodup_with_missing _ Hin).
    apply (count_occ_In cell_eq_dec) in Hin. lia.
  - rewrite (nodup_present _ Hout).
    apply (count_occ_not_In cell_eq_dec) in Hout. rewrite Hout. simpl. lia.
Qed.

(** The acceptance rule is the rule by value on a column of strings, and on
    a column of numbers with at most one missing cell among the counted
    lines. *)
Lemma acceptable_by_value_iff (matrix : DataFrame) (task_variable : string)
  (all_sample_ids : list string) (min_samples_per_class : Z) :
  numeric_column matrix task_variable = false \/
  count_occ cell_eq_dec
            (counted_values matrix task_variable all_sample_ids) None <= 1 ->
  acceptable matrix task_variable all_sample_ids min_samples_per_class <->
  acceptable_by_value matrix task_variable all_sample_ids min_samples_per_class.
Proof.
  intros Hcond.
  unfold acceptable, acceptable_by_value, num_categories, missing_categories.
  rewrite nodup_cells. cbv zeta.
  assert (Hcount : forall c,
    In c (counted_values matrix task_variable all_sample_ids) ->
    category_count matrix task_variable all_sample_ids c =
    count_occ cell_eq_dec (counted_values matrix task_variable all_sample_ids) c).
  { intros [x |] Hc; [reflexivity |]. unfold category_count.
    destruct (numeric_column matrix task_variable); [| reflexivity].
    destruct Hcond as [Hf | Hle]; [discriminate |].
    apply (count_occ_In cell_eq_dec) in Hc. lia. }
  assert (Hmissing :
    (if numeric_column matrix task_variable
     then count_occ cell_eq_dec
            (counted_values matrix task_variable all_sample_ids) None
     else Nat.min 1 (count_occ cell_eq_dec
            (counted_values matrix task_variable all_sample_ids) None)) =
    Nat.min 1 (count_occ cell_eq_dec
            (counted_values matrix task_variable all_sample_ids) None)).
  { destruct (numeric_column matrix task_variable); [| reflexivity].
    destruct Hcond as [Hf | Hle]; [discriminate | lia]. }
  rewrite Hmissing.
  split; intros [Hall Hlen]; (split; [| exact Hlen]); intros c Hc;
    specialize (Hall c Hc); now rewrite (Hcount c Hc) in *.
Qed.

Lemma filter_none {A : Type} (f : A -> bool) (l : list A) :
  (forall x, In x l -> f x = false) -> filter f l = [].
Proof.
  induction l as [| a l IH]; simpl; intros H; [reflexivity |].
  rewrite (H a (or_introl eq_refl)). apply IH. intros x Hx. apply H. now right.
Qed.

Lemma at_column_absent (matrix : DataFrame) (name : string) (r : list cell) :
  has_column matrix name = false -> at_column matrix name r = None.
Proof.
  unfold has_column, at_column. intros H.
  destruct (find_index name (columns matrix)) as [j |] eqn:E; [| reflexivity].
  apply find_index_nth, nth_error_In, str_in_iff in E. congruence.
Qed.

Lemma find_task_sample_ids_absent (matrix : DataFrame) (task_variable : string)
  (all_sample_ids : list string) :
  has_column matrix task_variable = false \/ has_column matrix "sampleID" = false ->
  find_task_sample_ids matrix task_variable all_sample_ids = inl KeyError.
Proof.
  unfold find_task_sample_ids. intros [H | H].
  - now rewrite (getitem_no_column _ _ H).
  - rewrite (getitem_no_column _ _ H).
    destruct (getitem matrix task_variable) as [e |] eqn:E; [| reflexivity].
    unfold getitem, ret, raise in E.
    destruct (find_index task_variable (columns matrix)); simpl; congruence.
Qed.

Lemma counted_values_absent (matrix : DataFrame) (task_variable : string)
  (all_sample_ids : list string) :
  has_column matrix task_variable = false \/ has_column matrix "sampleID" = false ->
  counted_values matrix task_variable all_sample_ids = [].
Proof.
  intros H. unfold counted_values.
  replace (filter (counted_line matrix task_variable all_sample_ids) (rows matrix))
    with (@nil (list cell)); [reflexivity |].
  symmetry. apply filter_none. intros r _.
  unfold counted_line.
  destruct (at_column matrix "sampleID" r) as [[b | n | x] |] eqn:Ex;
    try reflexivity.
  unfold in_task_samples.
  destruct H as [H | H].
  - replace (existsb _ (rows matrix)) with false; [apply andb_false_r |].
    symmetry. apply not_true_iff_false. rewrite existsb_exists.
    intros [r' [_ Hb]]. rewrite (at_column_absent _ _ r' H) in Hb.
    simpl in Hb. now rewrite andb_false_r in Hb.
  - rewrite (at_column_absent _ _ r H) in Ex. discriminate.
Qed.

Lemma counted_keys_absent (matrix : DataFrame) (task_variable : string)
  (all_sample_ids : list string) :
  has_column matrix task_variable = false \/ has_column matrix "sampleID" = false ->
  counted_keys matrix task_variable all_sample_ids = [].
Proof.
  intros H. unfold counted_keys. now rewrite counted_values_absent.
Qed.

(** One turn of the inner loop, on any table: the pair is appended exactly
    when the two tests pass on the counts of the counted lines.  *)
Lemma scan_variable_step (filename : string) (matrix : DataFrame)
  (all_sample_ids : list string) (min_samples_per_class : Z)
  (task_ids : list TaskId) (task_variable : string) :
  scan_variable filename matrix all_sample_ids min_samples_per_class
                task_ids task_variable =
  inr (if passes min_samples_per_class
            (Counter (counted_keys matrix task_variable all_sample_ids))
       then (task_ids ++ [(task_variable, split_head filename)])%list
       else task_ids).
Proof.
  destruct (has_column matrix task_variable) eqn:Hv;
    [destruct (has_column matrix "sampleID") eqn:Hs |].
  - now apply scan_variable_ok.
  - unfold scan_variable.
    rewrite find_task_sample_ids_absent, counted_keys_absent by auto.
    reflexivity.
  - unfold scan_variable.
    rewrite find_task_sample_ids_absent, counted_keys_absent by auto.
    reflexivity.
Qed.

Lemma scan_variables (filename : string) (matrix : DataFrame)
  (all_sample_ids : list string) (min_samples_per_class : Z)
  (task_variables : list string) (task_ids : list TaskId) :
  foldM (scan_variable filename matrix all_sample_ids min_samples_per_class)
        task_variables task_ids =
  inr (task_ids ++ table_tasks filename matrix all_sample_ids
                               min_samples_per_class task_variables)%list.
Proof.
  unfold table_tasks.
  revert task_ids. induction task_variables as [| v vs IH]; intros task_ids; simpl.
  - now rewrite app_nil_r.
  - rewrite scan_variable_step. simpl.
    destruct (passes _ _); rewrite IH; simpl; [| reflexivity].
    now rewrite <- app_assoc.
Qed.

Lemma scan_files (dir : list (string * result DataFrame))
  (task_variables all_sample_ids : list string) (min_samples_per_class : Z)
  (filenames : list string) (task_ids : list TaskId) :
  foldM (scan_file dir task_variables all_sample_ids min_samples_per_class)
        filenames task_ids =
  (tables <- read_tables dir filenames ;;
   ret (task_ids ++ catalog_of tables all_sample_ids min_samples_per_class
                               task_variables)%list).
Proof.
  unfold read_tables, catalog_of.
  revert task_ids. induction filenames as [| f fs IH]; intros task_ids; simpl.
  - unfold ret. now rewrite app_nil_r.
  - unfold scan_file at 1.
    destruct (read_csv dir f) as [e | matrix]; simpl; [reflexivity |].
    rewrite scan_variables. simpl. rewrite IH.
    destruct (mapM _ fs) as [e | tables]; simpl; [reflexivity |].
    unfold ret. now rewrite <- app_assoc.
Qed.

Lemma read_tables_ok (dir : list (string * result DataFrame))
  (filenames : list string) (tables : list (string * DataFrame)) :
  read_tables dir filenames = inr tables ->
  forall filename matrix,
    In (filename, matrix) tables <->
    In filename filenames /\ read_csv dir filename = inr matrix.
Proof.
  unfold read_tables.
  revert tables. induction filenames as [| f fs IH]; intros tables; simpl.
  - intros [= <-]. simpl. tauto.
  - destruct (read_csv dir f) as [e | m] eqn:Ef; simpl; [discriminate |].
    destruct (mapM _ fs) as [e | ts] eqn:Efs; simpl; [discriminate |].
    intros [= <-] filename matrix. simpl. rewrite (IH ts eq_refl).
    split.
    + intros [[= <- <-] | [H1 H2]]; auto.
    + intros [[<- | H1] H2]; [left | right; auto].
      rewrite Ef in H2. now injection H2 as <-.
Qed.

Lemma read_tables_total (dir : list (string * result DataFrame))
  (filenames : list string) :
  (exists tables, read_tables dir filenames = inr tables) <->
  (forall filename, In filename filenames ->
                    exists matrix, read_csv dir filename = inr matrix).
Proof.
  unfold read_tables. induction filenames as [| f fs IH]; simpl.
  - split; [intros _ ? [] | intros _; now exists []].
  - destruct (read_csv dir f) as [e | m] eqn:Ef; simpl.
    + split; [intros [? [=]] |].
      intros H. destruct (H f (or_introl eq_refl)) as [m E]. congruence.
    + destruct (mapM _ fs) as [e | ts] eqn:Efs; simpl.
      * split; [intros [? [=]] |].
        intros H. assert (Hfs : exists tables, @inl exn (list (string * DataFrame)) e = inr tables).
        { apply IH. intros g Hg. apply H. now right. }
        destruct Hfs as [? [=]].
      * split; [| intros _; eexists; reflexivity].
        intros _ g [<- | Hg]; [now exists m |].
        apply (proj1 IH); [now exists ts | exact Hg].
Qed.

(** The tables are read in order, and the first file that cannot be parsed
    ends the reading with its exception. *)
Lemma read_tables_first_failure (dir : list (string * result DataFrame))
  (before after : list string) (filename : string) (e : exn) :
  (forall other, In other before ->
                 exists matrix, read_csv dir other = inr matrix) ->
  read_csv dir filename = inl e ->
  read_tables dir (before ++ filename :: after) = inl e.
Proof.
  unfold read_tables. intros Hbefore Hfile.
  induction before as [| f fs IH]; simpl.
  - now rewrite Hfile.
  - destruct (Hbefore f (or_introl eq_refl)) as [m ->]. simpl.
    rewrite IH; [reflexivity |]. intros other Ho. apply Hbefore. now right.
Qed.

(** A directory that lists a file can be listed. *)
Lemma clinicalMatrices_listed (V : Type) (data_dir : DataDir V) (filename : string) :
  In filename (map fst (clinicalMatrices data_dir)) ->
  clinicalMatrices_dir data_dir = inr (clinicalMatrices data_dir).
Proof.
  unfold clinicalMatrices.
  destruct (clinicalMatrices_dir data_dir) as [e | files]; [intros [] | reflexivity].
Qed.

(** The whole of discovery, in one equation. *)
Lemma get_TCGA_task_ids_eq (V : Type) (data_dir : DataDir V) (min_samples_per_class : Z)
  (task_variables_file : option (list string)) :
  get_TCGA_task_ids data_dir min_samples_per_class task_variables_file =
  match all_sample_ids_file data_dir, task_variables_file with
  | None, _ => inl SystemExit
  | Some _, None => inl OSError
  | Some all_sample_ids, Some task_variables =>
      _ <- clinicalMatrices_dir data_dir ;;
      tables <- read_tables (clinicalMatrices data_dir)
                            (map fst (clinicalMatrices data_dir)) ;;
      ret (catalog_of tables all_sample_ids min_samples_per_class task_variables)
  end.
Proof.
  unfold get_TCGA_task_ids, listdir, clinicalMatrices.
  destruct (all_sample_ids_file data_dir) as [all |]; simpl; [| reflexivity].
  destruct task_variables_file as [vars |]; simpl; [| reflexivity].
  destruct (clinicalMatrices_dir data_dir) as [e | files]; simpl; [reflexivity |].
  now rewrite scan_files.
Qed.

(** What a catalog is made of. *)
Lemma get_TCGA_task_ids_inv (V : Type) (data_dir : DataDir V)
  (min_samples_per_class : Z) (task_variables_file : option (list string))
  (catalog : list TaskId) :
  get_TCGA_task_ids data_dir min_samples_per_class task_variables_file
    = inr catalog ->
  exists all_sample_ids task_variables tables,
    all_sample_ids_file data_dir = Some all_sample_ids /\
    task_variables_file = Some task_variables /\
    clinicalMatrices_dir data_dir = inr (clinicalMatrices data_dir) /\
    read_tables (clinicalMatrices data_dir)
                (map fst (clinicalMatrices data_dir)) = inr tables /\
    catalog = catalog_of tables all_sample_ids min_samples_per_class
                         task_variables.
Proof.
  rewrite get_TCGA_task_ids_eq.
  destruct (all_sample_ids_file data_dir) as [all |]; [| discriminate].
  destruct task_variables_file as [vars |]; [| discriminate].
  destruct (clinicalMatrices_dir data_dir) as [e | files] eqn:Hdir;
    [discriminate |].
  simpl.
  destruct (read_tables _ _) as [e | tables] eqn:Htables; [discriminate |].
  intros [= <-]. exists all, vars, tables.
  repeat split; try reflexivity; try assumption.
  unfold clinicalMatrices. now rewrite Hdir.
Qed.

(** C1. Task discovery accepts a pair (variable, cancer type) if and only
    if, over the lines whose sample id lies in the intersection of the
    samples with a present value and the global sample ids, every category
    count is strictly greater than [min_samples_per_class] and there are at
    least two categories: this is what the catalog holds, and what one turn
    of the inner loop appends.  The categories are the distinct values that
    are present and, where cells are missing among those lines, one
    category for them all in a column of strings, and one category for each
    of them in a column of numbers.  A category whose count equals
    [min_samples_per_class] rejects the task.  On a column of strings, and
    on a column of numbers with at most one such missing cell, this is the
    rule with one category for each distinct value, the missing value being
    one of them. *)
Theorem discovery_accepts_iff (V : Type) (data_dir : DataDir V)
  (min_samples_per_class : Z) (task_variables all_sample_ids : list string)
  (catalog : list TaskId) :
  all_sample_ids_file data_dir = Some all_sample_ids ->
  get_TCGA_task_ids data_dir min_samples_per_class (Some task_variables)
    = inr catalog ->
  (forall task_variable cancer,
     In (task_variable, cancer) catalog <->
     exists filename matrix,
       In filename (map fst (clinicalMatrices data_dir)) /\
       read_csv (clinicalMatrices data_dir) filename = inr matrix /\
       split_head filename = cancer /\
       In task_variable task_variables /\
       acceptable matrix task_variable all_sample_ids min_samples_per_class) /\
  (forall filename matrix task_variable task_ids,
     scan_variable filename matrix all_sample_ids min_samples_per_class
                   task_ids task_variable
     = inr (task_ids ++ [(task_variable, split_head filename)])%list <->
     acceptable matrix task_variable all_sample_ids min_samples_per_class) /\
  (forall filename matrix task_variable task_ids c,
     In c (counted_values matrix task_variable all_sample_ids) ->
     Z.of_nat (category_count matrix task_variable all_sample_ids c)
       = min_samples_per_class ->
     scan_variable filename matrix all_sample_ids min_samples_per_class
                   task_ids task_variable
     = inr task_ids) /\
  (forall matrix task_variable,
     numeric_column matrix task_variable = false \/
     count_occ cell_eq_dec
               (counted_values matrix task_variable all_sample_ids) None <= 1 ->
     acceptable matrix task_variable all_sample_ids min_samples_per_class <->
     acceptable_by_value matrix task_variable all_sample_ids
                         min_samples_per_class).
Proof.
  intros Hall Hget. apply get_TCGA_task_ids_inv in Hget.
  destruct Hget as [all [vars [tables [Hall' [[= <-] [_ [Htables ->]]]]]]].
  rewrite Hall in Hall'. injection Hall' as <-.
  split; [| split; [| split]].
  - intros v c. unfold catalog_of. rewrite in_flat_map. split.
    + intros [[filename matrix] [Hin Ht]]. unfold table_tasks in Ht. simpl in Ht.
      apply in_map_iff in Ht. destruct Ht as [v' [E Hv]].
      injection E as -> <-. apply filter_In in Hv. destruct Hv as [Hv Hp].
      apply (read_tables_ok _ _ Htables) in Hin. destruct Hin as [Hf Hr].
      exists filename, matrix.
      split; [exact Hf | split; [exact Hr | split; [reflexivity |]]].
      split; [exact Hv | now apply passes_iff].
    + intros [filename [matrix [Hf [Hr [<- [Hv Hacc]]]]]].
      exists (filename, matrix). split.
      * apply (read_tables_ok _ _ Htables). now split.
      * unfold table_tasks. simpl. apply in_map_iff. exists v.
        split; [reflexivity |]. apply filter_In. split; [assumption |].
        now apply passes_iff.
  - intros filename matrix v task_ids. rewrite scan_variable_step.
    rewrite <- passes_iff. destruct (passes _ _); split; try reflexivity;
      try discriminate.
    intros E. injection E as E. apply (f_equal (@List.length TaskId)) in E.
    rewrite length_app in E. simpl in E. lia.
  - intros filename matrix v task_ids c Hc Hcount. rewrite scan_variable_step.
    destruct (passes _ _) eqn:Hp; [| reflexivity].
    apply passes_iff in Hp. destruct Hp as [Hp _]. specialize (Hp c Hc). lia.
  - intros matrix v. apply acceptable_by_value_iff.
Qed.

Lemma discovery_accepts_iff_witness :
  get_TCGA_task_ids (scenario (inr balanced)) 1 (Some ["sex"%string])
    = inr [("sex", "CANCER")]%string /\
  acceptable balanced "sex" four_samples 1 /\
  acceptable_by_value balanced "sex" four_samples 1 /\
  scan_variable "CANCER_clinicalMatrix" unbalanced four_samples 1 [] "sex"
    = inr [].
Proof.
  split; [reflexivity |].
  pose proof (@discovery_accepts_iff Z (scenario (inr balanced)) 1
                ["sex"%string] four_samples [("sex", "CANCER")%string]
                eq_refl eq_refl) as [_ [Hstep [Hreject Hvalue]]].
  assert (Hacc : acceptable balanced "sex" four_samples 1).
  { apply (Hstep "CANCER_clinicalMatrix"%string balanced "sex"%string []).
    reflexivity. }
  split; [exact Hacc |]. split.
  - apply (Hvalue balanced "sex"%string); [left; reflexivity | exact Hacc].
  - apply (Hreject "CANCER_clinicalMatrix"%string unbalanced "sex"%string [] F);
      [simpl; tauto | reflexivity].
Defined.

(** C1, counterexample. Sample s1 stands on three lines, with the grade 1
    on one and no grade on the two others, and sample s2 has the grade 1.
    By value there are two categories, the grade 1 and the missing value,
    each with two lines: more than the threshold 1.  Discovery rejects the
    pair all the same: in a column of numbers each missing cell is a
    category of its own, of one line.  With the same lines in a column of
    strings the pair is accepted. *)
Lemma missing_numbers_are_counted_apart :
  numeric_column grade_missing_twice "grade" = true /\
  acceptable_by_value grade_missing_twice "grade" four_samples 1 /\
  scan_variable "CANCER_clinicalMatrix" grade_missing_twice four_samples 1
                [] "grade" = inr [] /\
  get_TCGA_task_ids (scenario (inr grade_missing_twice)) 1
                    (Some ["grade"%string]) = inr [] /\
  get_TCGA_task_ids (scenario (inr sex_missing_twice)) 1
                    (Some ["sex"%string]) = inr [("sex", "CANCER")%string].
Proof.
  split; [reflexivity |]. split; [| repeat split].
  assert (E : counted_values grade_missing_twice "grade" four_samples =
              [Some (int 1); Some (int 1); None; None]) by reflexivity.
  unfold acceptable_by_value. rewrite E. split.
  - intros c [<- | [<- | [<- | [<- | []]]]]; vm_compute; reflexivity.
  - vm_compute. lia.
Qed.

(** C6 as the code has it. Discovery returns a catalog exactly when the
    sample-id file and the task-variable file can be read, the clinical
    directory can be listed and [read_csv] parses every file of it.  A
    table without the variable column or without the [sampleID] column is
    skipped for that variable and never makes discovery fail.  Everything
    else is fatal: a sample-id file that cannot be read exits, a
    task-variable file that cannot be read and a directory that cannot be
    listed raise their exception, and the first file that [read_csv] cannot
    parse raises the exception of [read_csv]. *)
Theorem discovery_completes_iff (V : Type) (data_dir : DataDir V)
  (min_samples_per_class : Z) (task_variables_file : option (list string)) :
  ((exists catalog,
      get_TCGA_task_ids data_dir min_samples_per_class task_variables_file
        = inr catalog) <->
   all_sample_ids_file data_dir <> None /\
   task_variables_file <> None /\
   (exists files, clinicalMatrices_dir data_dir = inr files) /\
   (forall filename,
      In filename (map fst (clinicalMatrices data_dir)) ->
      exists matrix,
        read_csv (clinicalMatrices data_dir) filename = inr matrix)) /\
  (forall filename matrix all_sample_ids task_ids task_variable,
     has_column matrix task_variable = false \/
     has_column matrix "sampleID" = false ->
     scan_variable filename matrix all_sample_ids min_samples_per_class
                   task_ids task_variable = inr task_ids) /\
  (all_sample_ids_file data_dir = None ->
   get_TCGA_task_ids data_dir min_samples_per_class task_variables_file
     = inl SystemExit) /\
  (all_sample_ids_file data_dir <> None ->
   task_variables_file = None ->
   get_TCGA_task_ids data_dir min_samples_per_class task_variables_file
     = inl OSError) /\
  (forall e,
     all_sample_ids_file data_dir <> None ->
     task_variables_file <> None ->
     clinicalMatrices_dir data_dir = inl e ->
     get_TCGA_task_ids data_dir min_samples_per_class task_variables_file
       = inl e) /\
  (forall before filename after e,
     all_sample_ids_file data_dir <> None ->
     task_variables_file <> None ->
     map fst (clinicalMatrices data_dir) = (before ++ filename :: after)%list ->
     (forall other, In other before ->
        exists matrix,
          read_csv (clinicalMatrices data_dir) other = inr matrix) ->
     read_csv (clinicalMatrices data_dir) filename = inl e ->
     get_TCGA_task_ids data_dir min_samples_per_class task_variables_file
       = inl e).
Proof.
  rewrite get_TCGA_task_ids_eq.
  split; [| split; [| split; [| split; [| split]]]].
  - rewrite <- read_tables_total.
    destruct (all_sample_ids_file data_dir) as [all |];
      [| split; [intros [? [=]] | intros [H _]; now destruct H]].
    destruct task_variables_file as [vars |];
      [| split; [intros [? [=]] | intros [_ [H _]]; now destruct H]].
    destruct (clinicalMatrices_dir data_dir) as [e | files]; simpl;
      [split; [intros [? [=]] | intros [_ [_ [[? [=]] _]]]] |].
    destruct (read_tables _ _) as [e | tables]; simpl.
    + split; [intros [? [=]] | intros [_ [_ [_ [? [=]]]]]].
    + split.
      * intros _. repeat split; try discriminate; eexists; reflexivity.
      * intros _. eexists. reflexivity.
  - intros filename matrix all task_ids v Habsent.
    rewrite scan_variable_step, counted_keys_absent by exact Habsent.
    reflexivity.
  - intros ->. reflexivity.
  - intros Hall ->.
    destruct (all_sample_ids_file data_dir); [reflexivity | contradiction].
  - intros e Hall Hvars Hdir.
    destruct (all_sample_ids_file data_dir); [| contradiction].
    destruct task_variables_file; [| contradiction].
    now rewrite Hdir.
  - intros before filename after e Hall Hvars Hlist Hbefore Hfile.
    destruct (all_sample_ids_file data_dir); [| contradiction].
    destruct task_variables_file; [| contradiction].
    rewrite (@clinicalMatrices_listed V data_dir filename)
      by (rewrite Hlist, in_app_iff; right; now left).
    simpl. rewrite Hlist.
    now rewrite (read_tables_first_failure _ _ _ _ Hbefore Hfile).
Qed.

(** C6, counterexample. Both list files are readable and the directory
    holds a valid table and a file that [read_csv] cannot parse: discovery
    raises the parser's exception instead of skipping the file. *)
Lemma unparsable_table_is_fatal :
  all_sample_ids_file mixed_directory <> None /\
  read_csv (clinicalMatrices mixed_directory) "CANCER_clinicalMatrix"
    = inr balanced /\
  get_TCGA_task_ids mixed_directory 1 (Some ["sex"%string]) = inl ParserError.
Proof. split; [discriminate | split; reflexivity]. Qed.

(** C9. When a candidate variable has no column in a clinical table, the
    turn of the inner loop for it raises nothing and appends nothing; the
    scan of the table goes on with the other variables as if the variable
    had not been listed; discovery over tables that all parse returns a
    catalog; and the pair (variable, cancer type) is not in the catalog
    when no table of that cancer type has the column. *)
Theorem missing_column_is_skipped (V : Type) (data_dir : DataDir V)
  (min_samples_per_class : Z) (task_variables all_sample_ids : list string)
  (filename : string) (matrix : DataFrame) (task_variable : string) :
  all_sample_ids_file data_dir = Some all_sample_ids ->
  In filename (map fst (clinicalMatrices data_dir)) ->
  read_csv (clinicalMatrices data_dir) filename = inr matrix ->
  has_column matrix task_variable = false ->
  (forall task_ids,
     scan_variable filename matrix all_sample_ids min_samples_per_class
                   task_ids task_variable = inr task_ids) /\
  (forall before after task_ids,
     foldM (scan_variable filename matrix all_sample_ids min_samples_per_class)
           (before ++ task_variable :: after) task_ids =
     foldM (scan_variable filename matrix all_sample_ids min_samples_per_class)
           (before ++ after) task_ids) /\
  ((forall other, In other (map fst (clinicalMatrices data_dir)) ->
                  exists m, read_csv (clinicalMatrices data_dir) other = inr m) ->
   exists catalog,
     get_TCGA_task_ids data_dir min_samples_per_class (Some task_variables)
       = inr catalog /\
     ((forall other m,
         In other (map fst (clinicalMatrices data_dir)) ->
         read_csv (clinicalMatrices data_dir) other = inr m ->
         split_head other = split_head filename ->
         has_column m task_variable = false) ->
      ~ In (task_variable, split_head filename) catalog)).
Proof.
  intros Hall Hin Hread Hcol.
  assert (Hskip : passes min_samples_per_class
                    (Counter (counted_keys matrix task_variable all_sample_ids))
                  = false).
  { now rewrite counted_keys_absent by auto. }
  split; [| split].
  - intros task_ids. now rewrite scan_variable_step, Hskip.
  - intros before after task_ids. rewrite !scan_variables.
    unfold table_tasks. rewrite !filter_app. simpl. now rewrite Hskip.
  - intros Hparse. rewrite get_TCGA_task_ids_eq, Hall.
    rewrite (clinicalMatrices_listed _ _ Hin). simpl.
    apply read_tables_total in Hparse. destruct Hparse as [tables Htables].
    rewrite Htables. simpl. eexists. split; [reflexivity |].
    intros Hnone Hcat. unfold catalog_of in Hcat.
    apply in_flat_map in Hcat. destruct Hcat as [[other m] [Hother Ht]].
    apply (read_tables_ok _ _ Htables) in Hother. destruct Hother as [Ho Hr].
    unfold table_tasks in Ht. simpl in Ht. apply in_map_iff in Ht.
    destruct Ht as [v [E Hv]]. injection E as -> E.
    apply filter_In in Hv. destruct Hv as [_ Hp].
    rewrite counted_keys_absent in Hp; [discriminate |].
    left. now apply (Hnone other m).
Qed.

Lemma missing_column_is_skipped_witness :
  scan_variable "CANCER_clinicalMatrix" no_sex_column four_samples 1
                [("age", "OTHER")%string] "sex"
    = inr [("age", "OTHER")%string] /\
  exists catalog,
    get_TCGA_task_ids (scenario (inr no_sex_column)) 1
                      (Some ["sex"; "age"]%string) = inr catalog /\
    ~ In ("sex", "CANCER")%string catalog.
Proof.
  pose proof (@missing_column_is_skipped Z (scenario (inr no_sex_column)) 1
                ["sex"; "age"]%string four_samples
                "CANCER_clinicalMatrix"%string no_sex_column "sex"%string
                eq_refl (or_introl eq_refl) eq_refl eq_refl)
    as [Hskip [_ Hcat]].
  split; [apply Hskip |].
  destruct Hcat as [catalog [Hget Hnot]].
  - intros other [<- | []]. now exists no_sex_column.
  - exists catalog. split; [exact Hget |].
    apply Hnot. intros other m [<- | []] Hm _.
    injection Hm as <-. reflexivity.
Defined.

(** ** Missing values among the counted lines *)

(** Without the directory [clinicalMatrices], [os.listdir] raises and so
    does discovery. *)
Lemma missing_directory_is_fatal :
  all_sample_ids_file no_clinical_directory <> None /\
  get_TCGA_task_ids no_clinical_directory 1 (Some ["sex"%string]) = inl OSError.
Proof. split; [discriminate | reflexivity]. Qed.

Lemma at_column_present (matrix : DataFrame) (name : string) (r : list cell) :
  at_column matrix name r <> None -> has_column matrix name = true.
Proof.
  intros H. destruct (has_column matrix name) eqn:E; [reflexivity |].
  now rewrite at_column_absent in H.
Qed.

(** C10. The counts of discovery are taken over every line whose sample id
    is in the intersected set, whether or not the value on that line is
    present.  So when a sample id known to the expression store stands on a
    line with a value and on a line without, the line without is counted
    and the missing value is a key of [num_samples_per_label] beside the
    values that are present: in a column of strings one key, counted with
    all such lines; in a column of numbers one key for each such line,
    counted with that line.  There are more keys than distinct values, and
    the task is rejected when the count of such a key does not exceed
    [min_samples_per_class]. *)
Theorem missing_value_is_counted (matrix : DataFrame) (task_variable : string)
  (all_sample_ids : list string) (min_samples_per_class : Z)
  (filename : string) (task_ids : list TaskId)
  (r1 r2 : list cell) (x : string) :
  In r1 (rows matrix) -> In r2 (rows matrix) ->
  at_column matrix "sampleID" r1 = Some x ->
  at_column matrix "sampleID" r2 = Some x ->
  In x all_sample_ids ->
  at_column matrix task_variable r1 <> None ->
  at_column matrix task_variable r2 = None ->
  exists task_sample_ids num_samples_per_label object n,
    let counted :=
      filter (fun r => cell_in task_sample_ids (at_column matrix "sampleID" r))
             (rows matrix) in
    let values := map (at_column matrix task_variable) counted in
    let distinct := List.length (nodup scalar_eq_dec (dropna values)) in
    let missing := count_occ cell_eq_dec values None in
    find_task_sample_ids matrix task_variable all_sample_ids
      = inr task_sample_ids /\
    count_samples_per_label matrix task_variable task_sample_ids
      = inr num_samples_per_label /\
    num_samples_per_label =
      Counter (iter (numeric_column matrix task_variable) 0 values) /\
    In r2 counted /\
    In (NaN object, n) num_samples_per_label /\
    1 <= n /\ 1 <= missing /\
    (numeric_column matrix task_variable = false ->
     n = missing /\ List.length num_samples_per_label = distinct + 1) /\
    (numeric_column matrix task_variable = true ->
     n = 1 /\ List.length num_samples_per_label = distinct + missing) /\
    distinct < List.length num_samples_per_label /\
    scan_variable filename matrix all_sample_ids min_samples_per_class
                  task_ids task_variable
      = inr (if passes min_samples_per_class num_samples_per_label
             then (task_ids ++ [(task_variable, split_head filename)])%list
             else task_ids) /\
    ((Z.of_nat n <= min_samples_per_class)%Z ->
     scan_variable filename matrix all_sample_ids min_samples_per_class
                   task_ids task_variable = inr task_ids).
Proof.
  intros Hr1 Hr2 Hid1 Hid2 Hx Hv1 Hv2.
  assert (Hv : has_column matrix task_variable = true)
    by exact (at_column_present _ _ _ Hv1).
  assert (Hs : has_column matrix "sampleID" = true).
  { apply (at_column_present matrix "sampleID" r1). congruence. }
  set (ids := set_intersection
                (map (at_column matrix "sampleID")
                     (filter (fun r => present (at_column matrix task_variable r))
                             (rows matrix)))
                all_sample_ids).
  assert (Hfilter :
    filter (fun r => cell_in ids (at_column matrix "sampleID" r)) (rows matrix)
    = filter (counted_line matrix task_variable all_sample_ids) (rows matrix)).
  { apply filter_ext. intros r. now apply isin_task_sample_ids. }
  assert (Hcounted : counted_line matrix task_variable all_sample_ids r2 = true).
  { unfold counted_line. rewrite Hid2. unfold in_task_samples.
    apply andb_true_iff. split; [now apply str_in_iff |].
    apply existsb_exists. exists r1. split; [exact Hr1 |].
    rewrite Hid1. apply andb_true_iff. split; [now apply cell_eqb_eq |].
    destruct (at_column matrix task_variable r1); [reflexivity | congruence]. }
  assert (Hnone : In None (counted_values matrix task_variable all_sample_ids)).
  { unfold counted_values. rewrite <- Hv2. apply in_map. apply filter_In. now split. }
  destruct (iter_missing_NaN (numeric_column matrix task_variable) 0 _ Hnone)
    as [object Hobject].
  fold (counted_keys matrix task_variable all_sample_ids) in Hobject.
  set (n := count_occ key_eq_dec
                      (counted_keys matrix task_variable all_sample_ids)
                      (NaN object)).
  assert (Hkey : In (NaN object, n)
                    (Counter (counted_keys matrix task_variable all_sample_ids))).
  { apply Counter_In. now split. }
  assert (Hn : 1 <= n).
  { apply (count_occ_In key_eq_dec) in Hobject. fold n in Hobject. lia. }
  assert (Hmissing : 1 <= count_occ cell_eq_dec
                            (counted_values matrix task_variable all_sample_ids)
                            None).
  { apply (count_occ_In cell_eq_dec) in Hnone. lia. }
  assert (Hlen : List.length
                   (Counter (counted_keys matrix task_variable all_sample_ids)) =
                 List.length
                   (nodup scalar_eq_dec
                      (dropna (counted_values matrix task_variable all_sample_ids))) +
                 (if numeric_column matrix task_variable
                  then count_occ cell_eq_dec
                         (counted_values matrix task_variable all_sample_ids) None
                  else Nat.min 1
                         (count_occ cell_eq_dec
                            (counted_values matrix task_variable all_sample_ids)
                            None))).
  { unfold counted_keys. now rewrite Counter_length, iter_distinct. }
  exists ids, (Counter (counted_keys matrix task_variable all_sample_ids)),
         object, n.
  cbv zeta. rewrite Hfilter.
  fold (counted_values matrix task_variable all_sample_ids).
  fold (counted_keys matrix task_variable all_sample_ids).
  split; [now apply find_task_sample_ids_ok |].
  split; [now apply count_samples_per_label_ok |].
  split; [reflexivity |].
  split; [apply filter_In; now split |].
  split; [exact Hkey |].
  split; [exact Hn |].
  split; [exact Hmissing |].
  split.
  { intros Hdtype. rewrite Hdtype in Hlen. split; [| lia].
    unfold n, counted_keys in *. rewrite Hdtype in *.
    pose proof (iter_object_NaN _ _ _ Hobject). subst object.
    apply iter_object_count. }
  split.
  { intros Hdtype. rewrite Hdtype in Hlen. split; [| exact Hlen].
    unfold n, counted_keys in *. rewrite Hdtype in *.
    now apply iter_numeric_count. }
  split; [destruct (numeric_column matrix task_variable); lia |].
  split; [apply scan_variable_step |].
  intros Hle. rewrite scan_variable_step.
  destruct (passes _ _) eqn:Hp; [| reflexivity].
  unfold passes in Hp. apply andb_true_iff in Hp. destruct Hp as [Hp _].
  rewrite forallb_forall in Hp.
  assert (Hlt : (min_samples_per_class <? Z.of_nat n)%Z = true).
  { apply Hp. apply in_map_iff. now exists (NaN object, n). }
  apply Z.ltb_lt in Hlt. lia.
Qed.

Lemma missing_value_is_counted_witness :
  (exists task_sample_ids num_samples_per_label object,
     find_task_sample_ids grade_missing_twice "grade" four_samples
       = inr task_sample_ids /\
     count_samples_per_label grade_missing_twice "grade" task_sample_ids
       = inr num_samples_per_label /\
     In (NaN object, 1) num_samples_per_label /\
     List.length num_samples_per_label = 3) /\
  count_samples_per_label repeated_sample "sex" ["s1"%string]
    = inr [(Value (Str "M"), 1); (NaN 0, 1)] /\
  scan_variable "CANCER_clinicalMatrix" repeated_sample four_samples 0 [] "sex"
    = inr [("sex", "CANCER")%string] /\
  scan_variable "CANCER_clinicalMatrix" balanced_and_repeated four_samples 1 [] "sex"
    = inr [].
Proof.
  split; [| split; [| split]; reflexivity].
  destruct (@missing_value_is_counted grade_missing_twice "grade"%string
              four_samples 0%Z "CANCER_clinicalMatrix"%string []
              [Some (Str "s1"); Some (int 1)] [Some (Str "s1"); None]
              "s1"%string)
    as [ids [counter [object [n H]]]];
    try reflexivity; try (simpl; tauto); try discriminate.
  cbv zeta in H.
  destruct H as [Hfind [Hcount [_ [_ [Hkey [_ [_ [_ [Hnumeric _]]]]]]]]].
  destruct (Hnumeric eq_refl) as [-> Hlen].
  exists ids, counter, object.
  split; [exact Hfind |]. split; [exact Hcount |]. split; [exact Hkey |].
  rewrite Hlen. vm_compute in Hfind. injection Hfind as <-. reflexivity.
Defined.

(** ** Task materialization *)

Lemma combine_map {A B C : Type} (f : A -> B) (g : A -> C) (l : list A) :
  combine (map f l) (map g l) = map (fun a => (f a, g a)) l.
Proof. induction l as [| a l IH]; simpl; [reflexivity | now rewrite IH]. Qed.

Lemma mapM_map {A B C : Type} (f : B -> result C) (g : A -> B) (h : A -> C)
  (l : list A) :
  (forall a, In a l -> f (g a) = inr (h a)) ->
  mapM f (map g l) = inr (map h l).
Proof.
  induction l as [| a l IH]; simpl; intros H; [reflexivity |].
  rewrite (H a (or_introl eq_refl)). simpl.
  rewrite IH; [reflexivity |]. intros b Hb. apply H. now right.
Qed.

Lemma is_retained_inv (matrix : DataFrame) (task_variable : string)
  (all_sample_ids : list string) (r : list cell) :
  is_retained matrix task_variable all_sample_ids r = true <->
  exists (x : string) v,
    at_column matrix "sampleID" r = Some x /\
    In x all_sample_ids /\
    at_column matrix task_variable r = Some v.
Proof.
  unfold is_retained, present, cell_in. rewrite andb_true_iff.
  destruct (at_column matrix task_variable r) as [v |];
    destruct (at_column matrix "sampleID" r) as [[b | n | x] |];
    (split; [intros [H1 H2] | intros [x' [v' [H1 [H2 H3]]]]]);
    try discriminate.
  - apply str_in_iff in H2. now exists x, v.
  - injection H1 as <-. split; [reflexivity | now apply str_in_iff].
Qed.

Lemma filter_elements_ok (matrix : DataFrame) (task_variable : string)
  (all_sample_ids : list string) :
  has_column matrix "sampleID" = true ->
  has_column matrix task_variable = true ->
  filter_elements matrix task_variable all_sample_ids =
  inr (map (at_column matrix "sampleID")
           (retained_rows matrix task_variable all_sample_ids),
       cat_codes (retained_values matrix task_variable all_sample_ids),
       cat_categories (retained_values matrix task_variable all_sample_ids)).
Proof.
  intros Hs Hv. unfold filter_elements.
  rewrite (getitem_has_column _ _ Hs), (getitem_has_column _ _ Hv). simpl.
  now rewrite notnull_map, isin_map, mask_and_map, !select_map.
Qed.

Lemma filter_elements_absent (matrix : DataFrame) (task_variable : string)
  (all_sample_ids : list string) :
  has_column matrix "sampleID" = false \/ has_column matrix task_variable = false ->
  filter_elements matrix task_variable all_sample_ids = inl KeyError.
Proof.
  unfold filter_elements. intros [H | H].
  - now rewrite (getitem_no_column _ _ H).
  - rewrite (getitem_no_column _ _ H).
    destruct (getitem matrix "sampleID") as [e |] eqn:E; [| reflexivity].
    unfold getitem, ret, raise in E.
    destruct (find_index "sampleID" (columns matrix)); simpl; congruence.
Qed.

Lemma retained_indices (matrix : DataFrame) (task_variable : string)
  (all_sample_ids : list string) :
  mapM (index all_sample_ids)
       (map (at_column matrix "sampleID")
            (retained_rows matrix task_variable all_sample_ids)) =
  inr (map (row_position matrix all_sample_ids)
           (retained_rows matrix task_variable all_sample_ids)).
Proof.
  apply mapM_map. intros r Hr. apply filter_In in Hr. destruct Hr as [_ Hr].
  apply is_retained_inv in Hr. destruct Hr as [x [v [Hx [Hin _]]]].
  unfold index, row_position. rewrite Hx.
  destruct (find_index_In _ _ Hin) as [i ->]. reflexivity.
Qed.

Lemma row_position_lt (matrix : DataFrame) (task_variable : string)
  (all_sample_ids : list string) (r : list cell) :
  In r (retained_rows matrix task_variable all_sample_ids) ->
  row_position matrix all_sample_ids r < List.length all_sample_ids.
Proof.
  intros Hr. apply filter_In in Hr. destruct Hr as [_ Hr].
  apply is_retained_inv in Hr. destruct Hr as [x [v [Hx [Hin _]]]].
  unfold row_position. rewrite Hx.
  destruct (find_index_In _ _ Hin) as [i Hi]. rewrite Hi.
  now apply find_index_lt in Hi.
Qed.

(** Lines 154-155 on the retained lines: the sorted pairs, unless there is
    no line at all. *)
Lemma sort_indices_ok (matrix : DataFrame) (task_variable : string)
  (all_sample_ids : list string) :
  sort_indices all_sample_ids
    (map (at_column matrix "sampleID")
         (retained_rows matrix task_variable all_sample_ids))
    (cat_codes (retained_values matrix task_variable all_sample_ids)) =
  unzip (sorted (retained_pairs matrix task_variable all_sample_ids)).
Proof.
  unfold sort_indices. rewrite retained_indices. simpl.
  unfold cat_codes, retained_values at 2, retained_pairs, row_label.
  now rewrite map_map, combine_map.
Qed.

Lemma sorted_perm (l : list (nat * Z)) : Permutation l (sorted l).
Proof. apply PairSort.Permuted_sort. Qed.

Lemma sorted_nil_iff (l : list (nat * Z)) : sorted l = [] <-> l = [].
Proof.
  split; intros H.
  - apply Permutation_nil. rewrite <- H. symmetry. apply sorted_perm.
  - subst. reflexivity.
Qed.

Lemma unzip_ok (pairs : list (nat * Z)) :
  pairs <> [] -> unzip pairs = inr (map fst pairs, map snd pairs).
Proof. destruct pairs; [congruence | reflexivity]. Qed.

Lemma pair_leb_fst (p q : nat * Z) : pair_leb p q = true -> fst p <= fst q.
Proof.
  unfold pair_leb. destruct (Nat.eqb_spec (fst p) (fst q)) as [E | N].
  - lia.
  - rewrite Nat.ltb_lt. lia.
Qed.

Lemma Sorted_map {A B : Type} (R : A -> A -> Prop) (R' : B -> B -> Prop)
  (f : A -> B) (l : list A) :
  (forall a b, R a b -> R' (f a) (f b)) ->
  Sorted R l -> Sorted R' (map f l).
Proof.
  intros HR. induction 1 as [| a l Hl IH Hhd]; simpl; constructor; auto.
  destruct Hhd; simpl; constructor; auto.
Qed.

(** The row positions come out of [sorted] in non-decreasing order. *)
Lemma sorted_positions (l : list (nat * Z)) : Sorted le (map fst (sorted l)).
Proof.
  apply Sorted_map with (R := fun p q => is_true (pair_leb p q)).
  - intros p q H. now apply pair_leb_fst.
  - apply PairSort.Sorted_sort.
Qed.

(** ** The order of the values *)

Lemma bool_compare_eq (a b : bool) : bool_compare a b = Eq <-> a = b.
Proof. destruct a, b; simpl; split; congruence. Qed.

Lemma number_compare_eq (a b : number) : number_compare a b = Eq <-> a = b.
Proof.
  destruct a as [| p |], b as [| q |]; simpl; try (split; congruence).
  split.
  - intros H. f_equal. now apply Qceq_alt.
  - intros [= ->]. now apply Qceq_alt.
Qed.

Lemma scalar_compare_eq (a b : scalar) : scalar_compare a b = Eq <-> a = b.
Proof.
  destruct a, b; simpl; try (split; congruence).
  - rewrite bool_compare_eq. split; congruence.
  - rewrite number_compare_eq. split; congruence.
  - rewrite string_compare_eq. split; congruence.
Qed.

Lemma number_lt_trans (a b c : number) :
  number_compare a b = Lt -> number_compare b c = Lt -> number_compare a c = Lt.
Proof.
  destruct a as [| p |], b as [| q |], c as [| r |]; simpl; intros H1 H2;
    try discriminate; try reflexivity.
  apply Qclt_alt in H1, H2. apply Qclt_alt. exact (Qclt_trans _ _ _ H1 H2).
Qed.

Lemma scalar_lt_trans (a b c : scalar) :
  scalar_lt a b -> scalar_lt b c -> scalar_lt a c.
Proof.
  unfold scalar_lt.
  destruct a as [x | x | x], b as [y | y | y], c as [z | z | z]; simpl;
    intros H1 H2; try discriminate; try reflexivity.
  - destruct x, y, z; simpl in *; congruence.
  - exact (number_lt_trans _ _ _ H1 H2).
  - exact (string_lt_trans H1 H2).
Qed.

Lemma scalar_lt_irrefl (a : scalar) : ~ scalar_lt a a.
Proof.
  unfold scalar_lt. rewrite (proj2 (scalar_compare_eq a a) eq_refl). discriminate.
Qed.

Lemma scalar_leb_lt_or_eq (a b : scalar) :
  scalar_leb a b = true <-> a = b \/ scalar_lt a b.
Proof.
  unfold scalar_leb, scalar_lt.
  destruct (scalar_compare a b) eqn:E; split; try reflexivity;
    try discriminate.
  - intros _. left. now apply scalar_compare_eq.
  - intros _. now right.
  - intros [H | H]; [| discriminate].
    apply scalar_compare_eq in H. congruence.
Qed.

Lemma scalar_leb_trans (a b c : scalar) :
  scalar_leb a b = true -> scalar_leb b c = true -> scalar_leb a c = true.
Proof.
  rewrite !scalar_leb_lt_or_eq. intros [-> | Hab] [-> | Hbc]; auto.
  right. exact (scalar_lt_trans Hab Hbc).
Qed.

Lemma scalar_leb_antisym (a b : scalar) :
  scalar_leb a b = true -> scalar_leb b a = true -> a = b.
Proof.
  rewrite !scalar_leb_lt_or_eq. intros [E | L] [E' | L']; auto.
  exfalso. exact (scalar_lt_irrefl (scalar_lt_trans L L')).
Qed.

Lemma scalar_leb_refl (a : scalar) : scalar_leb a a = true.
Proof. apply scalar_leb_lt_or_eq. now left. Qed.

(** ** The categorical encoding *)

Lemma position_nth (x : scalar) (l : list scalar) (i : nat) :
  position x l = Some i -> nth_error l i = Some x.
Proof.
  revert i. induction l as [| y l IH]; intros i; simpl; [discriminate |].
  destruct (scalar_eq_dec x y) as [-> | N].
  - intros [= <-]. reflexivity.
  - destruct (position x l) as [j |]; simpl; [| discriminate].
    intros [= <-]. simpl. now apply IH.
Qed.

Lemma position_lt (x : scalar) (l : list scalar) (i : nat) :
  position x l = Some i -> i < List.length l.
Proof.
  intros H. apply position_nth in H.
  apply nth_error_Some. congruence.
Qed.

Lemma position_In (x : scalar) (l : list scalar) :
  In x l -> exists i, position x l = Some i.
Proof.
  induction l as [| y l IH]; simpl; [contradiction |].
  intros H. destruct (scalar_eq_dec x y) as [-> | N]; [now exists 0 |].
  destruct H as [-> | H]; [contradiction |].
  destruct (IH H) as [i ->]. now exists (S i).
Qed.

Lemma position_NoDup (x : scalar) (l : list scalar) (i : nat) :
  NoDup l -> nth_error l i = Some x -> position x l = Some i.
Proof.
  intros Hnd Hi.
  destruct (position_In x l (nth_error_In _ _ Hi)) as [j Hj].
  pose proof (position_nth _ _ Hj) as Hj'.
  assert (i = j).
  { apply (proj1 (NoDup_nth_error l) Hnd).
    - apply nth_error_Some. congruence.
    - congruence. }
  now subst.
Qed.

Lemma cat_categories_In (x : scalar) (s : list cell) :
  In x (cat_categories s) <-> In (Some x) s.
Proof.
  unfold cat_categories.
  transitivity (In x (nodup scalar_eq_dec (dropna s))).
  - split; apply Permutation_in; [symmetry |]; apply ScalarSort.Permuted_sort.
  - now rewrite nodup_In, dropna_In.
Qed.

Lemma cat_categories_NoDup (s : list cell) : NoDup (cat_categories s).
Proof.
  unfold cat_categories.
  apply (Permutation_NoDup (ScalarSort.Permuted_sort _)), NoDup_nodup.
Qed.

(** The categories are strictly increasing: sorted, and distinct. *)
Lemma cat_categories_sorted (s : list cell) :
  StronglySorted scalar_lt (cat_categories s).
Proof.
  pose proof (cat_categories_NoDup s) as Hnd.
  assert (Hs : StronglySorted (fun a b => is_true (scalar_leb a b))
                              (cat_categories s)).
  { apply ScalarSort.StronglySorted_sort. intros a b c. apply scalar_leb_trans. }
  induction Hs as [| a l Hl IH Hall]; constructor.
  - apply IH. now inversion Hnd.
  - inversion Hnd as [| ? ? Hnotin _]; subst.
    rewrite Forall_forall in *. intros b Hb.
    destruct (proj1 (scalar_leb_lt_or_eq a b) (Hall b Hb)) as [-> | L];
      [contradiction | exact L].
Qed.

(** The code of a value that occurs is its position among the categories. *)
Lemma cat_code_ok (x : scalar) (s : list cell) :
  In (Some x) s ->
  exists i, cat_code (cat_categories s) (Some x) = Z.of_nat i /\
            nth_error (cat_categories s) i = Some x /\
            i < List.length (cat_categories s).
Proof.
  intros H. apply cat_categories_In, position_In in H. destruct H as [i Hi].
  exists i. unfold cat_code. rewrite Hi.
  split; [reflexivity |]. split; [now apply position_nth | now apply position_lt in Hi].
Qed.

Lemma row_label_ok (matrix : DataFrame) (task_variable : string)
  (all_sample_ids : list string) (r : list cell) :
  In r (retained_rows matrix task_variable all_sample_ids) ->
  exists x i,
    at_column matrix task_variable r = Some x /\
    row_label matrix task_variable all_sample_ids r = Z.of_nat i /\
    nth_error (cat_categories (retained_values matrix task_variable all_sample_ids)) i
      = Some x /\
    i < List.length (cat_categories (retained_values matrix task_variable all_sample_ids)).
Proof.
  intros Hr. pose proof Hr as Hr'. apply filter_In in Hr'. destruct Hr' as [_ Hret].
  apply is_retained_inv in Hret. destruct Hret as [y [x [_ [_ Hx]]]].
  assert (Hin : In (Some x) (retained_values matrix task_variable all_sample_ids)).
  { unfold retained_values. rewrite <- Hx. now apply in_map. }
  destruct (cat_code_ok _ _ Hin) as [i [Hc [Hn Hlt]]].
  exists x, i. unfold row_label. rewrite Hx. auto.
Qed.

(** ** Reading rows of the expression matrix *)

Lemma mapM_Forall2 {A B : Type} (f : A -> result B) (l : list A) (ys : list B) :
  mapM f l = inr ys <-> Forall2 (fun a b => f a = inr b) l ys.
Proof.
  revert ys. induction l as [| a l IH]; intros ys; simpl.
  - split.
    + intros [= <-]. constructor.
    + intros H. inversion H. reflexivity.
  - split.
    + destruct (f a) as [e | b] eqn:Ea; simpl; [discriminate |].
      destruct (mapM f l) as [e | bs] eqn:El; simpl; [discriminate |].
      intros [= <-]. constructor; [exact Ea | now apply IH].
    + intros H. inversion H as [| ? b ? bs Ea Hl]; subst.
      rewrite Ea. simpl. apply IH in Hl. rewrite Hl. reflexivity.
Qed.

Section Rows.

Variable V : Type.

Lemma take_rows_Forall2 (data : ExpressionMatrix V) (indices : list nat)
  (m : ExpressionMatrix V) :
  take_rows data indices = inr m <->
  Forall2 (fun i row => nth_error data i = Some row) indices m.
Proof.
  unfold take_rows. split; intros H.
  - apply mapM_Forall2 in H.
    induction H as [| i row idx rows' Hi Hl IH]; constructor; [| exact IH].
    destruct (nth_error data i); [now injection Hi as -> | discriminate].
  - apply mapM_Forall2.
    induction H as [| i row idx rows' Hi Hl IH]; constructor; [| exact IH].
    now rewrite Hi.
Qed.

Lemma take_rows_length (data : ExpressionMatrix V) (indices : list nat)
  (m : ExpressionMatrix V) :
  take_rows data indices = inr m -> List.length m = List.length indices.
Proof.
  intros H. apply take_rows_Forall2 in H. symmetry.
  exact (Forall2_length H).
Qed.

Lemma take_rows_in_range (data : ExpressionMatrix V) (indices : list nat) :
  Forall (fun i => i < List.length data) indices ->
  exists m, take_rows data indices = inr m.
Proof.
  induction 1 as [| i idx Hi Hl [m IH]].
  - now exists [].
  - destruct (nth_error data i) as [row |] eqn:E.
    + exists (row :: m). apply take_rows_Forall2. constructor; [exact E |].
      now apply take_rows_Forall2.
    + apply nth_error_None in E. lia.
Qed.

End Rows.

Section Materialization.

Variable V : Type.
Variable h5_rows : ExpressionMatrix V -> list nat -> result (ExpressionMatrix V).

(** [TCGATask.__init__] once the identifier lists and the clinical table
    are read. *)
Lemma TCGATask_init_eq (task_variable cancer : string) (data_dir : DataDir V)
  (preloaded : option (Preloaded V)) (all_sample_ids gene_ids : list string)
  (matrix : DataFrame) :
  load_ids data_dir preloaded = inr (all_sample_ids, gene_ids) ->
  read_csv (clinicalMatrices data_dir) (cancer ++ "_clinicalMatrix")%string
    = inr matrix ->
  TCGATask_init h5_rows (task_variable, cancer) data_dir preloaded =
  if has_column matrix "sampleID" && has_column matrix task_variable then
    match retained_rows matrix task_variable all_sample_ids with
    | [] => inl ValueError
    | _ :: _ =>
        let pairs := sorted (retained_pairs matrix task_variable all_sample_ids) in
        samples <- load_samples h5_rows data_dir preloaded (map fst pairs) ;;
        ret {| id := (task_variable, cancer);
               gene_ids := gene_ids;
               _all_sample_ids := all_sample_ids;
               _labels := map snd pairs;
               categories :=
                 cat_categories (retained_values matrix task_variable all_sample_ids);
               num_classes :=
                 List.length
                   (cat_categories (retained_values matrix task_variable all_sample_ids));
               _samples := samples;
               input_size := List.length (hd [] samples) |}
    end
  else inl KeyError.
Proof.
  intros Hids Hread. unfold TCGATask_init. simpl.
  rewrite Hids. simpl. rewrite Hread. simpl.
  destruct (has_column matrix "sampleID") eqn:Hs;
    [destruct (has_column matrix task_variable) eqn:Hv |]; simpl.
  - rewrite (filter_elements_ok _ _ _ Hs Hv). simpl.
    rewrite sort_indices_ok. unfold retained_pairs.
    destruct (retained_rows matrix task_variable all_sample_ids) as [| r rs] eqn:Hret.
    + reflexivity.
    + rewrite unzip_ok; [reflexivity |].
      intros H. apply (proj1 (sorted_nil_iff _)) in H. discriminate.
  - rewrite filter_elements_absent by auto. reflexivity.
  - rewrite filter_elements_absent by auto. reflexivity.
Qed.

(** What is known of a task that has been built. *)
Lemma TCGATask_init_inv (task_variable cancer : string) (data_dir : DataDir V)
  (preloaded : option (Preloaded V)) (task : TCGATask V) :
  TCGATask_init h5_rows (task_variable, cancer) data_dir preloaded = inr task ->
  exists matrix,
    read_csv (clinicalMatrices data_dir) (cancer ++ "_clinicalMatrix")%string
      = inr matrix /\
    load_ids data_dir preloaded = inr (_all_sample_ids task, gene_ids task) /\
    has_column matrix "sampleID" = true /\
    has_column matrix task_variable = true /\
    retained_rows matrix task_variable (_all_sample_ids task) <> [] /\
    load_samples h5_rows data_dir preloaded
      (map fst (sorted (retained_pairs matrix task_variable (_all_sample_ids task))))
      = inr (_samples task) /\
    _labels task =
      map snd (sorted (retained_pairs matrix task_variable (_all_sample_ids task))) /\
    categories task =
      cat_categories (retained_values matrix task_variable (_all_sample_ids task)) /\
    num_classes task = List.length (categories task) /\
    id task = (task_variable, cancer).
Proof.
  intros H.
  destruct (load_ids data_dir preloaded) as [e | [all genes]] eqn:Hids;
    [unfold TCGATask_init in H; simpl in H; rewrite Hids in H; discriminate |].
  destruct (read_csv (clinicalMatrices data_dir) (cancer ++ "_clinicalMatrix")%string)
    as [e | matrix] eqn:Hread;
    [unfold TCGATask_init in H; simpl in H; rewrite Hids in H; simpl in H;
     rewrite Hread in H; discriminate |].
  rewrite (TCGATask_init_eq _ _ _ _ Hids Hread) in H.
  destruct (has_column matrix "sampleID") eqn:Hs; [| discriminate].
  destruct (has_column matrix task_variable) eqn:Hv; [| discriminate].
  simpl in H.
  destruct (retained_rows matrix task_variable all) as [| r rs] eqn:Hret;
    [discriminate |].
  assert (Hne : retained_rows matrix task_variable all <> [])
    by (rewrite Hret; discriminate).
  destruct (load_samples _ _ _ _) as [e | samples] eqn:Hload; [discriminate |].
  simpl in H. injection H as <-.
  cbn [id gene_ids _all_sample_ids _labels categories num_classes _samples].
  exists matrix. repeat split; try reflexivity; assumption.
Qed.

(** What the row-subset read of h5py returns is the rows asked for, in the
    order asked. *)
Hypothesis h5_rows_exact :
  forall dataset indices m,
    h5_rows dataset indices = inr m -> take_rows dataset indices = inr m.

Lemma load_samples_exact (data_dir : DataDir V) (preloaded : option (Preloaded V))
  (indices : list nat) (m : ExpressionMatrix V) :
  load_samples h5_rows data_dir preloaded indices = inr m ->
  exists data,
    store_of data_dir preloaded = Some data /\ take_rows data indices = inr m.
Proof.
  unfold load_samples, store_of.
  destruct preloaded as [[[a g] d] |].
  - intros H. now exists d.
  - destruct (hdf5_file data_dir) as [dataset |]; [| discriminate].
    intros H. exists dataset. split; [reflexivity | now apply h5_rows_exact].
Qed.

(** The shape of every task that has been built. *)
Lemma task_shape (task_variable cancer : string) (data_dir : DataDir V)
  (preloaded : option (Preloaded V)) (task : TCGATask V) :
  TCGATask_init h5_rows (task_variable, cancer) data_dir preloaded = inr task ->
  exists matrix data,
    read_csv (clinicalMatrices data_dir) (cancer ++ "_clinicalMatrix")%string
      = inr matrix /\
    store_of data_dir preloaded = Some data /\
    let pairs :=
      sorted (retained_pairs matrix task_variable (_all_sample_ids task)) in
    retained_rows matrix task_variable (_all_sample_ids task) <> [] /\
    Forall2 (fun p row => nth_error data p = Some row)
            (map fst pairs) (_samples task) /\
    _labels task = map snd pairs /\
    categories task =
      cat_categories (retained_values matrix task_variable (_all_sample_ids task)).
Proof.
  intros H. apply TCGATask_init_inv in H.
  destruct H as [matrix [Hread [_ [_ [_ [Hne [Hload [Hlab [Hcat _]]]]]]]]].
  apply load_samples_exact in Hload. destruct Hload as [data [Hstore Htake]].
  exists matrix, data. simpl.
  repeat split; try assumption. now apply take_rows_Forall2.
Qed.

End Materialization.

Lemma combine_fst_snd {A B : Type} (l : list (A * B)) :
  combine (map fst l) (map snd l) = l.
Proof. induction l as [| [a b] l IH]; simpl; [reflexivity | now rewrite IH]. Qed.

Lemma Forall2_map_r {A B : Type} (P : A -> B -> Prop) (f : A -> B) (l : list A) :
  (forall a, In a l -> P a (f a)) -> Forall2 P l (map f l).
Proof.
  induction l as [| a l IH]; simpl; intros H; constructor.
  - apply H. now left.
  - apply IH. intros b Hb. apply H. now right.
Qed.

Lemma retained_rows_In (matrix : DataFrame) (task_variable : string)
  (all_sample_ids : list string) (r : list cell) :
  In r (retained_rows matrix task_variable all_sample_ids) <->
  In r (rows matrix) /\
  exists (x : string) value, at_column matrix "sampleID" r = Some x /\
                  In x all_sample_ids /\
                  at_column matrix task_variable r = Some value.
Proof.
  unfold retained_rows. now rewrite filter_In, is_retained_inv.
Qed.

(** Where a (row position, label code) pair of the retained lines comes
    from. *)
Lemma retained_pairs_In (matrix : DataFrame) (task_variable : string)
  (all_sample_ids : list string) (p : nat) (label : Z) :
  In (p, label) (retained_pairs matrix task_variable all_sample_ids) ->
  exists r (x : string) value i,
    In r (retained_rows matrix task_variable all_sample_ids) /\
    at_column matrix "sampleID" r = Some x /\
    In x all_sample_ids /\
    find_index x all_sample_ids = Some p /\
    at_column matrix task_variable r = Some value /\
    label = Z.of_nat i /\
    nth_error (cat_categories (retained_values matrix task_variable all_sample_ids)) i
      = Some value /\
    i < List.length (cat_categories (retained_values matrix task_variable all_sample_ids)).
Proof.
  unfold retained_pairs. intros H. apply in_map_iff in H.
  destruct H as [r [E Hr]]. injection E as <- <-.
  destruct (row_label_ok _ _ _ _ Hr) as [value [i [Hval [Hlab [Hnth Hlt]]]]].
  pose proof Hr as Hr'. apply retained_rows_In in Hr'.
  destruct Hr' as [_ [x [value' [Hx [Hin _]]]]].
  exists r, x, value, i.
  repeat split; try assumption.
  unfold row_position. rewrite Hx.
  destruct (find_index_In _ _ Hin) as [j Hj]. now rewrite Hj.
Qed.

Lemma sorted_pairs_length (l : list (nat * Z)) :
  List.length (sorted l) = List.length l.
Proof. symmetry. apply Permutation_length, sorted_perm. Qed.

Lemma retained_pairs_length (matrix : DataFrame) (task_variable : string)
  (all_sample_ids : list string) :
  List.length (retained_pairs matrix task_variable all_sample_ids) =
  List.length (retained_rows matrix task_variable all_sample_ids).
Proof. unfold retained_pairs. apply length_map. Qed.

Lemma balanced_task_built :
  TCGATask_init (@take_rows Z) ("sex", "CANCER")%string
                (scenario (inr balanced)) None = inr balanced_task.
Proof. reflexivity. Qed.

Lemma NoDup_map_compat {A B C : Type} (f : A -> B) (g : A -> C) (l : list A) :
  (forall a b, In a l -> In b l -> g a = g b -> f a = f b) ->
  NoDup (map f l) -> NoDup (map g l).
Proof.
  induction l as [| a l IH]; simpl; intros Hfg Hnd; [constructor |].
  inversion Hnd as [| ? ? Hnotin Hnd']; subst. constructor.
  - intros Hin. apply in_map_iff in Hin. destruct Hin as [b [E Hb]].
    apply Hnotin. rewrite (Hfg a b); auto. now apply in_map.
  - apply IH; auto.
Qed.

(** Two retained lines with the same sample id have the same row
    position. *)
Lemma repeated_positions (matrix : DataFrame) (task_variable : string)
  (all_sample_ids : list string) :
  ~ NoDup (map (at_column matrix "sampleID")
               (retained_rows matrix task_variable all_sample_ids)) ->
  ~ NoDup (map (row_position matrix all_sample_ids)
               (retained_rows matrix task_variable all_sample_ids)).
Proof.
  intros Hids Hpos. apply Hids. revert Hpos. apply NoDup_map_compat.
  intros a b _ _ E. unfold row_position. now rewrite E.
Qed.

Lemma sorted_positions_perm (matrix : DataFrame) (task_variable : string)
  (all_sample_ids : list string) :
  Permutation
    (map fst (sorted (retained_pairs matrix task_variable all_sample_ids)))
    (map (row_position matrix all_sample_ids)
         (retained_rows matrix task_variable all_sample_ids)).
Proof.
  transitivity (map fst (retained_pairs matrix task_variable all_sample_ids)).
  - apply Permutation_map. symmetry. apply sorted_perm.
  - unfold retained_pairs. rewrite map_map. simpl. reflexivity.
Qed.

Lemma sorted_positions_in_range (matrix : DataFrame) (task_variable : string)
  (all_sample_ids : list string) (n : nat) :
  List.length all_sample_ids <= n ->
  Forall (fun i => i < n)
         (map fst (sorted (retained_pairs matrix task_variable all_sample_ids))).
Proof.
  intros Hn. apply Forall_forall. intros i Hi.
  apply (Permutation_in _ (sorted_positions_perm _ _ _)) in Hi.
  apply in_map_iff in Hi. destruct Hi as [r [<- Hr]].
  apply row_position_lt in Hr. lia.
Qed.

Lemma increasing_sorted (indices : list nat) :
  increasing indices = true -> StronglySorted lt indices.
Proof.
  intros H. apply Sorted_StronglySorted; [exact Nat.lt_trans |].
  induction indices as [| i rest IH]; [constructor |].
  destruct rest as [| j rest']; [repeat constructor |].
  change (Nat.ltb i j && increasing (j :: rest') = true) in H.
  apply andb_true_iff in H. destruct H as [Hij Hrest].
  constructor; [now apply IH | constructor; now apply Nat.ltb_lt].
Qed.

(** Strictly increasing positions are pairwise distinct. *)
Lemma increasing_NoDup (indices : list nat) :
  increasing indices = true -> NoDup indices.
Proof.
  intros H. apply increasing_sorted in H.
  induction H as [| i rest Hrest IH Hall]; constructor; [| exact IH].
  intros Hin. rewrite Forall_forall in Hall. specialize (Hall i Hin). lia.
Qed.

Section Tasks.

Variable V : Type.
Variable h5_rows : ExpressionMatrix V -> list nat -> result (ExpressionMatrix V).

(** The contract of the row-subset read: what it returns is the rows asked
    for, in the order asked. *)
Hypothesis h5_rows_exact :
  forall dataset indices m,
    h5_rows dataset indices = inr m -> take_rows dataset indices = inr m.

(** C7. For every task that materialization returns, there are as many
    labels as feature rows, as many as the length of the task and as many
    as the rows gathered from the store; the number of classes is the
    number of categories; and every label is an integer with
    0 <= label < num_classes. *)
Theorem task_lengths_and_label_range (task_variable cancer : string)
  (data_dir : DataDir V) (preloaded : option (Preloaded V)) (task : TCGATask V) :
  TCGATask_init h5_rows (task_variable, cancer) data_dir preloaded = inr task ->
  List.length (_labels task) = List.length (_samples task) /\
  len task = List.length (_samples task) /\
  (exists indices_to_load,
     load_samples h5_rows data_dir preloaded indices_to_load
       = inr (_samples task) /\
     List.length indices_to_load = len task) /\
  num_classes task = List.length (categories task) /\
  Forall (fun label => (0 <= label < Z.of_nat (num_classes task))%Z)
         (_labels task).
Proof.
  intros H. apply TCGATask_init_inv in H.
  destruct H as [matrix [_ [_ [_ [_ [_ [Hload [Hlab [Hcat [Hnum _]]]]]]]]]].
  pose proof Hload as Hload'.
  apply (load_samples_exact h5_rows h5_rows_exact) in Hload'.
  destruct Hload' as [data [_ Htake]]. apply take_rows_length in Htake.
  rewrite length_map in Htake.
  split; [rewrite Hlab, length_map; now symmetry |].
  split; [reflexivity |].
  split.
  { eexists. split; [exact Hload |]. unfold len. rewrite length_map. now symmetry. }
  split; [exact Hnum |].
  rewrite Hnum, Hcat, Hlab. apply Forall_forall. intros label Hl.
  apply in_map_iff in Hl. destruct Hl as [[p l] [E Hp]]. simpl in E. subst l.
  apply (Permutation_in _ (Permutation_sym (sorted_perm _))) in Hp.
  apply retained_pairs_In in Hp.
  destruct Hp as [r [x [value [i [_ [_ [_ [_ [_ [-> [_ Hlt]]]]]]]]]]].
  lia.
Qed.

(** C4. The categories of a task are the distinct values observed on the
    retained lines, in strictly increasing order, and the labels are, line
    for line up to the reordering by row position, the zero-based positions
    of the values among the categories.  The order is that of the values:
    strings in lexicographic order, so that with the values M and F, F is
    encoded as 0 and M as 1; numbers by value. *)
Theorem labels_encode_sorted_categories (task_variable cancer : string)
  (data_dir : DataDir V) (preloaded : option (Preloaded V)) (task : TCGATask V)
  (matrix : DataFrame) :
  TCGATask_init h5_rows (task_variable, cancer) data_dir preloaded = inr task ->
  read_csv (clinicalMatrices data_dir) (cancer ++ "_clinicalMatrix")%string
    = inr matrix ->
  let kept := retained_rows matrix task_variable (_all_sample_ids task) in
  StronglySorted scalar_lt (categories task) /\
  (forall x, In x (categories task) <->
             exists r, In r kept /\ at_column matrix task_variable r = Some x) /\
  (exists codes,
     Permutation (_labels task) codes /\
     Forall2 (fun r code =>
                exists x i, at_column matrix task_variable r = Some x /\
                            nth_error (categories task) i = Some x /\
                            code = Z.of_nat i)
             kept codes) /\
  (forall a b : string, scalar_lt (Str a) (Str b) <-> String_as_OT.lt a b) /\
  (forall p q : Qc,
     scalar_lt (Num (Finite p)) (Num (Finite q)) <-> Qclt p q) /\
  cat_categories [M; M; F; F] = [Str "F"; Str "M"] /\
  cat_codes [M; M; F; F] = [1; 1; 0; 0]%Z.
Proof.
  intros H Hread kept. apply TCGATask_init_inv in H.
  destruct H as [matrix' [Hread' [_ [_ [_ [_ [_ [Hlab [Hcat _]]]]]]]]].
  rewrite Hread in Hread'. injection Hread' as <-.
  split; [rewrite Hcat; apply cat_categories_sorted |].
  split.
  { intros x. rewrite Hcat, cat_categories_In. unfold retained_values.
    rewrite in_map_iff. split; intros [r Hr]; exists r; tauto. }
  split.
  { exists (map (row_label matrix task_variable (_all_sample_ids task)) kept).
    split.
    - rewrite Hlab.
      transitivity (map snd (retained_pairs matrix task_variable (_all_sample_ids task))).
      + apply Permutation_map. symmetry. apply sorted_perm.
      + unfold retained_pairs. rewrite map_map. simpl. reflexivity.
    - apply Forall2_map_r. intros r Hr.
      destruct (row_label_ok _ _ _ _ Hr) as [x [i [Hx [Hl [Hn _]]]]].
      exists x, i. rewrite Hcat. auto. }
  split; [intros a b; reflexivity |].
  split; [intros p q; symmetry; apply Qclt_alt |].
  split; reflexivity.
Qed.

(** C5. The feature rows of a task are gathered in the order of the
    expression store: the row positions read are non-decreasing, they are
    the row positions of the retained lines, feature row i is the row of the
    store at the i-th of them, and label i is the label of a retained line
    with that row position. *)
Theorem feature_rows_sorted_by_position (task_variable cancer : string)
  (data_dir : DataDir V) (preloaded : option (Preloaded V)) (task : TCGATask V)
  (matrix : DataFrame) :
  TCGATask_init h5_rows (task_variable, cancer) data_dir preloaded = inr task ->
  read_csv (clinicalMatrices data_dir) (cancer ++ "_clinicalMatrix")%string
    = inr matrix ->
  exists data positions,
    store_of data_dir preloaded = Some data /\
    Sorted le positions /\
    Permutation positions
      (map (row_position matrix (_all_sample_ids task))
           (retained_rows matrix task_variable (_all_sample_ids task))) /\
    Forall2 (fun p row => nth_error data p = Some row)
            positions (_samples task) /\
    List.length positions = List.length (_labels task) /\
    Permutation (combine positions (_labels task))
                (retained_pairs matrix task_variable (_all_sample_ids task)).
Proof.
  intros H Hread.
  destruct (task_shape h5_rows h5_rows_exact _ _ _ _ H)
    as [matrix' [data [Hread' [Hstore [_ [Hrows [Hlab _]]]]]]].
  rewrite Hread in Hread'. injection Hread' as <-.
  exists data,
    (map fst (sorted (retained_pairs matrix task_variable (_all_sample_ids task)))).
  split; [exact Hstore |].
  split; [apply sorted_positions |].
  split.
  { transitivity (map fst (retained_pairs matrix task_variable (_all_sample_ids task))).
    - apply Permutation_map. symmetry. apply sorted_perm.
    - unfold retained_pairs. rewrite map_map. simpl. reflexivity. }
  split; [exact Hrows |].
  split; [now rewrite Hlab, !length_map |].
  rewrite Hlab, combine_fst_snd. symmetry. apply sorted_perm.
Qed.

(** C8. The lines of the clinical table that a task retains are exactly
    those whose sample id is one of the global sample ids and whose value of
    the variable is present; the task has one feature row and one label per
    such line and none besides: every (row position, label) pair of the task
    is that of a retained line, the position being that of its sample id in
    the global list and the label the code of its value. *)
Theorem retained_samples_known_and_present (task_variable cancer : string)
  (data_dir : DataDir V) (preloaded : option (Preloaded V)) (task : TCGATask V)
  (matrix : DataFrame) :
  TCGATask_init h5_rows (task_variable, cancer) data_dir preloaded = inr task ->
  read_csv (clinicalMatrices data_dir) (cancer ++ "_clinicalMatrix")%string
    = inr matrix ->
  let all_sample_ids := _all_sample_ids task in
  let kept := retained_rows matrix task_variable all_sample_ids in
  (forall r,
     In r kept <->
     In r (rows matrix) /\
     exists (x : string) value, at_column matrix "sampleID" r = Some x /\
                     In x all_sample_ids /\
                     at_column matrix task_variable r = Some value) /\
  len task = List.length kept /\
  List.length (_labels task) = List.length kept /\
  exists data positions,
    store_of data_dir preloaded = Some data /\
    Forall2 (fun p row => nth_error data p = Some row)
            positions (_samples task) /\
    List.length positions = List.length (_labels task) /\
    forall p label,
      In (p, label) (combine positions (_labels task)) ->
      exists r (x : string) value,
        In r kept /\
        at_column matrix "sampleID" r = Some x /\
        In x all_sample_ids /\
        nth_error all_sample_ids p = Some x /\
        at_column matrix task_variable r = Some value /\
        nth_error (categories task) (Z.to_nat label) = Some value.
Proof.
  intros H Hread all_sample_ids kept.
  destruct (task_shape h5_rows h5_rows_exact _ _ _ _ H)
    as [matrix' [data [Hread' [Hstore [_ [Hrows [Hlab Hcat]]]]]]].
  rewrite Hread in Hread'. injection Hread' as <-.
  fold all_sample_ids in Hrows, Hlab, Hcat.
  assert (Hlen : List.length (_labels task) = List.length kept).
  { now rewrite Hlab, length_map, sorted_pairs_length, retained_pairs_length. }
  split; [intros r; apply retained_rows_In |].
  split.
  { unfold len. rewrite <- (Forall2_length Hrows), length_map,
      sorted_pairs_length. apply retained_pairs_length. }
  split; [exact Hlen |].
  exists data,
    (map fst (sorted (retained_pairs matrix task_variable all_sample_ids))).
  split; [exact Hstore |].
  split; [exact Hrows |].
  split; [now rewrite Hlab, !length_map |].
  intros p label Hin. rewrite Hlab, combine_fst_snd in Hin.
  apply (Permutation_in _ (Permutation_sym (sorted_perm _))) in Hin.
  apply retained_pairs_In in Hin.
  destruct Hin as [r [x [value [i [Hr [Hx [Hall [Hidx [Hval [-> [Hnth _]]]]]]]]]]].
  exists r, x, value. rewrite Nat2Z.id, Hcat.
  repeat split; try assumption. now apply find_index_nth.
Qed.

(** C2 as the code has it. With both columns in the table and no line
    retained, [zip] yields nothing, the unpacking of line 155 into two names
    fails, and the constructor raises ValueError in either mode: no task of
    zero rows is returned. *)
Theorem no_retained_row_raises (task_variable cancer : string)
  (data_dir : DataDir V) (preloaded : option (Preloaded V))
  (all_sample_ids gene_ids : list string) (matrix : DataFrame) :
  load_ids data_dir preloaded = inr (all_sample_ids, gene_ids) ->
  read_csv (clinicalMatrices data_dir) (cancer ++ "_clinicalMatrix")%string
    = inr matrix ->
  has_column matrix "sampleID" = true ->
  has_column matrix task_variable = true ->
  retained_rows matrix task_variable all_sample_ids = [] ->
  TCGATask_init h5_rows (task_variable, cancer) data_dir preloaded
    = inl ValueError.
Proof.
  intros Hids Hread Hs Hv Hnone.
  now rewrite (TCGATask_init_eq _ _ _ _ _ Hids Hread), Hs, Hv, Hnone.
Qed.

End Tasks.

Section Modes.

Variable V : Type.
Variable h5_rows : ExpressionMatrix V -> list nat -> result (ExpressionMatrix V).

(** The restriction of h5py on a list of positions: it raises TypeError
    unless they are strictly increasing. *)
Hypothesis h5_rows_increasing :
  forall dataset indices,
    increasing indices = false -> h5_rows dataset indices = inl TypeError.

(** C3 as the code has it. When two retained lines of the clinical table
    have the same sample id, the two modes part: from the preloaded matrix
    the constructor returns a task with one row for each retained line, the
    row of that sample twice; reading from the HDF5 file it raises
    TypeError, the positions asked of h5py not being strictly
    increasing. *)
Theorem repeated_sample_id_splits_the_modes (task_variable cancer : string)
  (data_dir : DataDir V) (all_sample_ids gene_ids : list string)
  (data : ExpressionMatrix V) (matrix : DataFrame) :
  preload data_dir = inr (all_sample_ids, gene_ids, data) ->
  read_csv (clinicalMatrices data_dir) (cancer ++ "_clinicalMatrix")%string
    = inr matrix ->
  has_column matrix "sampleID" = true ->
  has_column matrix task_variable = true ->
  List.length all_sample_ids <= List.length data ->
  ~ NoDup (map (at_column matrix "sampleID")
               (retained_rows matrix task_variable all_sample_ids)) ->
  (exists task,
     TCGATask_init h5_rows (task_variable, cancer) data_dir
                   (Some (all_sample_ids, gene_ids, data)) = inr task /\
     len task =
       List.length (retained_rows matrix task_variable all_sample_ids)) /\
  TCGATask_init h5_rows (task_variable, cancer) data_dir None = inl TypeError.
Proof.
  intros Hpre Hread Hs Hv Hlen Hrepeated. unfold preload in Hpre.
  destruct (hdf5_file data_dir) as [d |] eqn:Hh5; [| discriminate].
  destruct (gene_ids_file data_dir) as [g |] eqn:Hg; [| discriminate].
  destruct (all_sample_ids_file data_dir) as [a |] eqn:Ha; [| discriminate].
  injection Hpre as -> -> ->.
  assert (Hlazy : load_ids data_dir None = inr (all_sample_ids, gene_ids)).
  { unfold load_ids. now rewrite Hg, Ha. }
  assert (Hmem : load_ids data_dir (Some (all_sample_ids, gene_ids, data))
                 = inr (all_sample_ids, gene_ids)) by reflexivity.
  rewrite (TCGATask_init_eq _ _ _ _ _ Hlazy Hread),
          (TCGATask_init_eq _ _ _ _ _ Hmem Hread), Hs, Hv.
  simpl.
  pose proof (@repeated_positions _ _ _ Hrepeated) as Hpositions.
  pose proof (sorted_positions_perm matrix task_variable all_sample_ids) as Hperm.
  pose proof (retained_pairs_length matrix task_variable all_sample_ids) as Hpairs.
  destruct (retained_rows matrix task_variable all_sample_ids) as [| r rs].
  { exfalso. apply Hrepeated. constructor. }
  cbv zeta. unfold load_samples. rewrite Hh5. split.
  - destruct (@take_rows_in_range V data
                (map fst (sorted (retained_pairs matrix task_variable
                                                 all_sample_ids))))
      as [samples Hsamples].
    { now apply sorted_positions_in_range. }
    rewrite Hsamples. simpl. eexists. split; [reflexivity |].
    unfold len. simpl.
    now rewrite (take_rows_length _ _ Hsamples), length_map,
      sorted_pairs_length, Hpairs.
  - rewrite h5_rows_increasing; [reflexivity |].
    apply not_true_iff_false. intros Hincreasing.
    apply increasing_NoDup in Hincreasing.
    exact (Hpositions (Permutation_NoDup Hperm Hincreasing)).
Qed.

End Modes.

(** ** A reader that refuses positions out of order *)

Lemma increasing_rows_exact (V : Type) (dataset : ExpressionMatrix V)
  (indices : list nat) (m : ExpressionMatrix V) :
  increasing_rows dataset indices = inr m -> take_rows dataset indices = inr m.
Proof.
  unfold increasing_rows. destruct (increasing indices); [| discriminate].
  destruct (take_rows dataset indices); [discriminate | auto].
Qed.

Lemma increasing_rows_refuses (V : Type) (dataset : ExpressionMatrix V)
  (indices : list nat) :
  increasing indices = false -> increasing_rows dataset indices = inl TypeError.
Proof. unfold increasing_rows. now intros ->. Qed.

(** ** The properties on the literal scenarios *)

Lemma task_lengths_and_label_range_witness :
  List.length (_labels balanced_task) = List.length (_samples balanced_task) /\
  Forall (fun label => (0 <= label < 2)%Z) [1; 1; 0; 0]%Z.
Proof.
  pose proof (@task_lengths_and_label_range Z (@take_rows Z)
                (fun _ _ _ H => H) "sex"%string "CANCER"%string
                (scenario (inr balanced)) None balanced_task
                balanced_task_built) as [Hlen [_ [_ [_ Hrange]]]].
  split; [exact Hlen | exact Hrange].
Defined.

Lemma grades_task_built :
  TCGATask_init (@take_rows Z) ("grade", "CANCER")%string
                (scenario (inr grades)) None = inr grades_task.
Proof. reflexivity. Qed.

Lemma labels_encode_sorted_categories_witness :
  StronglySorted scalar_lt (categories balanced_task) /\
  StronglySorted scalar_lt [int 9; int 10] /\
  exists codes, Permutation [1; 1; 0; 0]%Z codes.
Proof.
  pose proof (@labels_encode_sorted_categories Z (@take_rows Z)
                "sex"%string "CANCER"%string
                (scenario (inr balanced)) None balanced_task balanced
                balanced_task_built eq_refl) as H.
  pose proof (@labels_encode_sorted_categories Z (@take_rows Z)
                "grade"%string "CANCER"%string
                (scenario (inr grades)) None grades_task grades
                grades_task_built eq_refl) as H'.
  cbv zeta in H, H'. destruct H as [Hsorted [_ [[codes [Hperm _]] _]]].
  destruct H' as [Hsorted' _].
  split; [exact Hsorted |]. split; [exact Hsorted' |].
  exists codes; exact Hperm.
Defined.

(** C4, counterexample. The grades 9, 10, 10, 9 are read as numbers, and
    the categories are 9 and 10 in this order, with the labels 0, 1, 1, 0:
    in lexicographic order the text of 10 comes before the text of 9, and
    the categories are not sorted so. *)
Lemma numbers_are_sorted_by_value :
  TCGATask_init (@take_rows Z) ("grade", "CANCER")%string
                (scenario (inr grades)) None = inr grades_task /\
  categories grades_task = [int 9; int 10] /\
  _labels grades_task = [0; 1; 1; 0]%Z /\
  map text_of_int [9; 10]%Z = ["9"; "10"]%string /\
  String_as_OT.lt "10" "9" /\
  ~ StronglySorted String_as_OT.lt (map text_of_int [9; 10]%Z).
Proof.
  repeat split.
  intros H. inversion H as [| a l _ Hall]; subst.
  inversion Hall as [| b l' Hlt _]; subst.
  vm_compute in Hlt. discriminate.
Qed.

Lemma feature_rows_sorted_by_position_witness :
  exists data positions,
    store_of (scenario (inr balanced)) None = Some data /\
    Sorted le positions /\
    Forall2 (fun p row => nth_error data p = Some row)
            positions (_samples balanced_task).
Proof.
  destruct (@feature_rows_sorted_by_position Z (@take_rows Z)
              (fun _ _ _ H => H) "sex"%string "CANCER"%string
              (scenario (inr balanced)) None balanced_task balanced
              balanced_task_built eq_refl)
    as [data [positions [Hstore [Hsorted [_ [Hrows _]]]]]].
  exists data, positions. auto.
Defined.

Lemma retained_samples_known_and_present_witness :
  len balanced_task = 4 /\
  forall r, In r (retained_rows balanced "sex" four_samples) ->
            exists (x : string) value, at_column balanced "sampleID" r = Some x /\
                            In x four_samples /\
                            at_column balanced "sex" r = Some value.
Proof.
  pose proof (@retained_samples_known_and_present Z (@take_rows Z)
                (fun _ _ _ H => H) "sex"%string "CANCER"%string
                (scenario (inr balanced)) None balanced_task balanced
                balanced_task_built eq_refl) as H.
  cbv zeta in H. destruct H as [Hkept [Hlen _]].
  split; [exact Hlen |].
  intros r Hr. apply Hkept in Hr. tauto.
Defined.

Lemma no_retained_row_raises_witness :
  retained_rows all_missing "sex" four_samples = [] /\
  TCGATask_init (@take_rows Z) ("sex", "CANCER")%string
                (scenario (inr all_missing)) (Some scenario_preloaded)
    = inl ValueError /\
  TCGATask_init increasing_rows ("sex", "CANCER")%string
                (scenario (inr all_missing)) None
    = inl ValueError.
Proof.
  split; [reflexivity |].
  split.
  - exact (@no_retained_row_raises Z (@take_rows Z) "sex"%string
             "CANCER"%string (scenario (inr all_missing))
             (Some scenario_preloaded) four_samples ["g1"; "g2"]%string
             all_missing eq_refl eq_refl eq_refl eq_refl eq_refl).
  - exact (@no_retained_row_raises Z increasing_rows "sex"%string
             "CANCER"%string (scenario (inr all_missing)) None
             four_samples ["g1"; "g2"]%string
             all_missing eq_refl eq_refl eq_refl eq_refl eq_refl).
Defined.

Lemma repeated_sample_id_splits_the_modes_witness :
  TCGATask_init increasing_rows ("sex", "CANCER")%string
                (scenario (inr sampled_twice)) (Some scenario_preloaded)
    = inr sampled_twice_task /\
  TCGATask_init increasing_rows ("sex", "CANCER")%string
                (scenario (inr sampled_twice)) None
    = inl TypeError.
Proof.
  split; [reflexivity |].
  apply (@repeated_sample_id_splits_the_modes Z increasing_rows
           (@increasing_rows_refuses Z) "sex"%string "CANCER"%string
           (scenario (inr sampled_twice)) four_samples ["g1"; "g2"]%string
           [[10; 11]; [20; 21]; [30; 31]; [40; 41]]%Z sampled_twice
           eq_refl eq_refl eq_refl eq_refl).
  - simpl. lia.
  - assert (E : map (at_column sampled_twice "sampleID")
                    (retained_rows sampled_twice "sex" four_samples) =
                [Some (Str "s1"); Some (Str "s2"); Some (Str "s1")])
      by reflexivity.
    rewrite E. intros H. inversion H as [| a l Hnotin _]; subst.
    apply Hnotin. right. now left.
Defined.

(** * Further properties of discovery *)

Lemma passes_threshold (lower higher : Z) (counts : list (key * nat)) :
  (lower <= higher)%Z -> passes higher counts = true -> passes lower counts = true.
Proof.
  unfold passes. intros Hle H. apply andb_true_iff in H. destruct H as [Hall ->].
  rewrite andb_true_r. rewrite forallb_forall in *. intros n Hn.
  specialize (Hall n Hn). apply Z.ltb_lt in Hall. apply Z.ltb_lt. lia.
Qed.

Lemma filter_length_le {A : Type} (p q : A -> bool) (l : list A) :
  (forall a, p a = true -> q a = true) ->
  List.length (filter p l) <= List.length (filter q l).
Proof.
  intros Hpq. induction l as [| a l IH]; simpl; [lia |].
  destruct (p a) eqn:Hp.
  - rewrite (Hpq a Hp). simpl. lia.
  - destruct (q a); simpl; lia.
Qed.

Lemma catalog_of_threshold (tables : list (string * DataFrame))
  (all_sample_ids : list string) (lower higher : Z) (task_variables : list string) :
  (lower <= higher)%Z ->
  incl (catalog_of tables all_sample_ids higher task_variables)
       (catalog_of tables all_sample_ids lower task_variables) /\
  List.length (catalog_of tables all_sample_ids higher task_variables) <=
  List.length (catalog_of tables all_sample_ids lower task_variables).
Proof.
  intros Hle. unfold catalog_of. split.
  - intros tid Hin. apply in_flat_map in Hin. destruct Hin as [t [Ht Hin]].
    apply in_flat_map. exists t. split; [exact Ht |].
    unfold table_tasks in *. apply in_map_iff in Hin. destruct Hin as [v [E Hv]].
    apply in_map_iff. exists v. split; [exact E |].
    apply filter_In in Hv. apply filter_In. destruct Hv as [Hv Hp].
    split; [exact Hv | exact (passes_threshold _ Hle Hp)].
  - induction tables as [| t tables IH]; simpl; [lia |].
    rewrite !length_app. unfold table_tasks at 1 3. rewrite !length_map.
    pose proof (filter_length_le
      (fun v => passes higher (Counter (counted_keys (snd t) v all_sample_ids)))
      (fun v => passes lower (Counter (counted_keys (snd t) v all_sample_ids)))
      task_variables (fun v => @passes_threshold lower higher _ Hle)).
    lia.
Qed.

(** X1. Raising [min_samples_per_class] never adds a task: discovery with a
    higher threshold succeeds exactly when it does with a lower one, and its
    catalog is then contained in the other, and no longer. *)
Theorem raising_threshold_removes_tasks (V : Type) (data_dir : DataDir V)
  (lower higher : Z) (task_variables_file : option (list string))
  (catalog : list TaskId) :
  (lower <= higher)%Z ->
  get_TCGA_task_ids data_dir lower task_variables_file = inr catalog ->
  exists smaller,
    get_TCGA_task_ids data_dir higher task_variables_file = inr smaller /\
    incl smaller catalog /\
    List.length smaller <= List.length catalog.
Proof.
  intros Hle. rewrite !get_TCGA_task_ids_eq.
  destruct (all_sample_ids_file data_dir) as [all |]; [| discriminate].
  destruct task_variables_file as [vars |]; [| discriminate].
  destruct (clinicalMatrices_dir data_dir) as [e | files]; [discriminate |].
  simpl.
  destruct (read_tables _ _) as [e | tables]; simpl; [discriminate |].
  intros [= <-]. eexists. split; [reflexivity |].
  now apply catalog_of_threshold.
Qed.

Lemma raising_threshold_removes_tasks_witness :
  exists smaller,
    get_TCGA_task_ids (scenario (inr balanced)) 2 (Some ["sex"%string])
      = inr smaller /\
    incl smaller [("sex", "CANCER")%string] /\
    List.length smaller <= 1.
Proof.
  apply (@raising_threshold_removes_tasks Z (scenario (inr balanced)) 1 2
           (Some ["sex"%string]) [("sex", "CANCER")%string]);
    [lia | reflexivity].
Defined.

Lemma str_in_same (all all' : list string) (x : string) :
  (forall y, In y all <-> In y all') -> str_in x all = str_in x all'.
Proof.
  intros H. apply eq_true_iff_eq. now rewrite !str_in_iff.
Qed.

Lemma counted_values_same (matrix : DataFrame) (task_variable : string)
  (all all' : list string) :
  (forall y, In y all <-> In y all') ->
  counted_values matrix task_variable all = counted_values matrix task_variable all'.
Proof.
  intros H. unfold counted_values. f_equal. apply filter_ext. intros r.
  unfold counted_line.
  destruct (at_column matrix "sampleID" r) as [[b | n | x] |]; try reflexivity.
  unfold in_task_samples. now rewrite (@str_in_same all all' x H).
Qed.

(** X2. Discovery uses the global sample ids as a set, and nothing of the
    data directory but the sample ids and the clinical tables: two
    directories with the same tables and sample-id lists with the same
    members, in any order and with any repetitions, give the same
    outcome. *)
Theorem discovery_uses_sample_ids_as_a_set (V : Type) (d d' : DataDir V)
  (min_samples_per_class : Z) (task_variables_file : option (list string))
  (all all' : list string) :
  clinicalMatrices_dir d = clinicalMatrices_dir d' ->
  all_sample_ids_file d = Some all ->
  all_sample_ids_file d' = Some all' ->
  (forall x, In x all <-> In x all') ->
  get_TCGA_task_ids d min_samples_per_class task_variables_file =
  get_TCGA_task_ids d' min_samples_per_class task_variables_file.
Proof.
  intros Hdir Hall Hall' Hsame.
  assert (Hfiles : clinicalMatrices d = clinicalMatrices d').
  { unfold clinicalMatrices. now rewrite Hdir. }
  rewrite !get_TCGA_task_ids_eq, Hall, Hall', Hdir, Hfiles.
  destruct task_variables_file as [vars |]; [| reflexivity].
  destruct (clinicalMatrices_dir d') as [e | files]; [reflexivity |]. simpl.
  destruct (read_tables _ _) as [e | tables]; simpl; [reflexivity |].
  unfold ret. f_equal. unfold catalog_of. apply flat_map_ext. intros t.
  unfold table_tasks. f_equal. apply filter_ext. intros v.
  unfold counted_keys.
  now rewrite (@counted_values_same (snd t) v all all' Hsame).
Qed.

Lemma discovery_uses_sample_ids_as_a_set_witness :
  get_TCGA_task_ids (scenario (inr balanced)) 1 (Some ["sex"%string]) =
  get_TCGA_task_ids scenario_reordered 1 (Some ["sex"%string]).
Proof.
  apply (@discovery_uses_sample_ids_as_a_set Z (scenario (inr balanced))
           scenario_reordered 1 (Some ["sex"%string]) four_samples
           ["s4"; "s3"; "s2"; "s1"; "s4"]%string);
    try reflexivity.
  intros x. simpl. intuition.
Defined.

Lemma filter_shorter {A : Type} (p : A -> bool) (l : list A) :
  List.length (filter p l) <= List.length l.
Proof.
  induction l as [| a l IH]; simpl; [lia |]. destruct (p a); simpl; lia.
Qed.

Lemma list_sum_bound (m : nat) (l : list nat) :
  (forall n, In n l -> m <= n) -> m * List.length l <= list_sum l.
Proof.
  induction l as [| a l IH]; simpl; intros H; [lia |].
  specialize (IH (fun n Hn => H n (or_intror Hn))).
  pose proof (H a (or_introl eq_refl)). rewrite Nat.mul_succ_r. lia.
Qed.

(** Every count of a Counter is positive. *)
Lemma Counter_positive (s : list key) (n : nat) :
  In n (map snd (Counter s)) -> 1 <= n.
Proof.
  intros H. apply in_map_iff in H. destruct H as [[k n'] [E Hk]].
  simpl in E. subst n'. apply Counter_In in Hk. destruct Hk as [Hk ->].
  apply (count_occ_In key_eq_dec) in Hk. lia.
Qed.

(** X3. A pair is only accepted on a table with enough counted lines: at
    least two, and at least twice [min_samples_per_class + 1]. *)
Theorem accepted_task_size (filename : string) (matrix : DataFrame)
  (all_sample_ids : list string) (min_samples_per_class : Z)
  (task_ids : list TaskId) (task_variable : string) :
  scan_variable filename matrix all_sample_ids min_samples_per_class
                task_ids task_variable
    = inr (task_ids ++ [(task_variable, split_head filename)])%list ->
  (2 * Z.max 1 (min_samples_per_class + 1) <=
   Z.of_nat (List.length (counted_values matrix task_variable all_sample_ids)))%Z /\
  List.length (counted_values matrix task_variable all_sample_ids)
    <= List.length (rows matrix).
Proof.
  rewrite scan_variable_step. intros H.
  destruct (passes _ _) eqn:Hp.
  2:{ injection H as H. apply (f_equal (@List.length TaskId)) in H.
      rewrite length_app in H. simpl in H. lia. }
  clear H. unfold passes in Hp. apply andb_true_iff in Hp.
  destruct Hp as [Hall Hlen].
  rewrite forallb_forall in Hall. apply Nat.ltb_lt in Hlen.
  split.
  - pose proof (@list_sum_bound
                  (Z.to_nat (Z.max 1 (min_samples_per_class + 1)))
                  (map snd (Counter (counted_keys matrix task_variable
                                                  all_sample_ids))))
      as Hbound.
    rewrite Counter_total, length_map in Hbound.
    assert (Hkeys : List.length (counted_keys matrix task_variable all_sample_ids)
                    = List.length (counted_values matrix task_variable
                                                  all_sample_ids))
      by apply iter_length.
    rewrite Hkeys in Hbound.
    assert (Hcounts : forall n,
              In n (map snd (Counter (counted_keys matrix task_variable
                                                   all_sample_ids))) ->
              Z.to_nat (Z.max 1 (min_samples_per_class + 1)) <= n).
    { intros n Hn. pose proof (Counter_positive _ _ Hn).
      specialize (Hall n Hn). apply Z.ltb_lt in Hall. lia. }
    specialize (Hbound Hcounts).
    assert (2 * Z.to_nat (Z.max 1 (min_samples_per_class + 1)) <=
            List.length (counted_values matrix task_variable all_sample_ids))
      by nia.
    lia.
  - unfold counted_values. rewrite length_map. apply filter_shorter.
Qed.

Lemma accepted_task_size_witness :
  (2 * Z.max 1 (1 + 1) <=
   Z.of_nat (List.length (counted_values balanced "sex" four_samples)))%Z /\
  List.length (counted_values balanced "sex" four_samples)
    <= List.length (rows balanced).
Proof.
  apply (@accepted_task_size "CANCER_clinicalMatrix"%string balanced
           four_samples 1 [] "sex"%string).
  reflexivity.
Defined.

(** ** The cancer type of a file name *)

Lemma split_head_no_underscore (s : string) :
  has_underscore (split_head s) = false.
Proof.
  induction s as [| c s IH]; simpl; [reflexivity |].
  destruct (Ascii.eqb c "_"%char) eqn:E; simpl; [reflexivity |].
  now rewrite E.
Qed.

Lemma split_head_prefix (s : string) : String.prefix (split_head s) s = true.
Proof.
  induction s as [| c s IH]; simpl; [reflexivity |].
  destruct (Ascii.eqb c "_"%char); simpl; [reflexivity |].
  destruct (ascii_dec c c); [exact IH | contradiction].
Qed.

Lemma split_head_append (cancer rest : string) :
  has_underscore cancer = false ->
  split_head (cancer ++ String "_"%char rest) = cancer.
Proof.
  induction cancer as [| c s IH]; simpl; [reflexivity |].
  destruct (Ascii.eqb c "_"%char); simpl; [discriminate |].
  intros H. now rewrite IH.
Qed.

(** X4. The file name that materialization rebuilds from a cancer type,
    [cancer + '_clinicalMatrix'], gives back that cancer type under
    [filename.split('_')[0]] exactly when the cancer type has no
    underscore. *)
Theorem cancer_of_rebuilt_filename (cancer : string) :
  split_head (cancer ++ "_clinicalMatrix") = cancer <->
  has_underscore cancer = false.
Proof.
  split.
  - intros H. rewrite <- H at 1. apply split_head_no_underscore.
  - apply split_head_append.
Qed.

(** X5. Every pair of the catalog has a listed task variable and the cancer
    type of a file of the clinical directory: a string without underscore
    that is a prefix of the name of that file. *)
Theorem catalog_pairs_come_from_files (V : Type) (data_dir : DataDir V)
  (min_samples_per_class : Z) (task_variables : list string)
  (catalog : list TaskId) (task_variable cancer : string) :
  get_TCGA_task_ids data_dir min_samples_per_class (Some task_variables)
    = inr catalog ->
  In (task_variable, cancer) catalog ->
  In task_variable task_variables /\
  has_underscore cancer = false /\
  exists filename,
    In filename (map fst (clinicalMatrices data_dir)) /\
    String.prefix cancer filename = true.
Proof.
  intros Hget Hin. apply get_TCGA_task_ids_inv in Hget.
  destruct Hget as [all [vars [tables [_ [[= <-] [_ [Htables ->]]]]]]].
  unfold catalog_of in Hin. apply in_flat_map in Hin.
  destruct Hin as [[filename matrix] [Ht Hin]].
  apply (read_tables_ok _ _ Htables) in Ht. destruct Ht as [Hf _].
  unfold table_tasks in Hin. simpl in Hin. apply in_map_iff in Hin.
  destruct Hin as [v [E Hv]]. injection E as -> <-.
  apply filter_In in Hv. destruct Hv as [Hv _].
  split; [exact Hv |]. split; [apply split_head_no_underscore |].
  exists filename. split; [exact Hf | apply split_head_prefix].
Qed.

Lemma catalog_pairs_come_from_files_witness :
  In "sex"%string ["sex"; "age"]%string /\
  has_underscore "CANCER" = false /\
  exists filename,
    In filename ["CANCER_clinicalMatrix"%string] /\
    String.prefix "CANCER" filename = true.
Proof.
  apply (@catalog_pairs_come_from_files Z (scenario (inr balanced)) 1
           ["sex"; "age"]%string [("sex", "CANCER")%string]);
    [reflexivity | now left].
Defined.

(** * Further properties of materialization *)

Lemma find_index_first (x : string) (l : list string) (i : nat) :
  find_index x l = Some i -> forall j, j < i -> nth_error l j <> Some x.
Proof.
  revert i. induction l as [| y l IH]; intros i; simpl; [discriminate |].
  destruct (String.eqb_spec x y) as [-> | N].
  - intros [= <-] j Hj. lia.
  - destruct (find_index x l) as [k |] eqn:E; simpl; [| discriminate].
    intros [= <-] j Hj. destruct j as [| j]; simpl.
    + congruence.
    + apply (IH k eq_refl). lia.
Qed.

(** Every category is the value of a retained line, whose label is the
    position of the category. *)
Lemma category_has_line (matrix : DataFrame) (task_variable : string)
  (all_sample_ids : list string) (i : nat) :
  i < List.length (cat_categories (retained_values matrix task_variable all_sample_ids)) ->
  exists r,
    In r (retained_rows matrix task_variable all_sample_ids) /\
    row_label matrix task_variable all_sample_ids r = Z.of_nat i.
Proof.
  intros Hi.
  destruct (nth_error (cat_categories (retained_values matrix task_variable all_sample_ids)) i)
    as [x |] eqn:Hx; [| apply nth_error_None in Hx; lia].
  pose proof (nth_error_In _ _ Hx) as Hin.
  apply cat_categories_In in Hin. unfold retained_values in Hin.
  apply in_map_iff in Hin. destruct Hin as [r [Hr Hkept]].
  exists r. split; [exact Hkept |].
  unfold row_label. rewrite Hr. unfold cat_code.
  now rewrite (@position_NoDup x _ i (cat_categories_NoDup _) Hx).
Qed.

Section MoreTasks.

Variable V : Type.
Variable h5_rows : ExpressionMatrix V -> list nat -> result (ExpressionMatrix V).

(** X6. No class of a task is empty: every code from 0 to
    [num_classes - 1] is the label of some row; so there is at least one
    class and there are no more classes than labels. *)
Theorem every_class_has_a_row (task_variable cancer : string)
  (data_dir : DataDir V) (preloaded : option (Preloaded V)) (task : TCGATask V) :
  TCGATask_init h5_rows (task_variable, cancer) data_dir preloaded = inr task ->
  (forall k, (0 <= k < Z.of_nat (num_classes task))%Z -> In k (_labels task)) /\
  1 <= num_classes task /\
  num_classes task <= List.length (_labels task).
Proof.
  intros H. apply TCGATask_init_inv in H.
  destruct H as [matrix [_ [_ [_ [_ [Hne [_ [Hlab [Hcat [Hnum _]]]]]]]]]].
  assert (Hocc : forall i, i < num_classes task -> In (Z.of_nat i) (_labels task)).
  { intros i Hi. rewrite Hnum, Hcat in Hi.
    destruct (category_has_line _ _ _ Hi) as [r [Hr Hl]].
    rewrite Hlab. apply in_map_iff.
    exists (row_position matrix (_all_sample_ids task) r, Z.of_nat i).
    split; [reflexivity |].
    apply (Permutation_in _ (sorted_perm _)).
    unfold retained_pairs. apply in_map_iff. exists r. now rewrite Hl. }
  split; [| split].
  - intros k Hk. replace k with (Z.of_nat (Z.to_nat k)) by lia.
    apply Hocc. lia.
  - rewrite Hnum, Hcat.
    destruct (retained_rows matrix task_variable (_all_sample_ids task))
      as [| r rs] eqn:Hret; [congruence |].
    assert (Hr : In r (retained_rows matrix task_variable (_all_sample_ids task)))
      by (rewrite Hret; now left).
    destruct (row_label_ok _ _ _ _ Hr) as [x [i [_ [_ [_ Hlt]]]]]. lia.
  - rewrite <- (length_seq (num_classes task) 0) at 1.
    rewrite <- (length_map Z.of_nat (seq 0 (num_classes task))).
    apply NoDup_incl_length.
    + apply Finite.Injective_map_NoDup; [| apply seq_NoDup].
      intros a b. apply Nat2Z.inj.
    + intros k Hk. apply in_map_iff in Hk. destruct Hk as [i [<- Hi]].
      apply in_seq in Hi. apply Hocc. lia.
Qed.

(** X7. A row of the expression store is read only at the first position
    of a sample id in the global list: when the list repeats a sample id,
    the rows at its later positions are never read. *)
Theorem rows_read_at_first_positions (task_variable cancer : string)
  (data_dir : DataDir V) (preloaded : option (Preloaded V)) (task : TCGATask V) :
  TCGATask_init h5_rows (task_variable, cancer) data_dir preloaded = inr task ->
  exists indices_to_load,
    load_samples h5_rows data_dir preloaded indices_to_load
      = inr (_samples task) /\
    forall p, In p indices_to_load ->
      exists x,
        nth_error (_all_sample_ids task) p = Some x /\
        forall q, q < p -> nth_error (_all_sample_ids task) q <> Some x.
Proof.
  intros H. apply TCGATask_init_inv in H.
  destruct H as [matrix [_ [_ [_ [_ [_ [Hload _]]]]]]].
  eexists. split; [exact Hload |].
  intros p Hp. apply in_map_iff in Hp. destruct Hp as [[p' label] [E Hp]].
  simpl in E. subst p'.
  apply (Permutation_in _ (Permutation_sym (sorted_perm _))) in Hp.
  apply retained_pairs_In in Hp.
  destruct Hp as [r [x [value [i [_ [_ [_ [Hidx _]]]]]]]].
  exists x. split; [now apply find_index_nth | now apply find_index_first].
Qed.

End MoreTasks.

Lemma every_class_has_a_row_witness :
  (forall k, (0 <= k < 2)%Z -> In k [1; 1; 0; 0]%Z) /\
  1 <= 2 /\ 2 <= 4.
Proof.
  exact (@every_class_has_a_row Z (@take_rows Z) "sex"%string "CANCER"%string
           (scenario (inr balanced)) None balanced_task balanced_task_built).
Defined.

Lemma rows_read_at_first_positions_witness :
  exists task indices_to_load,
    TCGATask_init (@take_rows Z) ("sex", "CANCER")%string
                  scenario_repeated_ids None = inr task /\
    load_samples (@take_rows Z) scenario_repeated_ids None indices_to_load
      = inr (_samples task) /\
    ~ In 1 indices_to_load.
Proof.
  destruct (TCGATask_init (@take_rows Z) ("sex", "CANCER")%string
                          scenario_repeated_ids None) as [e | task] eqn:Htask;
    [vm_compute in Htask; discriminate |].
  destruct (@rows_read_at_first_positions Z (@take_rows Z) "sex"%string
              "CANCER"%string scenario_repeated_ids None task Htask)
    as [indices [Hload Hfirst]].
  exists task, indices. split; [reflexivity |]. split; [exact Hload |].
  intros H1. destruct (Hfirst 1 H1) as [x [Hx Hq]].
  vm_compute in Htask. injection Htask as <-.
  simpl in Hx, Hq. injection Hx as <-.
  apply (Hq 0); [lia | reflexivity].
Defined.

(** ** The order of the lines of a clinical table *)

Section SortedUnique.

Variable A : Type.
Variable leb : A -> A -> bool.
Hypothesis leb_trans : forall a b c, leb a b = true -> leb b c = true -> leb a c = true.
Hypothesis leb_antisym : forall a b, leb a b = true -> leb b a = true -> a = b.
Hypothesis leb_refl : forall a, leb a a = true.

(** A list has one sorted arrangement only. *)
Lemma sorted_arrangement_unique (l l' : list A) :
  Sorted (fun a b => is_true (leb a b)) l ->
  Sorted (fun a b => is_true (leb a b)) l' ->
  Permutation l l' -> l = l'.
Proof.
  intros Hl Hl'.
  apply Sorted_StronglySorted in Hl; [| intros a b c; apply leb_trans].
  apply Sorted_StronglySorted in Hl'; [| intros a b c; apply leb_trans].
  revert l' Hl'. induction Hl as [| a l Hs IH Ha]; intros l' Hl' Hperm.
  - now apply Permutation_nil in Hperm.
  - destruct Hl' as [| b l' Hs' Hb].
    + apply Permutation_sym, Permutation_nil in Hperm. discriminate.
    + assert (Hab : a = b).
      { rewrite Forall_forall in Ha, Hb.
        assert (Hle : leb b a = true).
        { assert (Hin : In a (b :: l'))
            by (apply (Permutation_in _ Hperm); now left).
          destruct Hin as [<- | Hin]; [apply leb_refl | now apply Hb]. }
        assert (Hge : leb a b = true).
        { assert (Hin : In b (a :: l))
            by (apply (Permutation_in _ (Permutation_sym Hperm)); now left).
          destruct Hin as [<- | Hin]; [apply leb_refl | now apply Ha]. }
        now apply leb_antisym. }
      subst b. f_equal. apply IH; [exact Hs' |].
      now apply Permutation_cons_inv in Hperm.
Qed.

End SortedUnique.

Lemma pair_leb_trans (p q r : nat * Z) :
  pair_leb p q = true -> pair_leb q r = true -> pair_leb p r = true.
Proof.
  unfold pair_leb.
  destruct (Nat.eqb_spec (fst p) (fst q)), (Nat.eqb_spec (fst q) (fst r)),
           (Nat.eqb_spec (fst p) (fst r));
    rewrite ?Z.leb_le, ?Nat.ltb_lt; lia.
Qed.

Lemma pair_leb_antisym (p q : nat * Z) :
  pair_leb p q = true -> pair_leb q p = true -> p = q.
Proof.
  unfold pair_leb. rewrite (Nat.eqb_sym (fst q)).
  destruct (Nat.eqb_spec (fst p) (fst q)); rewrite ?Z.leb_le, ?Nat.ltb_lt.
  - intros. destruct p, q; simpl in *. f_equal; lia.
  - lia.
Qed.

Lemma pair_leb_refl (p : nat * Z) : pair_leb p p = true.
Proof. unfold pair_leb. rewrite Nat.eqb_refl. apply Z.leb_refl. Qed.

(** [sorted] depends on the pairs only, not on their order. *)
Lemma sorted_of_permutation (l l' : list (nat * Z)) :
  Permutation l l' -> sorted l = sorted l'.
Proof.
  intros H.
  apply (@sorted_arrangement_unique (nat * Z) pair_leb pair_leb_trans
           pair_leb_antisym pair_leb_refl).
  - apply PairSort.Sorted_sort.
  - apply PairSort.Sorted_sort.
  - rewrite <- (sorted_perm l), <- (sorted_perm l'). exact H.
Qed.

Lemma dropna_of_permutation (s s' : list cell) :
  Permutation s s' -> Permutation (dropna s) (dropna s').
Proof.
  induction 1 as [| c s s' H IH | c c' s | s s' s'' H IH H' IH'].
  - constructor.
  - destruct c; simpl; [now constructor | exact IH].
  - destruct c, c'; simpl; try reflexivity. apply perm_swap.
  - now transitivity (dropna s').
Qed.

Lemma filter_of_permutation {A : Type} (p : A -> bool) (l l' : list A) :
  Permutation l l' -> Permutation (filter p l) (filter p l').
Proof.
  induction 1 as [| a l l' H IH | a b l | l l' l'' H IH H' IH'].
  - constructor.
  - simpl. destruct (p a); [now constructor | exact IH].
  - simpl. destruct (p a), (p b); try reflexivity. apply perm_swap.
  - now transitivity (filter p l').
Qed.

(** The categories depend on the values only, not on their order. *)
Lemma cat_categories_of_permutation (s s' : list cell) :
  Permutation s s' -> cat_categories s = cat_categories s'.
Proof.
  intros H. unfold cat_categories.
  apply (@sorted_arrangement_unique scalar scalar_leb scalar_leb_trans
           scalar_leb_antisym scalar_leb_refl).
  - apply ScalarSort.Sorted_sort.
  - apply ScalarSort.Sorted_sort.
  - rewrite <- !ScalarSort.Permuted_sort.
    apply NoDup_Permutation; try apply NoDup_nodup.
    intros x. rewrite !nodup_In.
    split; apply Permutation_in;
      [| symmetry]; now apply dropna_of_permutation.
Qed.

Section LineOrder.

Variable V : Type.
Variable h5_rows : ExpressionMatrix V -> list nat -> result (ExpressionMatrix V).

(** X8. A task does not depend on the order of the lines of its clinical
    table: over two data directories with the same identifier lists and
    HDF5 file, whose tables for the cancer type have the same header and
    the same lines in another order, materialization has the same outcome,
    labels, feature rows and categories included. *)
Theorem task_independent_of_line_order (task_variable cancer : string)
  (d d' : DataDir V) (preloaded : option (Preloaded V))
  (matrix : DataFrame) (lines : list (list cell)) :
  gene_ids_file d = gene_ids_file d' ->
  all_sample_ids_file d = all_sample_ids_file d' ->
  hdf5_file d = hdf5_file d' ->
  read_csv (clinicalMatrices d) (cancer ++ "_clinicalMatrix")%string
    = inr matrix ->
  read_csv (clinicalMatrices d') (cancer ++ "_clinicalMatrix")%string
    = inr {| columns := columns matrix; rows := lines |} ->
  Permutation (rows matrix) lines ->
  TCGATask_init h5_rows (task_variable, cancer) d preloaded =
  TCGATask_init h5_rows (task_variable, cancer) d' preloaded.
Proof.
  intros Hg Ha Hh Hread Hread' Hperm.
  set (matrix' := {| columns := columns matrix; rows := lines |}) in *.
  assert (Hids : load_ids d preloaded = load_ids d' preloaded).
  { unfold load_ids. now rewrite Hg, Ha. }
  destruct (load_ids d preloaded) as [e | [all genes]] eqn:Hl.
  { unfold TCGATask_init. simpl. now rewrite <- Hids, Hl. }
  symmetry in Hids.
  rewrite (TCGATask_init_eq _ _ _ _ _ Hl Hread),
          (TCGATask_init_eq _ _ _ _ _ Hids Hread').
  assert (Hkept : Permutation (retained_rows matrix task_variable all)
                              (retained_rows matrix' task_variable all)).
  { unfold retained_rows. simpl. now apply filter_of_permutation. }
  assert (Hcat : cat_categories (retained_values matrix task_variable all) =
                 cat_categories (retained_values matrix' task_variable all)).
  { apply cat_categories_of_permutation. unfold retained_values.
    now apply Permutation_map. }
  assert (Hpairs : sorted (retained_pairs matrix task_variable all) =
                   sorted (retained_pairs matrix' task_variable all)).
  { apply sorted_of_permutation. unfold retained_pairs, row_label.
    rewrite <- Hcat. now apply Permutation_map. }
  assert (Hload : forall indices,
            load_samples h5_rows d preloaded indices =
            load_samples h5_rows d' preloaded indices).
  { intros indices. unfold load_samples. now rewrite Hh. }
  change (has_column matrix' "sampleID") with (has_column matrix "sampleID").
  change (has_column matrix' task_variable) with (has_column matrix task_variable).
  destruct (has_column matrix "sampleID" && has_column matrix task_variable);
    [| reflexivity].
  rewrite <- Hcat, <- Hpairs.
  destruct (retained_rows matrix task_variable all) as [| r rs];
    destruct (retained_rows matrix' task_variable all) as [| r' rs'].
  - reflexivity.
  - apply Permutation_nil in Hkept. discriminate.
  - apply Permutation_sym, Permutation_nil in Hkept. discriminate.
  - cbv zeta. now rewrite Hload.
Qed.

End LineOrder.

Lemma task_independent_of_line_order_witness :
  TCGATask_init increasing_rows ("sex", "CANCER")%string
                (scenario (inr balanced)) None =
  TCGATask_init increasing_rows ("sex", "CANCER")%string
                (scenario (inr balanced_backwards)) None.
Proof.
  apply (@task_independent_of_line_order Z increasing_rows "sex"%string
           "CANCER"%string (scenario (inr balanced))
           (scenario (inr balanced_backwards)) None balanced
           (rev (rows balanced)));
    try reflexivity.
  apply Permutation_rev.
Defined.

(** * Indexing a task *)

Lemma py_getitem_nonnegative {A : Type} (seq : list A) (index : Z) :
  (0 <= index < Z.of_nat (List.length seq))%Z ->
  exists a, nth_error seq (Z.to_nat index) = Some a /\
            py_getitem seq index = inr a.
Proof.
  intros H. unfold py_getitem.
  destruct (index <? 0)%Z eqn:E; [apply Z.ltb_lt in E; lia |].
  replace ((0 <=? index)%Z && (index <? Z.of_nat (List.length seq))%Z) with true
    by (symmetry; apply andb_true_iff; rewrite Z.leb_le, Z.ltb_lt; lia).
  destruct (nth_error seq (Z.to_nat index)) as [a |] eqn:Ha.
  - now exists a.
  - apply nth_error_None in Ha. lia.
Qed.

Lemma py_getitem_negative {A : Type} (seq : list A) (index : Z) :
  (- Z.of_nat (List.length seq) <= index < 0)%Z ->
  py_getitem seq index = py_getitem seq (index + Z.of_nat (List.length seq)).
Proof.
  intros H. unfold py_getitem.
  destruct (index <? 0)%Z eqn:E; [| apply Z.ltb_ge in E; lia].
  destruct (index + Z.of_nat (List.length seq) <? 0)%Z eqn:E';
    [apply Z.ltb_lt in E'; lia | reflexivity].
Qed.


Lemma np_getitem_nonnegative {A : Type} (array : list A) (index : Z) :
  (0 <= index < Z.of_nat (List.length array))%Z ->
  exists a, nth_error array (Z.to_nat index) = Some a /\
            np_getitem array index = inr a.
Proof.
  intros H. destruct (py_getitem_nonnegative array H) as [a [Ha Hget]].
  exists a. split; [exact Ha |]. unfold np_getitem. now rewrite Hget.
Qed.



Lemma Forall2_nth_error_l {A B : Type} (P : A -> B -> Prop) (l : list A)
  (l' : list B) (i : nat) (b : B) :
  Forall2 P l l' -> nth_error l' i = Some b ->
  exists a, nth_error l i = Some a /\ P a b.
Proof.
  intros H. revert i. induction H as [| a b' l l' Hab Hl IH]; intros i.
  - destruct i; discriminate.
  - destruct i as [| i]; simpl.
    + intros [= <-]. now exists a.
    + apply IH.
Qed.

Section Indexing.

Variable V : Type.
Variable h5_rows : ExpressionMatrix V -> list nat -> result (ExpressionMatrix V).
Hypothesis h5_rows_exact :
  forall dataset indices m,
    h5_rows dataset indices = inr m -> take_rows dataset indices = inr m.

Variables S T : Type.
Variable transform : list V -> S.
Variable target_transform : Z -> T.

Lemma task_labels_length (task_variable cancer : string) (data_dir : DataDir V)
  (preloaded : option (Preloaded V)) (task : TCGATask V) :
  TCGATask_init h5_rows (task_variable, cancer) data_dir preloaded = inr task ->
  List.length (_labels task) = len task.
Proof.
  intros H.
  destruct (task_shape h5_rows h5_rows_exact _ _ _ _ H)
    as [matrix [data [_ [_ [_ [Hrows [Hlab _]]]]]]].
  unfold len. rewrite <- (Forall2_length Hrows), Hlab. now rewrite !length_map.
Qed.


(** X10. The item at a non-negative index pairs the expression row of a
    retained sample with the label of that same sample: there is a line of
    the clinical table, retained, whose sample id stands in the global list
    at the position of the row in the store, and whose value is the
    category of the label. *)
Theorem task_item_is_aligned (task_variable cancer : string)
  (data_dir : DataDir V) (preloaded : option (Preloaded V)) (task : TCGATask V)
  (matrix : DataFrame) (index : Z) :
  TCGATask_init h5_rows (task_variable, cancer) data_dir preloaded = inr task ->
  read_csv (clinicalMatrices data_dir) (cancer ++ "_clinicalMatrix")%string
    = inr matrix ->
  (0 <= index < Z.of_nat (len task))%Z ->
  exists row label data p r x value,
    TCGATask_getitem transform target_transform task index
      = inr (transform row, target_transform label) /\
    store_of data_dir preloaded = Some data /\
    nth_error data p = Some row /\
    nth_error (_all_sample_ids task) p = Some x /\
    In r (retained_rows matrix task_variable (_all_sample_ids task)) /\
    at_column matrix "sampleID" r = Some x /\
    at_column matrix task_variable r = Some value /\
    nth_error (categories task) (Z.to_nat label) = Some value.
Proof.
  intros H Hread Hr. pose proof (task_labels_length _ _ _ _ H) as Hlen.
  destruct (task_shape h5_rows h5_rows_exact _ _ _ _ H)
    as [matrix' [data [Hread' [Hstore [_ [Hrows [Hlab Hcat]]]]]]].
  rewrite Hread in Hread'. injection Hread' as <-.
  unfold len in *.
  destruct (np_getitem_nonnegative (_samples task) Hr) as [row [Hrow Hget]].
  destruct (py_getitem_nonnegative (_labels task) (index:=index))
    as [label [Hlabel Hget']]; [rewrite Hlen; exact Hr |].
  destruct (Forall2_nth_error_l _ Hrows Hrow) as [p [Hp Hdata]].
  assert (Hpair : In (p, label)
            (sorted (retained_pairs matrix task_variable (_all_sample_ids task)))).
  { rewrite Hlab in Hlabel. rewrite nth_error_map in Hp, Hlabel.
    destruct (nth_error (sorted _) (Z.to_nat index)) as [[p' l'] |] eqn:E;
      [| discriminate].
    simpl in Hp, Hlabel. injection Hp as ->. injection Hlabel as ->.
    exact (nth_error_In _ _ E). }
  apply (Permutation_in _ (Permutation_sym (sorted_perm _))) in Hpair.
  apply retained_pairs_In in Hpair.
  destruct Hpair as [r [x [value [i [Hkept [Hx [_ [Hidx [Hval [-> [Hnth _]]]]]]]]]]].
  exists row, (Z.of_nat i), data, p, r, x, value.
  unfold TCGATask_getitem. rewrite Hget, Hget'. simpl.
  rewrite Nat2Z.id, Hcat.
  repeat split; try assumption. now apply find_index_nth.
Qed.

End Indexing.


Lemma task_item_is_aligned_witness :
  exists row label data p r x value,
    TCGATask_getitem (fun row => row) (fun label => label) balanced_task 2
      = inr (row, label) /\
    store_of (scenario (inr balanced)) None = Some data /\
    nth_error data p = Some row /\
    nth_error (_all_sample_ids balanced_task) p = Some x /\
    In r (retained_rows balanced "sex" (_all_sample_ids balanced_task)) /\
    at_column balanced "sampleID" r = Some x /\
    at_column balanced "sex" r = Some value /\
    nth_error (categories balanced_task) (Z.to_nat label) = Some value.
Proof.
  apply (@task_item_is_aligned Z (@take_rows Z) (fun _ _ _ H => H)
           (list Z) Z (fun row => row) (fun label => label)
           "sex"%string "CANCER"%string (scenario (inr balanced)) None
           balanced_task balanced 2%Z balanced_task_built eq_refl).
  simpl. lia.
Defined.

(** * The gene symbol map *)

Lemma dict_set_In (k v k' v' : string) (d : list (string * string)) :
  In (k, v) (dict_set k' v' d) -> (k, v) = (k', v') \/ In (k, v) d.
Proof.
  induction d as [| [k0 v0] d IH]; simpl.
  - intros [E | []]. left. congruence.
  - destruct (String.eqb_spec k' k0) as [-> | N]; simpl.
    + intros [E | H]; [left; congruence | right; now right].
    + intros [E | H]; [right; now left |].
      destruct (IH H) as [E | Hd]; [now left | right; now right].
Qed.

Lemma dict_get_In (k v : string) (d : list (string * string)) :
  dict_get k d = Some v -> In (k, v) d.
Proof.
  induction d as [| [k0 v0] d IH]; simpl; [discriminate |].
  destruct (String.eqb_spec k k0) as [-> | N].
  - intros [= ->]. now left.
  - intros H. right. now apply IH.
Qed.

(** Every item of [x] is the first two fields of a row of the file. *)
Lemma read_symbol_rows_items (rows : list (list string))
  (x0 x : list (string * string)) (key val : string) :
  foldM (fun x row => match row with
                      | key :: val :: _ => ret (dict_set key val x)
                      | _ => raise IndexError
                      end) rows x0 = inr x ->
  In (key, val) x ->
  In (key, val) x0 \/ exists rest, In (key :: val :: rest) rows.
Proof.
  revert x0. induction rows as [| row rows IH]; intros x0; simpl.
  - intros [= <-]. now left.
  - destruct row as [| k [| v rest]]; simpl; try discriminate.
    intros H Hin. destruct (IH _ H Hin) as [H0 | [rest' Hrest]].
    + destruct (dict_set_In _ _ _ _ _ H0) as [E | Hx0]; [| now left].
      injection E as -> ->. right. exists rest. now left.
    + right. exists rest'. now right.
Qed.

Lemma read_symbol_rows_total (rows : list (list string))
  (x0 : list (string * string)) :
  Forall (fun row => 2 <= List.length row) rows ->
  exists x, foldM (fun x row => match row with
                                | key :: val :: _ => ret (dict_set key val x)
                                | _ => raise IndexError
                                end) rows x0 = inr x.
Proof.
  intros H. revert x0. induction H as [| row rows Hrow Hrows IH]; intros x0; simpl.
  - now exists x0.
  - destruct row as [| k [| v rest]]; simpl in Hrow; try lia. simpl. apply IH.
Qed.

Lemma read_symbol_rows_short (rows : list (list string))
  (x0 : list (string * string)) :
  ~ Forall (fun row => 2 <= List.length row) rows ->
  foldM (fun x row => match row with
                      | key :: val :: _ => ret (dict_set key val x)
                      | _ => raise IndexError
                      end) rows x0 = inl IndexError.
Proof.
  revert x0. induction rows as [| row rows IH]; intros x0 H; simpl.
  - exfalso. apply H. constructor.
  - destruct row as [| k [| v rest]]; try reflexivity.
    simpl. apply IH. intros Hrows. apply H. constructor; [simpl; lia | exact Hrows].
Qed.

(** Every entry of [gene_symbol_map] sends a previous symbol of an approved
    symbol that is not a gene id to that approved symbol. *)
Lemma add_previous_symbols_In (gene_symbols : list string)
  (m : list (string * string)) (item : string * string) (g key : string) :
  In (g, key) (add_previous_symbols gene_symbols m item) ->
  In (g, key) m \/
  (key = fst item /\ ~ In key gene_symbols /\ In g (split (snd item))).
Proof.
  unfold add_previous_symbols.
  assert (Hgen : forall pieces m,
    In (g, key) (fold_left (fun m v => if str_in (fst item) gene_symbols then m
                                       else dict_set v (fst item) m) pieces m) ->
    In (g, key) m \/
    (key = fst item /\ ~ In key gene_symbols /\ In g pieces)).
  { induction pieces as [| v pieces IH]; intros m0; simpl; [now left |].
    intros H. destruct (IH _ H) as [H0 | [Hk [Hn Hg]]].
    - destruct (str_in (fst item) gene_symbols) eqn:E; [now left |].
      destruct (dict_set_In _ _ _ _ _ H0) as [Eq | Hm]; [| now left].
      injection Eq as -> ->. right. split; [reflexivity |].
      split; [| now left]. intros Hin. apply str_in_iff in Hin. congruence.
    - right. auto. }
  apply Hgen.
Qed.

Lemma build_gene_symbol_map_In (gene_symbols : list string)
  (x m0 : list (string * string)) (g key : string) :
  In (g, key) (fold_left (add_previous_symbols gene_symbols) x m0) ->
  In (g, key) m0 \/
  (~ In key gene_symbols /\ exists val, In (key, val) x /\ In g (split val)).
Proof.
  revert m0. induction x as [| [k v] x IH]; intros m0; simpl; [now left |].
  intros H. destruct (IH _ H) as [H0 | [Hn [val [Hx Hg]]]].
  - destruct (add_previous_symbols_In _ _ _ _ _ H0) as [Hm | [Hk [Hn Hg]]];
      [now left |].
    simpl in Hk, Hg. subst k. right. split; [exact Hn |]. exists v. split; [now left | exact Hg].
  - right. split; [exact Hn |]. exists val. split; [now right | exact Hg].
Qed.

Lemma build_gene_symbol_map_nothing (gene_symbols : list string)
  (x m0 : list (string * string)) :
  (forall key val, In (key, val) x -> In key gene_symbols) ->
  fold_left (add_previous_symbols gene_symbols) x m0 = m0.
Proof.
  revert m0. induction x as [| [k v] x IH]; intros m0 H; simpl; [reflexivity |].
  rewrite IH by (intros key val Hin; apply (H key val); now right).
  unfold add_previous_symbols. simpl.
  assert (Hk : str_in k gene_symbols = true)
    by (apply str_in_iff, (H k v); now left).
  rewrite Hk. clear. induction (split v) as [| p ps IH]; simpl; auto.
Qed.

(** X11. [symbol_map] keeps the list of gene ids in place: the result has
    one entry per gene id, and each entry is either the gene id itself or
    an approved symbol of the map file that was not among the gene ids and
    that lists the gene id among its previous symbols. *)
Theorem symbol_map_renames_in_place (gene_symbols : list string)
  (rows : list (list string)) (renamed : list string) :
  symbol_map gene_symbols (Some rows) = inr renamed ->
  List.length renamed = List.length gene_symbols /\
  Forall2 (fun g s =>
             s = g \/
             (~ In s gene_symbols /\
              exists val rest, In (s :: val :: rest) rows /\ In g (split val)))
          gene_symbols renamed.
Proof.
  unfold symbol_map, read_symbol_rows.
  destruct (foldM _ rows []) as [e | x] eqn:Hx; simpl; [discriminate |].
  intros [= <-]. split; [apply length_map |].
  apply Forall2_map_r. intros g _. unfold replace.
  destruct (dict_get g (build_gene_symbol_map gene_symbols x)) as [key |] eqn:Hg;
    [| now left].
  right. apply dict_get_In in Hg. unfold build_gene_symbol_map in Hg.
  apply build_gene_symbol_map_In in Hg.
  destruct Hg as [[] | [Hn [val [Hin Hsplit]]]].
  split; [exact Hn |].
  destruct (@read_symbol_rows_items rows [] x key val Hx Hin)
    as [[] | [rest Hrow]].
  now exists val, rest.
Qed.

(** X12. When every approved symbol of the map file is already a gene id,
    [symbol_map] returns the gene ids unchanged. *)
Theorem symbol_map_identity (gene_symbols : list string)
  (rows : list (list string)) :
  Forall (fun row => 2 <= List.length row /\ In (hd EmptyString row) gene_symbols)
         rows ->
  symbol_map gene_symbols (Some rows) = inr gene_symbols.
Proof.
  intros H. unfold symbol_map, read_symbol_rows.
  destruct (@read_symbol_rows_total rows []) as [x Hx].
  { eapply Forall_impl; [| exact H]. now intros row [Hlen _]. }
  rewrite Hx. simpl. unfold ret. f_equal.
  unfold build_gene_symbol_map.
  rewrite build_gene_symbol_map_nothing.
  - rewrite <- (map_id gene_symbols) at 2. apply map_ext. reflexivity.
  - intros key val Hin.
    destruct (@read_symbol_rows_items rows [] x key val Hx Hin)
      as [[] | [rest Hrow]].
    rewrite Forall_forall in H. now destruct (H _ Hrow) as [_ Hkey].
Qed.

(** X13. [symbol_map] returns a list exactly when the map file can be
    opened and every row of it has at least two fields; a row with fewer
    raises IndexError, whatever the gene ids. *)
Theorem symbol_map_completes_iff (gene_symbols : list string)
  (gene_symbol_map_file : option (list (list string))) :
  ((exists renamed, symbol_map gene_symbols gene_symbol_map_file = inr renamed) <->
   exists rows, gene_symbol_map_file = Some rows /\
                Forall (fun row => 2 <= List.length row) rows) /\
  (forall rows, gene_symbol_map_file = Some rows ->
                ~ Forall (fun row => 2 <= List.length row) rows ->
                symbol_map gene_symbols gene_symbol_map_file = inl IndexError) /\
  (gene_symbol_map_file = None ->
   symbol_map gene_symbols gene_symbol_map_file = inl OSError).
Proof.
  assert (Hshort : forall rows,
    ~ Forall (fun row => 2 <= List.length row) rows ->
    symbol_map gene_symbols (Some rows) = inl IndexError).
  { intros rows Hn. unfold symbol_map, read_symbol_rows.
    now rewrite read_symbol_rows_short. }
  split; [| split].
  - split.
    + intros [renamed H]. destruct gene_symbol_map_file as [rows |];
        [| discriminate].
      exists rows. split; [reflexivity |].
      destruct (Forall_dec (fun row => 2 <= List.length row)
                  (fun row => le_dec 2 (List.length row)) rows) as [Hall | Hn];
        [exact Hall |].
      rewrite (Hshort rows Hn) in H. discriminate.
    + intros [rows [-> Hall]]. unfold symbol_map, read_symbol_rows.
      destruct (@read_symbol_rows_total rows [] Hall) as [x ->].
      simpl. eexists. reflexivity.
  - intros rows -> Hn. now apply Hshort.
  - intros ->. reflexivity.
Qed.

Lemma symbol_map_renames_in_place_witness :
  symbol_map ["OLD1"; "KEEP"; "NEW2"; "OLD3"]%string (Some approved_symbols)
    = inr ["NEW1"; "NEW3"; "NEW2"; "NEW3"]%string /\
  List.length ["NEW1"; "NEW3"; "NEW2"; "NEW3"]%string = 4.
Proof.
  split; [reflexivity |].
  apply (@symbol_map_renames_in_place ["OLD1"; "KEEP"; "NEW2"; "OLD3"]%string
           approved_symbols ["NEW1"; "NEW3"; "NEW2"; "NEW3"]%string eq_refl).
Defined.

Lemma symbol_map_identity_witness :
  symbol_map ["NEW1"; "NEW2"; "NEW3"; "OLD1"]%string (Some approved_symbols)
    = inr ["NEW1"; "NEW2"; "NEW3"; "OLD1"]%string.
Proof.
  apply symbol_map_identity. unfold approved_symbols.
  repeat constructor; simpl; auto; lia.
Defined.

(** * The collection of tasks *)

Lemma acceptable_has_columns (matrix : DataFrame) (task_variable : string)
  (all_sample_ids : list string) (min_samples_per_class : Z) :
  acceptable matrix task_variable all_sample_ids min_samples_per_class ->
  has_column matrix "sampleID" = true /\ has_column matrix task_variable = true.
Proof.
  intros [_ Hnum]. unfold num_categories, missing_categories in Hnum.
  destruct (has_column matrix "sampleID") eqn:Hs;
    [destruct (has_column matrix task_variable) eqn:Hv; [auto |] |];
    rewrite counted_values_absent in Hnum by auto; simpl in Hnum;
    destruct (numeric_column matrix task_variable); simpl in Hnum; lia.
Qed.

(** A counted line shares its sample id with a retained line. *)
Lemma counted_line_retained (matrix : DataFrame) (task_variable : string)
  (all_sample_ids : list string) (r : list cell) :
  counted_line matrix task_variable all_sample_ids r = true ->
  exists r' (x : string),
    at_column matrix "sampleID" r = Some x /\
    at_column matrix "sampleID" r' = Some x /\
    In r' (retained_rows matrix task_variable all_sample_ids).
Proof.
  unfold counted_line, in_task_samples.
  destruct (at_column matrix "sampleID" r) as [[b | n | x] |] eqn:Hx;
    try discriminate.
  intros H. apply andb_true_iff in H. destruct H as [Hall Hex].
  apply existsb_exists in Hex. destruct Hex as [r' [Hr' Hb]].
  apply andb_true_iff in Hb. destruct Hb as [Hid Hpresent].
  apply cell_eqb_eq in Hid.
  exists r', x. split; [reflexivity |]. split; [exact Hid |].
  apply filter_In. split; [exact Hr' |].
  unfold is_retained. rewrite Hpresent, Hid. exact Hall.
Qed.

Lemma acceptable_retains (matrix : DataFrame) (task_variable : string)
  (all_sample_ids : list string) (min_samples_per_class : Z) :
  acceptable matrix task_variable all_sample_ids min_samples_per_class ->
  retained_rows matrix task_variable all_sample_ids <> [].
Proof.
  intros [_ Hnum] Hnil.
  unfold num_categories, missing_categories, counted_values in Hnum.
  destruct (filter (counted_line matrix task_variable all_sample_ids) (rows matrix))
    as [| r rs] eqn:Hf.
  { simpl in Hnum. destruct (numeric_column matrix task_variable);
      simpl in Hnum; lia. }
  assert (Hr : In r (filter (counted_line matrix task_variable all_sample_ids)
                            (rows matrix))) by (rewrite Hf; now left).
  apply filter_In in Hr. destruct Hr as [_ Hr].
  destruct (counted_line_retained _ _ _ _ Hr) as [r' [x [_ [_ Hin]]]].
  rewrite Hnil in Hin. contradiction.
Qed.

(** Where the pairs of a catalog come from. *)
Lemma catalog_of_In (tables : list (string * DataFrame))
  (all_sample_ids : list string) (min_samples_per_class : Z)
  (task_variables : list string) (task_variable cancer : string) :
  In (task_variable, cancer)
     (catalog_of tables all_sample_ids min_samples_per_class task_variables) ->
  exists filename matrix,
    In (filename, matrix) tables /\
    split_head filename = cancer /\
    acceptable matrix task_variable all_sample_ids min_samples_per_class.
Proof.
  unfold catalog_of. intros H. apply in_flat_map in H.
  destruct H as [[filename matrix] [Ht Hin]].
  unfold table_tasks in Hin. simpl in Hin. apply in_map_iff in Hin.
  destruct Hin as [v [E Hv]]. injection E as -> <-.
  apply filter_In in Hv. destruct Hv as [_ Hp].
  exists filename, matrix. split; [exact Ht |]. split; [reflexivity |].
  now apply passes_iff.
Qed.

Lemma py_getitem_In {A : Type} (seq : list A) (index : Z) (a : A) :
  py_getitem seq index = inr a -> In a seq.
Proof.
  unfold py_getitem.
  destruct (_ && _); [| discriminate].
  destruct (nth_error seq _) as [b |] eqn:E; [| discriminate].
  intros [= <-]. exact (nth_error_In _ _ E).
Qed.

Lemma py_getitem_inside {A : Type} (seq : list A) (index : Z) :
  (- Z.of_nat (List.length seq) <= index < Z.of_nat (List.length seq))%Z ->
  exists a, py_getitem seq index = inr a.
Proof.
  intros H. destruct (Z.ltb_spec index 0) as [Hlt | Hge].
  - rewrite py_getitem_negative by lia.
    destruct (@py_getitem_nonnegative A seq (index + Z.of_nat (List.length seq)))
      as [a [_ Ha]]; [lia | now exists a].
  - destruct (@py_getitem_nonnegative A seq index) as [a [_ Ha]];
      [lia | now exists a].
Qed.

Lemma symbol_map_total (gene_symbols : list string) (rows : list (list string)) :
  Forall (fun row => 2 <= List.length row) rows ->
  exists renamed, symbol_map gene_symbols (Some rows) = inr renamed.
Proof.
  intros Hrows. unfold symbol_map, read_symbol_rows.
  destruct (@read_symbol_rows_total rows [] Hrows) as [x ->].
  simpl. eexists. reflexivity.
Qed.

Section CollectionProperties.

Variable V : Type.
Variable h5_rows : ExpressionMatrix V -> list nat -> result (ExpressionMatrix V).

(** Where the gene symbol map stands in the constructor: the gene ids are
    renamed once the identifier lists are loaded, and nothing that follows
    reads them. *)
Lemma TCGATask_init_symbols_eq
  (symbols : option (option (list (list string)))) (task_id : TaskId)
  (data_dir : DataDir V) (preloaded : option (Preloaded V)) :
  TCGATask_init_symbols h5_rows symbols task_id data_dir preloaded =
  (lists <- load_ids data_dir preloaded ;;
   renamed <- match symbols with
              | Some file => symbol_map (snd lists) file
              | None => ret (snd lists)
              end ;;
   task <- TCGATask_init h5_rows task_id data_dir preloaded ;;
   ret {| id := id task;
          gene_ids := renamed;
          _all_sample_ids := _all_sample_ids task;
          _labels := _labels task;
          categories := categories task;
          num_classes := num_classes task;
          _samples := _samples task;
          input_size := input_size task |}).
Proof.
  unfold TCGATask_init_symbols, TCGATask_init.
  destruct (load_ids data_dir preloaded) as [e | lists]; simpl; [reflexivity |].
  destruct (match symbols with
            | Some file => symbol_map (snd lists) file
            | None => ret (snd lists)
            end) as [e | renamed]; simpl; [reflexivity |].
  destruct (read_csv (clinicalMatrices data_dir) (snd task_id ++ "_clinicalMatrix"))
    as [e | matrix]; simpl; [reflexivity |].
  unfold filter_elements.
  destruct (getitem matrix "sampleID") as [e | ids]; simpl; [reflexivity |].
  destruct (getitem matrix (fst task_id)) as [e | attribute]; simpl;
    [reflexivity |].
  unfold sort_indices.
  destruct (mapM (index (fst lists)) _) as [e | indices_to_load]; simpl;
    [reflexivity |].
  destruct (unzip _) as [e | sorted_pairs]; simpl; [reflexivity |].
  unfold load_samples.
  destruct preloaded as [[[a g] data] |].
  - destruct (take_rows data (fst sorted_pairs)); reflexivity.
  - destruct (hdf5_file data_dir) as [dataset |]; [| reflexivity].
    destruct (h5_rows dataset (fst sorted_pairs)); reflexivity.
Qed.

(** Without a gene symbol map the constructor is [TCGATask_init]. *)
Lemma TCGATask_init_symbols_None (task_id : TaskId) (data_dir : DataDir V)
  (preloaded : option (Preloaded V)) :
  TCGATask_init_symbols h5_rows None task_id data_dir preloaded =
  TCGATask_init h5_rows task_id data_dir preloaded.
Proof.
  unfold TCGATask_init_symbols, TCGATask_init.
  destruct (load_ids data_dir preloaded) as [e | lists]; simpl; [reflexivity |].
  destruct (read_csv (clinicalMatrices data_dir) (snd task_id ++ "_clinicalMatrix"))
    as [e | matrix]; simpl; [reflexivity |].
  unfold filter_elements.
  destruct (getitem matrix "sampleID") as [e | ids]; simpl; [reflexivity |].
  destruct (getitem matrix (fst task_id)) as [e | attribute]; simpl;
    [reflexivity |].
  unfold sort_indices.
  destruct (mapM (index (fst lists)) _) as [e | indices_to_load]; simpl;
    [reflexivity |].
  destruct (unzip _) as [e | sorted_pairs]; simpl; [reflexivity |].
  unfold load_samples.
  destruct preloaded as [[[a g] data] |]; reflexivity.
Qed.

(** X14. The gene symbol map is cosmetic: a task built with a map file is
    the task built without it, its gene ids renamed by [symbol_map] and as
    many as before; labels, feature rows, categories and sample ids are
    the same. *)
Theorem symbol_map_is_cosmetic (file : option (list (list string)))
  (task_variable cancer : string) (data_dir : DataDir V)
  (preloaded : option (Preloaded V)) (renamed_task : TCGATask V) :
  TCGATask_init_symbols h5_rows (Some file) (task_variable, cancer)
                        data_dir preloaded = inr renamed_task ->
  exists task,
    TCGATask_init h5_rows (task_variable, cancer) data_dir preloaded = inr task /\
    symbol_map (gene_ids task) file = inr (gene_ids renamed_task) /\
    List.length (gene_ids renamed_task) = List.length (gene_ids task) /\
    id renamed_task = id task /\
    _all_sample_ids renamed_task = _all_sample_ids task /\
    _labels renamed_task = _labels task /\
    categories renamed_task = categories task /\
    num_classes renamed_task = num_classes task /\
    _samples renamed_task = _samples task /\
    input_size renamed_task = input_size task.
Proof.
  rewrite TCGATask_init_symbols_eq.
  destruct (load_ids data_dir preloaded) as [e | lists] eqn:Hids; [discriminate |].
  simpl.
  destruct (symbol_map (snd lists) file) as [e | renamed] eqn:Hmap; [discriminate |].
  simpl.
  destruct (TCGATask_init h5_rows (task_variable, cancer) data_dir preloaded)
    as [e | task] eqn:Htask; [discriminate |].
  simpl. intros [= <-]. exists task. simpl.
  apply TCGATask_init_inv in Htask.
  destruct Htask as [_ [_ [Hids' _]]].
  rewrite Hids in Hids'. injection Hids' as ->. simpl in Hmap.
  split; [reflexivity |]. split; [exact Hmap |].
  split; [| repeat split].
  destruct file as [rows |]; [| discriminate].
  unfold symbol_map in Hmap.
  destruct (read_symbol_rows rows); [discriminate |].
  simpl in Hmap. injection Hmap as <-. apply length_map.
Qed.

(** X15. A collection built with preloading indexes every task of its
    catalog: when the gene symbol map, if one is given, can be opened and
    has two fields at least on every row, the package data directory holds
    the same clinical tables as the directory the collection was built
    from, each named after its cancer type, and the store has a row for
    each global sample id, every index from [-len] to [len - 1] returns a
    task of the catalog with at least one row. *)
Theorem collection_indexes_its_catalog (d package_data_dir : DataDir V)
  (min_samples_per_class : Z) (task_variables : list string)
  (symbols : option (option (list (list string))))
  (meta : TCGAMeta V) (index : Z) :
  TCGAMeta_init d true min_samples_per_class (Some task_variables) symbols
    = inr meta ->
  (forall file, symbols = Some file ->
     exists rows, file = Some rows /\
                  Forall (fun row => 2 <= List.length row) rows) ->
  (forall filename,
     read_csv (clinicalMatrices package_data_dir) filename =
     read_csv (clinicalMatrices d) filename) ->
  (forall filename,
     In filename (map fst (clinicalMatrices d)) ->
     filename = (split_head filename ++ "_clinicalMatrix")%string) ->
  (forall all data,
     all_sample_ids_file d = Some all -> hdf5_file d = Some data ->
     List.length all <= List.length data) ->
  (- Z.of_nat (TCGAMeta_len meta) <= index < Z.of_nat (TCGAMeta_len meta))%Z ->
  exists task,
    TCGAMeta_getitem h5_rows package_data_dir (fun dataset => dataset) meta index
      = inr task /\
    In (id task) (task_ids meta) /\
    1 <= len task.
Proof.
  intros Hinit Hsymbols Hsame Hnames Hshape Hindex.
  unfold TCGAMeta_init in Hinit.
  destruct (get_TCGA_task_ids d min_samples_per_class (Some task_variables))
    as [e | catalog] eqn:Hget; [discriminate |].
  simpl in Hinit.
  apply get_TCGA_task_ids_inv in Hget.
  destruct Hget as [all [vars [tables [Hall [[= <-] [_ [Htables ->]]]]]]].
  unfold preload in Hinit. rewrite Hall in Hinit.
  destruct (hdf5_file d) as [data |] eqn:Hh5; [| discriminate].
  destruct (gene_ids_file d) as [genes |] eqn:Hg; [| discriminate].
  simpl in Hinit. injection Hinit as <-.
  unfold TCGAMeta_len in Hindex. simpl in Hindex.
  unfold TCGAMeta_getitem. simpl.
  destruct (py_getitem_inside _ Hindex) as [[v c] Hget]. rewrite Hget. simpl.
  pose proof (py_getitem_In _ _ Hget) as Hin.
  destruct (catalog_of_In _ _ _ _ _ _ Hin) as [filename [matrix [Ht [Hc Hacc]]]].
  apply (read_tables_ok _ _ Htables) in Ht. destruct Ht as [Hf Hread].
  rewrite (Hnames filename Hf), Hc, <- Hsame in Hread.
  destruct (acceptable_has_columns Hacc) as [Hs Hv].
  pose proof (acceptable_retains Hacc) as Hne.
  assert (Hbuild : exists task,
            TCGATask_init h5_rows (v, c) package_data_dir
                          (@Some (Preloaded V) (all, genes, data)) = inr task /\
            id task = (v, c) /\ 1 <= len task).
  { destruct (retained_rows matrix v all) as [| r rs] eqn:Hret; [congruence |].
    destruct (@take_rows_in_range V data
                (map fst (sorted (retained_pairs matrix v all))))
      as [samples Hsamples].
    { apply sorted_positions_in_range. now apply Hshape. }
    eexists.
    rewrite (@TCGATask_init_eq V h5_rows v c package_data_dir
               (@Some (Preloaded V) (all, genes, data)) all genes matrix
               eq_refl Hread).
    rewrite Hs, Hv, Hret. simpl. rewrite Hsamples. simpl.
    split; [reflexivity |]. simpl. split; [reflexivity |].
    unfold len. simpl. rewrite (take_rows_length _ _ Hsamples), length_map,
      sorted_pairs_length, retained_pairs_length, Hret. simpl. lia. }
  destruct Hbuild as [task [Htask [Hid Hlen]]].
  assert (Hrenamed : exists renamed,
            match symbols with
            | Some file => symbol_map genes file
            | None => ret genes
            end = inr renamed).
  { destruct symbols as [file |]; [| now exists genes].
    destruct (Hsymbols file eq_refl) as [rows [-> Hrows]].
    now apply symbol_map_total. }
  destruct Hrenamed as [renamed Hrenamed].
  rewrite TCGATask_init_symbols_eq. simpl. rewrite Hrenamed. simpl.
  rewrite Htask. simpl.
  eexists. split; [reflexivity |]. simpl.
  split; [now rewrite Hid | exact Hlen].
Qed.

(** X16. Indexing a collection builds the task from the package data
    directory, not from the directory the collection was built from.
    Without preloading, a package directory that lacks one of the two
    identifier lists makes indexing raise ValueError.  And once the
    identifier lists are there, preloaded or read from the package
    directory, and the gene symbol map, if one is given, has been applied:
    when the package directory cannot provide the table of the cancer type
    of a catalog entry, indexing that entry raises the exception of the
    read. *)
Theorem indexing_reads_the_package_directory (d package_data_dir : DataDir V)
  (preload_data : bool) (min_samples_per_class : Z)
  (task_variables_file : option (list string))
  (symbols : option (option (list (list string))))
  (meta : TCGAMeta V) (index : Z) (task_variable cancer : string) :
  TCGAMeta_init d preload_data min_samples_per_class task_variables_file symbols
    = inr meta ->
  py_getitem (task_ids meta) index = inr (task_variable, cancer) ->
  (preload_data = false ->
   gene_ids_file package_data_dir = None \/
   all_sample_ids_file package_data_dir = None ->
   TCGAMeta_getitem h5_rows package_data_dir (fun dataset => dataset) meta index
     = inl ValueError) /\
  (forall lists e,
     load_ids package_data_dir (preloaded meta) = inr lists ->
     (forall file, symbols = Some file ->
        exists renamed, symbol_map (snd lists) file = inr renamed) ->
     read_csv (clinicalMatrices package_data_dir)
              (cancer ++ "_clinicalMatrix")%string = inl e ->
     TCGAMeta_getitem h5_rows package_data_dir (fun dataset => dataset) meta index
       = inl e).
Proof.
  intros Hinit Hget. unfold TCGAMeta_init in Hinit.
  destruct (get_TCGA_task_ids _ _ _) as [e' | ids]; [discriminate |].
  simpl in Hinit.
  assert (Hmeta : gene_symbol_map_file meta = symbols /\
                  task_ids meta = ids /\
                  (preload_data = false -> preloaded meta = None)).
  { destruct preload_data.
    - destruct (preload d) as [e' | p]; [discriminate |].
      simpl in Hinit. injection Hinit as <-. simpl.
      repeat split. discriminate.
    - injection Hinit as <-. simpl. repeat split. }
  destruct Hmeta as [Hsymbols [Hids Hlazy]].
  unfold TCGAMeta_getitem. rewrite Hget. simpl.
  rewrite TCGATask_init_symbols_eq, Hsymbols.
  split.
  - intros Hfalse Hmissing. rewrite (Hlazy Hfalse). unfold load_ids.
    destruct Hmissing as [-> | ->]; [reflexivity |].
    destruct (gene_ids_file package_data_dir); reflexivity.
  - intros lists e Hlists Hrenamed Hread. rewrite Hlists. simpl.
    assert (Hmap : exists renamed,
              match symbols with
              | Some file => symbol_map (snd lists) file
              | None => ret (snd lists)
              end = inr renamed).
    { destruct symbols as [file |]; [now apply Hrenamed | now eexists]. }
    destruct Hmap as [renamed ->]. simpl.
    unfold TCGATask_init. simpl. rewrite Hlists. simpl. now rewrite Hread.
Qed.

End CollectionProperties.

(** ** What the catalog promises of a task *)

Lemma unique_sample_id {A : Type} (f : A -> cell) (l : list A) (r r' : A)
  (x : scalar) :
  NoDup (dropna (map f l)) ->
  In r l -> In r' l -> f r = Some x -> f r' = Some x -> r = r'.
Proof.
  induction l as [| a l IH]; simpl; [contradiction |].
  intros Hnd Hr Hr' Hx Hx'.
  assert (Hfresh : forall b, In b l -> f b = Some x -> f a <> Some x).
  { intros b Hb Hfb Hfa. rewrite Hfa in Hnd.
    inversion Hnd as [| ? ? Hnotin _]; subst. apply Hnotin.
    apply dropna_In. rewrite <- Hfb. now apply in_map. }
  assert (Hnd' : NoDup (dropna (map f l))).
  { destruct (f a); [now inversion Hnd | exact Hnd]. }
  destruct Hr as [-> | Hr], Hr' as [-> | Hr'].
  - reflexivity.
  - exfalso. exact (Hfresh r' Hr' Hx' Hx).
  - exfalso. exact (Hfresh r Hr Hx Hx').
  - now apply IH.
Qed.

(** When no sample id stands on two lines of the table, the lines that
    discovery counts are the lines that materialization retains. *)
Lemma counted_values_retained (matrix : DataFrame) (task_variable : string)
  (all_sample_ids : list string) :
  NoDup (dropna (map (at_column matrix "sampleID") (rows matrix))) ->
  counted_values matrix task_variable all_sample_ids =
  retained_values matrix task_variable all_sample_ids.
Proof.
  intros Hnd. unfold counted_values, retained_values, retained_rows. f_equal.
  apply filter_ext_in. intros r Hr. apply eq_true_iff_eq. split.
  - intros Hc. destruct (counted_line_retained _ _ _ _ Hc) as [r' [x [Hx [Hx' Hk]]]].
    apply filter_In in Hk. destruct Hk as [Hr' Hk].
    now rewrite (@unique_sample_id _ (at_column matrix "sampleID") (rows matrix)
                   r r' (Str x) Hnd Hr Hr' Hx Hx').
  - intros Hk. apply is_retained_inv in Hk.
    destruct Hk as [x [value [Hx [Hall Hval]]]].
    unfold counted_line, in_task_samples. rewrite Hx.
    apply andb_true_iff. split; [now apply str_in_iff |].
    apply existsb_exists. exists r. split; [exact Hr |].
    rewrite Hx, Hval. apply andb_true_iff.
    split; [now apply cell_eqb_eq | reflexivity].
Qed.

Lemma retained_values_present (matrix : DataFrame) (task_variable : string)
  (all_sample_ids : list string) :
  ~ In None (retained_values matrix task_variable all_sample_ids).
Proof.
  unfold retained_values. intros H. apply in_map_iff in H.
  destruct H as [r [Hnone Hr]]. apply retained_rows_In in Hr.
  destruct Hr as [_ [x [value [_ [_ Hval]]]]]. congruence.
Qed.

Lemma count_occ_map_iff {A : Type} (f : A -> Z) (g : A -> cell) (l : list A)
  (k : Z) (c : cell) :
  (forall a, In a l -> f a = k <-> g a = c) ->
  count_occ Z.eq_dec (map f l) k = count_occ cell_eq_dec (map g l) c.
Proof.
  induction l as [| a l IH]; simpl; intros H; [reflexivity |].
  rewrite IH by (intros b Hb; apply H; now right).
  destruct (H a (or_introl eq_refl)) as [H1 H2].
  destruct (Z.eq_dec (f a) k) as [E | N], (cell_eq_dec (g a) c) as [E' | N'];
    try reflexivity.
  - now apply H1 in E.
  - now apply H2 in E'.
Qed.

Section CatalogPromise.

Variable V : Type.
Variable h5_rows : ExpressionMatrix V -> list nat -> result (ExpressionMatrix V).

(** X17. What discovery promises holds of the task when no sample id
    stands on two lines of the clinical table: a pair of the catalog, once
    materialized from the table it was discovered in, has at least two
    classes, and every class has more than [min_samples_per_class] rows. *)
Theorem catalog_task_has_supported_classes (data_dir : DataDir V)
  (min_samples_per_class : Z) (task_variables : list string)
  (catalog : list TaskId) (task_variable cancer : string)
  (preloaded : option (Preloaded V)) (task : TCGATask V) (matrix : DataFrame) :
  get_TCGA_task_ids data_dir min_samples_per_class (Some task_variables)
    = inr catalog ->
  In (task_variable, cancer) catalog ->
  (forall filename,
     In filename (map fst (clinicalMatrices data_dir)) ->
     split_head filename = cancer ->
     filename = (cancer ++ "_clinicalMatrix")%string) ->
  read_csv (clinicalMatrices data_dir) (cancer ++ "_clinicalMatrix")%string
    = inr matrix ->
  NoDup (dropna (map (at_column matrix "sampleID") (rows matrix))) ->
  TCGATask_init h5_rows (task_variable, cancer) data_dir preloaded = inr task ->
  all_sample_ids_file data_dir = Some (_all_sample_ids task) ->
  2 <= num_classes task /\
  forall k, (0 <= k < Z.of_nat (num_classes task))%Z ->
            (min_samples_per_class <
             Z.of_nat (count_occ Z.eq_dec (_labels task) k))%Z.
Proof.
  intros Hget Hin Hnames Hread Hnd Htask Hall.
  apply get_TCGA_task_ids_inv in Hget.
  destruct Hget as [all' [vars [tables [Hall' [[= <-] [_ [Htables ->]]]]]]].
  rewrite Hall in Hall'. injection Hall' as <-.
  destruct (catalog_of_In _ _ _ _ _ _ Hin) as [filename [matrix' [Ht [Hc Hacc]]]].
  apply (read_tables_ok _ _ Htables) in Ht. destruct Ht as [Hf Hread'].
  rewrite (Hnames filename Hf Hc), Hread in Hread'. injection Hread' as <-.
  apply TCGATask_init_inv in Htask.
  destruct Htask as [matrix' [Hread' [_ [_ [_ [_ [_ [Hlab [Hcat [Hnum _]]]]]]]]]].
  rewrite Hread in Hread'. injection Hread' as <-.
  set (all := _all_sample_ids task) in *.
  destruct Hacc as [Hcount Hcats].
  unfold num_categories, missing_categories in Hcats.
  rewrite (@counted_values_retained matrix task_variable all Hnd)
    in Hcount, Hcats.
  rewrite (proj1 (count_occ_not_In cell_eq_dec
                    (retained_values matrix task_variable all) None)
                 (@retained_values_present matrix task_variable all))
    in Hcats.
  assert (Hclasses : num_classes task =
            List.length (nodup scalar_eq_dec
                           (dropna (retained_values matrix task_variable all)))).
  { rewrite Hnum, Hcat. unfold cat_categories. symmetry.
    apply Permutation_length, ScalarSort.Permuted_sort. }
  split.
  { destruct (numeric_column matrix task_variable); simpl in Hcats; lia. }
  intros k Hk.
  assert (Hi : Z.to_nat k < List.length (cat_categories (retained_values matrix task_variable all)))
    by (rewrite <- Hcat, <- Hnum; lia).
  destruct (nth_error (cat_categories (retained_values matrix task_variable all)) (Z.to_nat k))
    as [x |] eqn:Hx; [| apply nth_error_None in Hx; lia].
  assert (Hvalue : In (Some x) (retained_values matrix task_variable all))
    by (apply cat_categories_In; exact (nth_error_In _ _ Hx)).
  specialize (Hcount (Some x) Hvalue).
  unfold category_count in Hcount.
  rewrite (@counted_values_retained matrix task_variable all Hnd) in Hcount.
  replace (count_occ Z.eq_dec (_labels task) k)
    with (count_occ cell_eq_dec (retained_values matrix task_variable all) (Some x));
    [exact Hcount |].
  symmetry. rewrite Hlab.
  transitivity (count_occ Z.eq_dec
                  (map (row_label matrix task_variable all)
                       (retained_rows matrix task_variable all)) k).
  - apply Permutation_count_occ.
    transitivity (map snd (retained_pairs matrix task_variable all)).
    + apply Permutation_map. symmetry. apply sorted_perm.
    + unfold retained_pairs. rewrite map_map. simpl. reflexivity.
  - unfold retained_values. apply count_occ_map_iff. intros r Hr.
    destruct (row_label_ok _ _ _ _ Hr) as [y [i [Hy [Hl [Hnth Hlt]]]]].
    fold all in Hl, Hnth, Hlt. rewrite Hl, Hy. split.
    + intros E. assert (i = Z.to_nat k) by lia. subst i. congruence.
    + intros [= ->].
      assert (i = Z.to_nat k).
      { apply (proj1 (NoDup_nth_error
                        (cat_categories (retained_values matrix task_variable all)))
                     (cat_categories_NoDup _)); [exact Hlt |].
        congruence. }
      lia.
Qed.

End CatalogPromise.

(** ** The collection on the literal scenario *)

Lemma symbol_map_is_cosmetic_witness :
  exists task,
    TCGATask_init (@take_rows Z) ("sex", "CANCER")%string
                  (scenario (inr balanced)) None = inr task /\
    symbol_map (gene_ids task) (Some [["G1"; "g1"]%string])
      = inr (gene_ids renamed_task) /\
    _labels renamed_task = _labels task /\
    _samples renamed_task = _samples task.
Proof.
  destruct (@symbol_map_is_cosmetic Z (@take_rows Z)
              (Some [["G1"; "g1"]%string]) "sex"%string "CANCER"%string
              (scenario (inr balanced)) None renamed_task eq_refl)
    as [task [Htask [Hmap [_ [_ [_ [Hlab [_ [_ [Hsam _]]]]]]]]]].
  exists task. auto.
Defined.

Lemma collection_indexes_its_catalog_witness :
  exists task,
    TCGAMeta_getitem (@take_rows Z) (scenario (inr balanced))
                     (fun dataset => dataset) scenario_meta_symbols (-1)
      = inr task /\
    In (id task) (task_ids scenario_meta_symbols) /\
    1 <= len task.
Proof.
  apply (@collection_indexes_its_catalog Z (@take_rows Z)
           (scenario (inr balanced)) (scenario (inr balanced)) 1
           ["sex"%string] (Some (Some [["G1"; "g1"]%string]))
           scenario_meta_symbols (-1)%Z eq_refl).
  - intros file [= <-]. eexists. split; [reflexivity |].
    repeat constructor.
  - reflexivity.
  - intros filename [<- | []]. reflexivity.
  - intros all data [= <-] [= <-]. simpl. lia.
  - simpl. lia.
Defined.

Lemma indexing_reads_the_package_directory_witness :
  TCGAMeta_getitem (@take_rows Z) bare_package (fun dataset => dataset)
                   scenario_meta_symbols 0 = inl OSError /\
  TCGAMeta_getitem (@take_rows Z) empty_package (fun dataset => dataset)
                   scenario_meta_lazy 0 = inl ValueError.
Proof.
  split.
  - apply (proj2 (@indexing_reads_the_package_directory Z (@take_rows Z)
             (scenario (inr balanced)) bare_package true 1
             (Some ["sex"%string]) (Some (Some [["G1"; "g1"]%string]))
             scenario_meta_symbols 0%Z "sex"%string "CANCER"%string
             eq_refl eq_refl)
           (four_samples, ["g1"; "g2"]%string) OSError eq_refl).
    + intros file [= <-]. eexists. reflexivity.
    + reflexivity.
  - apply (proj1 (@indexing_reads_the_package_directory Z (@take_rows Z)
             (scenario (inr balanced)) empty_package false 1
             (Some ["sex"%string]) None
             scenario_meta_lazy 0%Z "sex"%string "CANCER"%string
             eq_refl eq_refl) eq_refl).
    now left.
Defined.

Lemma catalog_task_has_supported_classes_witness :
  2 <= num_classes balanced_task /\
  forall k, (0 <= k < 2)%Z ->
            (1 < Z.of_nat (count_occ Z.eq_dec (_labels balanced_task) k))%Z.
Proof.
  apply (@catalog_task_has_supported_classes Z (@take_rows Z)
           (scenario (inr balanced)) 1 ["sex"%string]
           [("sex", "CANCER")%string] "sex"%string "CANCER"%string None
           balanced_task balanced eq_refl (or_introl eq_refl)).
  - intros filename [<- | []] _. reflexivity.
  - reflexivity.
  - vm_compute. repeat constructor; simpl; intuition discriminate.
  - exact balanced_task_built.
  - reflexivity.
Defined.

(** ** Distinct pairs *)

Lemma read_tables_names (dir : list (string * result DataFrame))
  (filenames : list string) (tables : list (string * DataFrame)) :
  read_tables dir filenames = inr tables -> map fst tables = filenames.
Proof.
  unfold read_tables. revert tables.
  induction filenames as [| f fs IH]; intros tables; simpl.
  - now intros [= <-].
  - destruct (read_csv dir f) as [e | m]; simpl; [discriminate |].
    destruct (mapM _ fs) as [e | ts]; simpl; [discriminate |].
    intros [= <-]. simpl. now rewrite (IH ts eq_refl).
Qed.

Lemma table_tasks_NoDup (filename : string) (matrix : DataFrame)
  (all_sample_ids : list string) (min_samples_per_class : Z)
  (task_variables : list string) :
  NoDup task_variables ->
  NoDup (table_tasks filename matrix all_sample_ids min_samples_per_class
                     task_variables).
Proof.
  intros H. unfold table_tasks.
  apply Finite.Injective_map_NoDup; [| now apply NoDup_filter].
  intros v v' E. now injection E.
Qed.

Lemma table_tasks_cancer (filename : string) (matrix : DataFrame)
  (all_sample_ids : list string) (min_samples_per_class : Z)
  (task_variables : list string) (task_id : TaskId) :
  In task_id (table_tasks filename matrix all_sample_ids min_samples_per_class
                          task_variables) ->
  snd task_id = split_head filename.
Proof.
  unfold table_tasks. intros H. apply in_map_iff in H.
  destruct H as [v [<- _]]. reflexivity.
Qed.

Lemma catalog_of_NoDup (tables : list (string * DataFrame))
  (all_sample_ids : list string) (min_samples_per_class : Z)
  (task_variables : list string) :
  NoDup task_variables ->
  NoDup (map split_head (map fst tables)) ->
  NoDup (catalog_of tables all_sample_ids min_samples_per_class task_variables).
Proof.
  intros Hvars. unfold catalog_of.
  induction tables as [| t tables IH]; simpl; intros Hnd; [constructor |].
  inversion Hnd as [| ? ? Hnotin Hnd']; subst.
  apply NoDup_app; [now apply table_tasks_NoDup | now apply IH |].
  intros task_id Hin Hin'. apply table_tasks_cancer in Hin.
  apply in_flat_map in Hin'. destruct Hin' as [t' [Ht' Hin']].
  apply table_tasks_cancer in Hin'. apply Hnotin.
  rewrite <- Hin, Hin'. apply in_map, in_map, Ht'.
Qed.

(** X18. The catalog names no pair twice when the task-variable file lists
    no variable twice and no two files of the clinical directory have the
    same cancer type. *)
Theorem catalog_pairs_are_distinct (V : Type) (data_dir : DataDir V)
  (min_samples_per_class : Z) (task_variables : list string)
  (catalog : list TaskId) :
  get_TCGA_task_ids data_dir min_samples_per_class (Some task_variables)
    = inr catalog ->
  NoDup task_variables ->
  NoDup (map split_head (map fst (clinicalMatrices data_dir))) ->
  NoDup catalog.
Proof.
  intros Hget Hvars Hfiles. apply get_TCGA_task_ids_inv in Hget.
  destruct Hget as [all [vars [tables [_ [[= <-] [_ [Htables ->]]]]]]].
  apply catalog_of_NoDup; [exact Hvars |].
  now rewrite (read_tables_names _ _ Htables).
Qed.

Lemma catalog_pairs_are_distinct_witness :
  NoDup [("sex", "CANCER")%string].
Proof.
  apply (@catalog_pairs_are_distinct Z (scenario (inr balanced)) 1
           ["sex"; "age"]%string [("sex", "CANCER")%string] eq_refl).
  - repeat constructor; simpl; intuition discriminate.
  - repeat constructor; simpl; intuition.
Defined.
